(** * UltimaOfferta backend: offer lifecycle reconciliation and notification
    matching, fan-out and retraction

    A shallow embedding of the ingestion handler (routes, [/manage-offer]),
    of the datastore helpers it calls (services/postgres.js,
    services/firestore.js), of the notification services
    (notifyUsersAboutOffer, withdrawOfferNotifications, ...) and of the pure
    helpers of utils.js, followed by the properties of the specification.
    The queries behind the inbox endpoints, the update of a user, the
    removal of a favorite, the categorization call and the paging of the
    catalogue are embedded as well, with the properties the code shows
    for them.

    Conventions of the embedding.
    - Text is [string] over 8-bit characters; the character classes of the
      regular expressions are written out for the 7-bit range, which is the
      range the model covers.
    - Numbers (timestamps in milliseconds, prices, discounts) are [Z]; only
      their order and equality are used by the code modelled here.
    - An event field is a [field]: the key is absent, holds JSON null, or
      holds a value of its documented type.
    - The relational tables are lists of rows, a query is a filter or a map
      over the list.  Statements that can fail are given their outcome by the
      environment where the code distinguishes it. *)

From Stdlib Require Import ZArith Lia Ascii String.
From Stdlib Require Import Sorted.
From stdpp Require Import base option list strings pretty gmap.

Local Open Scope Z_scope.

(** ** JavaScript values and coercions *)

Module Js.

(** The values [toBool] of utils.js inspects. *)
Inductive jsval :=
| JUndefined
| JNull
| JBool (b : bool)
| JNum (z : Z)
| JStr (s : string).

(** An object key of an event: absent, null, or a value. *)
Inductive field (A : Type) :=
| Absent
| Null
| Val (a : A).
Global Arguments Absent {A}.
Global Arguments Null {A}.
Global Arguments Val {A} a.

(** [x ?? d] *)
Definition nullish {A} (x : field A) (d : A) : A :=
  match x with Val a => a | _ => d end.

(** [key in obj] *)
Definition present {A} (x : field A) : bool :=
  match x with Absent => false | _ => true end.

(** Truthiness of a string and of a number. *)
Definition truthy_str (s : string) : bool :=
  match s with EmptyString => false | _ => true end.
Definition truthy_num (z : Z) : bool := negb (z =? 0).

(** [x || d] on a string-valued key. *)
Definition str_or (x : field string) (d : string) : string :=
  match x with
  | Val s => if truthy_str s then s else d
  | _ => d
  end.

Definition jsval_of_flag (x : field bool) : jsval :=
  match x with Absent => JUndefined | Null => JNull | Val b => JBool b end.

(** *** Characters *)

Definition code (c : ascii) : nat := nat_of_ascii c.

Definition is_upper (c : ascii) : bool :=
  ((65 <=? code c) && (code c <=? 90))%nat.
Definition is_lower (c : ascii) : bool :=
  ((97 <=? code c) && (code c <=? 122))%nat.
Definition is_digit (c : ascii) : bool :=
  ((48 <=? code c) && (code c <=? 57))%nat.
Definition is_letter (c : ascii) : bool := is_upper c || is_lower c.

(** [\s]: tab, line feed, vertical tab, form feed, carriage return, space. *)
Definition is_space (c : ascii) : bool :=
  ((9 <=? code c) && (code c <=? 13) || (code c =? 32))%nat.

(** [\w] is [[A-Za-z0-9_]]. *)
Definition is_word (c : ascii) : bool :=
  (is_letter c || is_digit c || (code c =? 95))%nat.

Definition lower_char (c : ascii) : ascii :=
  if is_upper c then ascii_of_nat (code c + 32) else c.
Definition upper_char (c : ascii) : ascii :=
  if is_lower c then ascii_of_nat (code c - 32) else c.

(** *** Strings *)

Fixpoint map_chars (f : ascii -> ascii) (s : string) : string :=
  match s with
  | EmptyString => EmptyString
  | String c r => String (f c) (map_chars f r)
  end.

Definition toLowerCase : string -> string := map_chars lower_char.

Fixpoint drop_spaces (s : string) : string :=
  match s with
  | String c r => if is_space c then drop_spaces r else s
  | EmptyString => EmptyString
  end.

(** [s.trim()] *)
Definition trim (s : string) : string :=
  String.rev (drop_spaces (String.rev (drop_spaces s))).

(** [s.replace(/\s+/g, ' ')]; [in_run] tells that the previous character
    was white space. *)
Fixpoint collapse_go (in_run : bool) (s : string) : string :=
  match s with
  | EmptyString => EmptyString
  | String c r =>
      if is_space c then
        if in_run then collapse_go true r
        else String " "%char (collapse_go true r)
      else String c (collapse_go false r)
  end.
Definition collapse_spaces : string -> string := collapse_go false.

(** [w.charAt(0).toUpperCase() + w.slice(1)] *)
Definition capitalize (w : string) : string :=
  match w with
  | EmptyString => EmptyString
  | String c r => String (upper_char c) r
  end.

(** [s.split(sep)] for a one-character separator; the accumulator holds
    the characters of the current piece, last one first. *)
Fixpoint split_go (sep : ascii) (cur : string) (s : string) : list string :=
  match s with
  | EmptyString => [String.rev cur]
  | String c r =>
      if Ascii.eqb c sep then String.rev cur :: split_go sep EmptyString r
      else split_go sep (String c cur) r
  end.
Definition split (sep : ascii) (s : string) : list string :=
  split_go sep EmptyString s.

(** [parts.join(sep)] *)
Fixpoint join (sep : string) (l : list string) : string :=
  match l with
  | [] => EmptyString
  | [x] => x
  | x :: r => x +:+ sep +:+ join sep r
  end.

Fixpoint starts_with (p s : string) : bool :=
  match p, s with
  | EmptyString, _ => true
  | String a p', String b s' => Ascii.eqb a b && starts_with p' s'
  | String _ _, EmptyString => false
  end.

(** [s.includes(p)] *)
Fixpoint includes (p s : string) : bool :=
  starts_with p s ||
  match s with
  | EmptyString => false
  | String _ r => includes p r
  end.

(** [xs.includes(x)] on an array of strings. *)
Definition mem_str (x : string) (l : list string) : bool :=
  bool_decide (x ∈ l).

(** [Array.from(new Set(xs))] and the [seen]-set loops: the first
    occurrence of every key is kept, in order. *)
Fixpoint dedup_by {A K} `{Countable K} (key : A -> K) (seen : gset K)
    (l : list A) : list A :=
  match l with
  | [] => []
  | x :: r =>
      if decide (key x ∈ seen) then dedup_by key seen r
      else x :: dedup_by key ({[key x]} ∪ seen) r
  end.

Definition set_to_array {K} `{Countable K} (l : list K) : list K :=
  dedup_by (fun k => k) ∅ l.

(** [for (i = 0; i < xs.length; i += n) chunks.push(xs.slice(i, i + n))] *)
Fixpoint chunks_go {A} (fuel n : nat) (l : list A) : list (list A) :=
  match fuel, l with
  | S fuel', _ :: _ => take n l :: chunks_go fuel' n (drop n l)
  | _, _ => []
  end.
Definition chunks {A} (n : nat) (l : list A) : list (list A) :=
  chunks_go (length l) n l.

End Js.

(** ** utils.js and config.js *)

Module Utils.
Import Js.

(** [toBool(value)] *)
Definition toBool (value : jsval) : bool :=
  match value with
  | JBool b => b
  | JNull | JUndefined => false
  | JNum z => z =? 1
  | JStr s => mem_str (toLowerCase (trim s)) ["1"; "t"; "true"; "yes"; "on"]
  end.

Definition CATEGORIES : list string :=
  [ "Abbigliamento"; "Grandi elettrodomestici"; "Auto e Moto";
    "Prima infanzia"; "Bellezza"; "Libri"; "Informatica";
    "Musica Digitale"; "Elettronica"; "Altro"; "Moda";
    "Giardino e giardinaggio"; "Buoni Regalo";
    "Alimentari e cura della casa"; "Handmade";
    "Salute e cura della persona"; "Casa e cucina";
    "Industria e Scienza"; "Gioielli"; "Kindle Store"; "Illuminazione";
    "Valigeria"; "App e Giochi"; "Film e TV"; "CD e Vinili";
    "Strumenti musicali e DJ"; "Cancelleria e prodotti per ufficio";
    "Prodotti per animali domestici"; "Scarpe e borse"; "Software";
    "Sport e tempo libero"; "Fai da te"; "Giochi e giocattoli";
    "Videogiochi"; "Orologi"; "Uncategorized" ].

Definition SKIP_CHANNELS : list string :=
  [ "-1003191179900"; "-1002335639614"; "-1001313053355" ].

Definition subCategoriesMap : list (string * list string) :=
  [ ("Tecnologia", ["informatica"; "elettronica"]);
    ("Moda", ["abbigliamento"; "moda"; "gioielli"; "valigeria";
              "scarpe e borse"; "orologi"]);
    ("Casa", ["grandi elettrodomestici"; "casa e cucina"; "illuminazione"]);
    ("Spesa", ["alimentari e cura della casa";
               "salute e cura della persona"]);
    ("Bellezza", ["bellezza"]);
    ("Animali", ["prodotti per animali domestici"]);
    ("Infanzia", ["prima infanzia"]);
    ("Libri", ["libri"; "kindle store"]);
    ("Tempo Libero", ["giardino e giardinaggio"; "sport e tempo libero";
                      "fai da te"]);
    ("Altro", ["auto e moto"; "musica digitale"; "altro";
               "libri in altre lingue"; "buoni regalo"; "handmade";
               "app e giochi"; "film e tv"; "cd e vinili";
               "strumenti musicali e dj"; "software"; "videogiochi";
               "cancelleria e prodotti per ufficio"; "industria e scienza";
               "giochi e giocattoli"]) ].

(** [determineMainCategory(originalCategory)]; the argument is
    [post.category_original ?? null]. *)
Definition determineMainCategory (originalCategory : field string) : string :=
  match originalCategory with
  | Val c =>
      if truthy_str c then
        let normalized := trim (toLowerCase c) in
        match
          List.find
            (fun e => existsb (fun sub => includes sub normalized) (snd e))
            subCategoriesMap
        with
        | Some e => fst e
        | None => "Altro"
        end
      else "Altro"
  | _ => "Altro"
  end.

(** [title.toLowerCase().replace(/[^\w\s]/g, ' ')] *)
Definition clean_title (title : string) : string :=
  map_chars (fun c => if is_word c || is_space c then c else " "%char)
            (toLowerCase title).

(** [extractWordsFromTitle(title)] *)
Definition extractWordsFromTitle (title : string) : list string :=
  let words :=
    List.filter (fun w => (3 <=? String.length w)%nat)
                (List.map trim (split " " (clean_title title))) in
  set_to_array words.

(** [deleteAtPlusDays(days = 7)], with [now] the value of [Date.now()]. *)
Definition deleteAtPlusDays (now : Z) (days : Z) : Z :=
  now + days * 24 * 60 * 60 * 1000.

(** [nowMs()] *)
Definition nowMs (now : Z) : Z := now.

End Utils.

(** ** Priority of the reporting channel *)

Module Arbiter.

(** [getChannelPriority(id)] *)
Definition getChannelPriority (id : string) : Z :=
  if String.eqb id "-1001305107383" then 1
  else if String.eqb id "-1001207516682" then 2
  else 3.

End Arbiter.

(** ** The tables *)

Module Db.
Import Js.

Inductive sqlval :=
| SNull
| SBool (b : bool)
| SInt (z : Z)
| SText (s : string).

Global Instance sqlval_eq_dec : EqDecision sqlval.
Proof. solve_decision. Defined.

(** A row of [offers]: its key [offer_id] and the other columns by name,
    as in the [row] object the code builds; a column that is missing
    from the map is NULL. *)
Record offer_row := Offer {
  offer_id : string;
  cols : gmap string sqlval
}.

(** A row of [favorites]. *)
Record favorite_row := Favorite {
  fav_id : Z;
  fav_uid : string;
  fav_key : string;
  fav_type : string;
  fav_category : option string;
  fav_store : option string;
  fav_min_price : option Z;
  fav_max_price : option Z;
  fav_min_discount : option Z
}.

(** A row of [users]. *)
Record user_row := User {
  u_uid : string;
  u_token_fcm : option string;
  u_superoffers : option bool;
  u_favorites_searches : option bool;
  u_favorites_products : option bool
}.

(** A row of [notifications]; both the fan-out and the notification
    journal of services/firestore.js insert into it. *)
Record notification_row := Notification {
  n_id : Z;
  n_offer_id : option string;
  n_title : option string;
  n_target : option string;
  n_created_at : Z;
  n_uid : option string;
  n_type : option string
}.

(** A row of [users_notifications], the delivery receipt. *)
Record receipt_row := Receipt {
  un_uid : string;
  un_sent_at : Z;
  un_notification_id : option Z;
  un_withdrawn : option bool;
  un_read : option bool;
  un_reason : option string
}.

Record world := World {
  offers : list offer_row;
  favorites : list favorite_row;
  users : list user_row;
  notifications : list notification_row;
  users_notifications : list receipt_row;
  (** the sequence behind [notifications.id] *)
  notifications_seq : Z
}.

Definition with_offers (w : world) (t : list offer_row) : world :=
  {| offers := t; favorites := favorites w; users := users w;
     notifications := notifications w;
     users_notifications := users_notifications w;
     notifications_seq := notifications_seq w |}.

Definition with_receipts (w : world) (t : list receipt_row) : world :=
  {| offers := offers w; favorites := favorites w; users := users w;
     notifications := notifications w;
     users_notifications := t;
     notifications_seq := notifications_seq w |}.

(** [INSERT INTO notifications ... RETURNING id] *)
Definition insert_notification (w : world)
    (mk : Z -> notification_row) : Z * world :=
  let id := notifications_seq w + 1 in
  (id, {| offers := offers w; favorites := favorites w; users := users w;
          notifications := notifications w ++ [mk id];
          users_notifications := users_notifications w;
          notifications_seq := id |}).

(** The JavaScript value a column of a fetched row reads as. *)
Definition js_of_col (v : option sqlval) : jsval :=
  match v with
  | None => JUndefined
  | Some SNull => JNull
  | Some (SBool b) => JBool b
  | Some (SInt z) => JNum z
  | Some (SText s) => JStr s
  end.

Definition col (r : offer_row) (c : string) : option sqlval := cols r !! c.

(** [String(v || '')] on a fetched column. *)
Definition col_string_or_empty (v : option sqlval) : string :=
  match v with
  | Some (SText s) => s
  | Some (SInt z) => if z =? 0 then "" else pretty z
  | Some (SBool true) => "true"
  | _ => ""
  end.

(** [WHERE "offer_id" = $1] *)
Definition has_id (id : string) (r : offer_row) : bool :=
  bool_decide (offer_id r = id).

(** [WHERE "code" = $1] *)
Definition has_code (c : string) (r : offer_row) : bool :=
  bool_decide (col r "code" = Some (SText c)).

End Db.

(** ** The ingestion event *)

Module Event.
Import Js.

(** The [post] object of the envelope, with the keys the handler and the
    fan-out read or assign.  [post_chatgpt_title] is [post.chatgpt.title];
    [post_main_category] and [post_daily_offer] are assigned by the handler
    before the row is built. *)
Record post := Post {
  post_offer_id : field string;
  post_code : field string;
  post_channel_id : field string;
  post_link : field string;
  post_title : field string;
  post_title_clean : field string;
  post_chatgpt_title : field string;
  post_is_explicit : field bool;
  post_is_expired : field bool;
  post_is_deleted : field bool;
  post_super_offer_notify : field bool;
  post_timestamp : field Z;
  post_timestamp_expired : field Z;
  post_price_numeric : field Z;
  post_perc : field Z;
  post_store : field string;
  post_store_name : field string;
  post_category : field string;
  post_category_original : field string;
  post_main_category : field string;
  post_daily_offer : field bool
}.

(** The request body: [{type, timestamp, post}]. *)
Record payload := Payload {
  type : field string;
  timestamp : field Z;
  body_post : field post
}.

(** Assignments [post.k = v]. *)
Definition set_offer_id (v : field string) (p : post) : post :=
  {| post_offer_id := v;
     post_code := post_code p;
     post_channel_id := post_channel_id p;
     post_link := post_link p;
     post_title := post_title p;
     post_title_clean := post_title_clean p;
     post_chatgpt_title := post_chatgpt_title p;
     post_is_explicit := post_is_explicit p;
     post_is_expired := post_is_expired p;
     post_is_deleted := post_is_deleted p;
     post_super_offer_notify := post_super_offer_notify p;
     post_timestamp := post_timestamp p;
     post_timestamp_expired := post_timestamp_expired p;
     post_price_numeric := post_price_numeric p;
     post_perc := post_perc p;
     post_store := post_store p;
     post_store_name := post_store_name p;
     post_category := post_category p;
     post_category_original := post_category_original p;
     post_main_category := post_main_category p;
     post_daily_offer := post_daily_offer p |}.

Definition set_title (v : field string) (p : post) : post :=
  {| post_offer_id := post_offer_id p;
     post_code := post_code p;
     post_channel_id := post_channel_id p;
     post_link := post_link p;
     post_title := v;
     post_title_clean := post_title_clean p;
     post_chatgpt_title := post_chatgpt_title p;
     post_is_explicit := post_is_explicit p;
     post_is_expired := post_is_expired p;
     post_is_deleted := post_is_deleted p;
     post_super_offer_notify := post_super_offer_notify p;
     post_timestamp := post_timestamp p;
     post_timestamp_expired := post_timestamp_expired p;
     post_price_numeric := post_price_numeric p;
     post_perc := post_perc p;
     post_store := post_store p;
     post_store_name := post_store_name p;
     post_category := post_category p;
     post_category_original := post_category_original p;
     post_main_category := post_main_category p;
     post_daily_offer := post_daily_offer p |}.

Definition set_is_expired (v : field bool) (p : post) : post :=
  {| post_offer_id := post_offer_id p;
     post_code := post_code p;
     post_channel_id := post_channel_id p;
     post_link := post_link p;
     post_title := post_title p;
     post_title_clean := post_title_clean p;
     post_chatgpt_title := post_chatgpt_title p;
     post_is_explicit := post_is_explicit p;
     post_is_expired := v;
     post_is_deleted := post_is_deleted p;
     post_super_offer_notify := post_super_offer_notify p;
     post_timestamp := post_timestamp p;
     post_timestamp_expired := post_timestamp_expired p;
     post_price_numeric := post_price_numeric p;
     post_perc := post_perc p;
     post_store := post_store p;
     post_store_name := post_store_name p;
     post_category := post_category p;
     post_category_original := post_category_original p;
     post_main_category := post_main_category p;
     post_daily_offer := post_daily_offer p |}.

Definition set_is_deleted (v : field bool) (p : post) : post :=
  {| post_offer_id := post_offer_id p;
     post_code := post_code p;
     post_channel_id := post_channel_id p;
     post_link := post_link p;
     post_title := post_title p;
     post_title_clean := post_title_clean p;
     post_chatgpt_title := post_chatgpt_title p;
     post_is_explicit := post_is_explicit p;
     post_is_expired := post_is_expired p;
     post_is_deleted := v;
     post_super_offer_notify := post_super_offer_notify p;
     post_timestamp := post_timestamp p;
     post_timestamp_expired := post_timestamp_expired p;
     post_price_numeric := post_price_numeric p;
     post_perc := post_perc p;
     post_store := post_store p;
     post_store_name := post_store_name p;
     post_category := post_category p;
     post_category_original := post_category_original p;
     post_main_category := post_main_category p;
     post_daily_offer := post_daily_offer p |}.

Definition set_timestamp (v : field Z) (p : post) : post :=
  {| post_offer_id := post_offer_id p;
     post_code := post_code p;
     post_channel_id := post_channel_id p;
     post_link := post_link p;
     post_title := post_title p;
     post_title_clean := post_title_clean p;
     post_chatgpt_title := post_chatgpt_title p;
     post_is_explicit := post_is_explicit p;
     post_is_expired := post_is_expired p;
     post_is_deleted := post_is_deleted p;
     post_super_offer_notify := post_super_offer_notify p;
     post_timestamp := v;
     post_timestamp_expired := post_timestamp_expired p;
     post_price_numeric := post_price_numeric p;
     post_perc := post_perc p;
     post_store := post_store p;
     post_store_name := post_store_name p;
     post_category := post_category p;
     post_category_original := post_category_original p;
     post_main_category := post_main_category p;
     post_daily_offer := post_daily_offer p |}.

Definition set_timestamp_expired (v : field Z) (p : post) : post :=
  {| post_offer_id := post_offer_id p;
     post_code := post_code p;
     post_channel_id := post_channel_id p;
     post_link := post_link p;
     post_title := post_title p;
     post_title_clean := post_title_clean p;
     post_chatgpt_title := post_chatgpt_title p;
     post_is_explicit := post_is_explicit p;
     post_is_expired := post_is_expired p;
     post_is_deleted := post_is_deleted p;
     post_super_offer_notify := post_super_offer_notify p;
     post_timestamp := post_timestamp p;
     post_timestamp_expired := v;
     post_price_numeric := post_price_numeric p;
     post_perc := post_perc p;
     post_store := post_store p;
     post_store_name := post_store_name p;
     post_category := post_category p;
     post_category_original := post_category_original p;
     post_main_category := post_main_category p;
     post_daily_offer := post_daily_offer p |}.

Definition set_category (v : field string) (p : post) : post :=
  {| post_offer_id := post_offer_id p;
     post_code := post_code p;
     post_channel_id := post_channel_id p;
     post_link := post_link p;
     post_title := post_title p;
     post_title_clean := post_title_clean p;
     post_chatgpt_title := post_chatgpt_title p;
     post_is_explicit := post_is_explicit p;
     post_is_expired := post_is_expired p;
     post_is_deleted := post_is_deleted p;
     post_super_offer_notify := post_super_offer_notify p;
     post_timestamp := post_timestamp p;
     post_timestamp_expired := post_timestamp_expired p;
     post_price_numeric := post_price_numeric p;
     post_perc := post_perc p;
     post_store := post_store p;
     post_store_name := post_store_name p;
     post_category := v;
     post_category_original := post_category_original p;
     post_main_category := post_main_category p;
     post_daily_offer := post_daily_offer p |}.

Definition set_category_original (v : field string) (p : post) : post :=
  {| post_offer_id := post_offer_id p;
     post_code := post_code p;
     post_channel_id := post_channel_id p;
     post_link := post_link p;
     post_title := post_title p;
     post_title_clean := post_title_clean p;
     post_chatgpt_title := post_chatgpt_title p;
     post_is_explicit := post_is_explicit p;
     post_is_expired := post_is_expired p;
     post_is_deleted := post_is_deleted p;
     post_super_offer_notify := post_super_offer_notify p;
     post_timestamp := post_timestamp p;
     post_timestamp_expired := post_timestamp_expired p;
     post_price_numeric := post_price_numeric p;
     post_perc := post_perc p;
     post_store := post_store p;
     post_store_name := post_store_name p;
     post_category := post_category p;
     post_category_original := v;
     post_main_category := post_main_category p;
     post_daily_offer := post_daily_offer p |}.

Definition set_main_category (v : field string) (p : post) : post :=
  {| post_offer_id := post_offer_id p;
     post_code := post_code p;
     post_channel_id := post_channel_id p;
     post_link := post_link p;
     post_title := post_title p;
     post_title_clean := post_title_clean p;
     post_chatgpt_title := post_chatgpt_title p;
     post_is_explicit := post_is_explicit p;
     post_is_expired := post_is_expired p;
     post_is_deleted := post_is_deleted p;
     post_super_offer_notify := post_super_offer_notify p;
     post_timestamp := post_timestamp p;
     post_timestamp_expired := post_timestamp_expired p;
     post_price_numeric := post_price_numeric p;
     post_perc := post_perc p;
     post_store := post_store p;
     post_store_name := post_store_name p;
     post_category := post_category p;
     post_category_original := post_category_original p;
     post_main_category := v;
     post_daily_offer := post_daily_offer p |}.

Definition set_daily_offer (v : field bool) (p : post) : post :=
  {| post_offer_id := post_offer_id p;
     post_code := post_code p;
     post_channel_id := post_channel_id p;
     post_link := post_link p;
     post_title := post_title p;
     post_title_clean := post_title_clean p;
     post_chatgpt_title := post_chatgpt_title p;
     post_is_explicit := post_is_explicit p;
     post_is_expired := post_is_expired p;
     post_is_deleted := post_is_deleted p;
     post_super_offer_notify := post_super_offer_notify p;
     post_timestamp := post_timestamp p;
     post_timestamp_expired := post_timestamp_expired p;
     post_price_numeric := post_price_numeric p;
     post_perc := post_perc p;
     post_store := post_store p;
     post_store_name := post_store_name p;
     post_category := post_category p;
     post_category_original := post_category_original p;
     post_main_category := post_main_category p;
     post_daily_offer := v |}.

End Event.

(** ** services/postgres.js: the offers table *)

Module Postgres.
Import Js Utils Db Event.

(** [ORDER BY "timestamp" DESC]: does [a] come strictly before [b]?  A
    NULL timestamp sorts first. *)
Definition sorts_before (a b : offer_row) : bool :=
  match col a "timestamp", col b "timestamp" with
  | Some (SInt x), Some (SInt y) => y <? x
  | Some (SInt _), _ => false
  | _, Some (SInt _) => true
  | _, _ => false
  end.

Definition pick_first (best : option offer_row) (r : offer_row)
    : option offer_row :=
  match best with
  | None => Some r
  | Some b => if sorts_before r b then Some r else Some b
  end.

(** [getOfferByCode(code)]: [SELECT * FROM offers WHERE code = $1
    ORDER BY timestamp DESC LIMIT 1]; among rows of equal timestamp the
    earliest of the table is returned. *)
Definition getOfferByCode (t : list offer_row) (c : string)
    : option offer_row :=
  foldl pick_first None (List.filter (has_code c) t).

(** [getOfferById(id)] *)
Definition getOfferById (t : list offer_row) (id : string)
    : option offer_row :=
  List.find (has_id id) t.

(** The columns of [offers] the embedding carries take the type
    [inferColumnTypes] gives them; the id of the channel is kept as its
    text.  A key that holds [null] is skipped like an absent one: the
    loop of [buildRowFromPost] continues on [typeof val === 'object']. *)
Definition put_string (c : string) (x : field string)
    (m : gmap string sqlval) : gmap string sqlval :=
  match x with
  | Absent | Null => m
  | Val s => <[c := SText s]> m
  end.

Definition put_number (c : string) (x : field Z)
    (m : gmap string sqlval) : gmap string sqlval :=
  match x with
  | Absent | Null => m
  | Val z => <[c := SInt z]> m
  end.

Definition put_bool (c : string) (x : field bool)
    (m : gmap string sqlval) : gmap string sqlval :=
  match x with
  | Absent | Null => m
  | Val b => <[c := SBool (toBool (JBool b))]> m
  end.

(** [buildRowFromPost(payload, post, colTypes)].  [fresh] is the value of
    [generateOfferId()], [now] the value of [nowMs()]. *)
Definition buildRowFromPost (fresh : string) (now : Z)
    (pl : payload) (p : post) : offer_row :=
  let offerId := str_or (post_offer_id p) "" in
  let offerId := if truthy_str offerId then offerId else fresh in
  let ts :=
    match post_timestamp p with
    | Val z => z
    | _ => nullish (timestamp pl) (nowMs now)
    end in
  {| offer_id := offerId;
     cols :=
       put_string "code" (post_code p)
       (put_string "link" (post_link p)
       (put_string "channel_id" (post_channel_id p)
       (put_string "title" (post_title p)
       (put_number "price_numeric" (post_price_numeric p)
       (put_number "perc" (post_perc p)
       (put_string "category" (post_category p)
       (put_string "main_category" (post_main_category p)
       (put_string "category_original" (post_category_original p)
       (put_string "store" (post_store p)
       (put_string "store_name" (post_store_name p)
       (put_bool "is_expired" (post_is_expired p)
       (put_number "timestamp_expired" (post_timestamp_expired p)
       (put_bool "is_deleted" (post_is_deleted p)
       (put_bool "is_explicit" (post_is_explicit p)
       (put_bool "daily_offer" (post_daily_offer p)
       (<["timestamp" := SInt ts]> ∅)))))))))))))))) |}.

(** [UPDATE offers SET c1 = v1, ... WHERE offer_id = $n]: the columns of
    [row] replace those of the stored row, the others stay. *)
Definition update_row (row r : offer_row) : offer_row :=
  if has_id (offer_id row) r
  then {| offer_id := offer_id r; cols := cols row ∪ cols r |}
  else r.

(** [insertOrUpdateOffer(row)] *)
Definition insertOrUpdateOffer (t : list offer_row) (row : offer_row)
    : list offer_row :=
  if existsb (has_id (offer_id row)) t
  then List.map (update_row row) t
  else t ++ [row].

Definition mark_row (id : string) (ts : Z) (r : offer_row) : offer_row :=
  if has_id id r
  then {| offer_id := offer_id r;
          cols := <["is_deleted" := SBool true]>
                  (<["is_expired" := SBool true]>
                  (<["timestamp_expired" := SInt ts]> (cols r))) |}
  else r.

(** [markOfferDeleted(id, deleteTs = null)] *)
Definition markOfferDeleted (now : Z) (t : list offer_row) (id : string)
    (deleteTs : option Z) : list offer_row :=
  List.map (mark_row id (default (nowMs now) deleteTs)) t.

(** [hardDeleteOffer(id)] *)
Definition hardDeleteOffer (t : list offer_row) (id : string)
    : list offer_row :=
  List.filter (fun r => negb (has_id id r)) t.

(** *** Retraction: the receipts of an offer *)

(** A row of the join of [withdrawNotificationsForOffer]. *)
Record withdraw_row := WithdrawRow {
  wr_target : option string;
  wr_notification_id : Z;
  wr_uid : string;
  wr_token_fcm : option string
}.

Definition not_withdrawn (un : receipt_row) : bool :=
  negb (default false (un_withdrawn un)).

(** [LEFT JOIN users u ON u.uid = un.uid] for one receipt. *)
Definition join_user (us : list user_row) (n : notification_row)
    (un : receipt_row) : list withdraw_row :=
  match List.filter (fun u => bool_decide (u_uid u = un_uid un)) us with
  | [] => [ {| wr_target := n_target n; wr_notification_id := n_id n;
               wr_uid := un_uid un; wr_token_fcm := None |} ]
  | matching =>
      List.map (fun u => {| wr_target := n_target n;
                            wr_notification_id := n_id n;
                            wr_uid := un_uid un;
                            wr_token_fcm := u_token_fcm u |}) matching
  end.

(** The [SELECT] of [withdrawNotificationsForOffer] and of
    [withdrawNotificationById], for the notifications [sel] selects. *)
Definition select_receipts (w : world) (sel : notification_row -> bool)
    : list withdraw_row :=
  n ← List.filter sel (notifications w);
  un ← List.filter
         (fun un => bool_decide (un_notification_id un = Some (n_id n))
                    && not_withdrawn un)
         (users_notifications w);
  join_user (users w) n un.

Record withdraw_result := WithdrawResult {
  updated : nat;
  rows : list withdraw_row;
  notificationIds : list Z
}.

Definition set_withdrawn (ids : list Z) (un : receipt_row) : receipt_row :=
  match un_notification_id un with
  | Some id =>
      if bool_decide (id ∈ ids)
      then {| un_uid := un_uid un; un_sent_at := un_sent_at un;
              un_notification_id := un_notification_id un;
              un_withdrawn := Some true; un_read := un_read un;
              un_reason := un_reason un |}
      else un
  | None => un
  end.

(** The body shared by the two withdrawals.  [db_ok = false] is a query
    that throws: the [catch] answers [{success: false}], here [None], and
    nothing is updated. *)
Definition withdraw_where (db_ok : bool) (w : world)
    (sel : notification_row -> bool) : option withdraw_result * world :=
  if db_ok then
    let rs := select_receipts w sel in
    let ids := set_to_array (List.map wr_notification_id rs) in
    let w' :=
      match ids with
      | [] => w
      | _ => with_receipts w
               (List.map (set_withdrawn ids) (users_notifications w))
      end in
    (Some {| updated := length ids; rows := rs; notificationIds := ids |},
     w')
  else (None, w).

(** [withdrawNotificationsForOffer(offerId)] *)
Definition withdrawNotificationsForOffer (db_ok : bool) (w : world)
    (offerId : string) : option withdraw_result * world :=
  withdraw_where db_ok w
    (fun n => bool_decide (n_offer_id n = Some offerId)).

(** [withdrawNotificationById(notificationId)] *)
Definition withdrawNotificationById (db_ok : bool) (w : world)
    (notificationId : Z) : option withdraw_result * world :=
  withdraw_where db_ok w (fun n => bool_decide (n_id n = notificationId)).

(** *** The match engine *)

Inductive match_type := MKeyword | MProduct.

Definition match_type_name (t : match_type) : string :=
  match t with MKeyword => "keyword" | MProduct => "product" end.

(** An entry of the result: [{userId, matchType, keyword | offerId,
    favoriteId}]. *)
Record match_entry := Match {
  userId : string;
  matchType : match_type;
  keyword : option string;
  matchOfferId : option string;
  favoriteId : Z
}.

Definition truthy_opt (x : option string) : bool :=
  match x with Some s => truthy_str s | None => false end.

(** [titleNoPunct] *)
Definition normalize_title (titleForPhrases : string) : string :=
  trim (collapse_spaces
          (map_chars (fun c => if is_letter c || is_digit c || is_space c
                               then c else " "%char)
                     titleForPhrases)).

Definition orderedTokens (rawTitle : option string)
    (titleWords : list string) : list string :=
  let titleForPhrases := default (join " " titleWords) rawTitle in
  let titleNoPunct := normalize_title titleForPhrases in
  if truthy_str titleNoPunct then split " " titleNoPunct else [].

Definition orderedTokensLow (rawTitle : option string)
    (titleWords : list string) : list string :=
  List.map toLowerCase (orderedTokens rawTitle titleWords).

Definition singleWords (titleWords : list string) : list string :=
  take 5 (set_to_array
            (List.filter truthy_str (List.map toLowerCase titleWords))).

(** The loop [for (i = 0; i + 1 < n; i++)] over adjacent tokens. *)
Fixpoint bigrams (low : list string) : list string :=
  match low with
  | a :: (b :: _) as r => (a +:+ " " +:+ b) :: bigrams r
  | _ => []
  end.

(** The loop [for (i = 0; i + 2 < n; i++)]. *)
Fixpoint trigrams (low : list string) : list string :=
  match low with
  | a :: (b :: c :: _) as r => (a +:+ " " +:+ b +:+ " " +:+ c) :: trigrams r
  | _ => []
  end.

Definition bigramKeys (low : list string) : list string :=
  take 5 (bigrams low).
Definition trigramKeys (low : list string) : list string :=
  take 3 (trigrams low).

(** [candidates]: every single word, then its capitalised form. *)
Definition word_forms (w : string) : list string :=
  if (0 <? String.length w)%nat then [w; capitalize w] else [w].

Definition candidates (rawTitle : option string)
    (titleWords : list string) : list string :=
  let low := orderedTokensLow rawTitle titleWords in
  (w ← singleWords titleWords; word_forms w)
    ++ bigramKeys low ++ trigramKeys low.

Definition candidateSet (rawTitle : option string)
    (titleWords : list string) : list string :=
  set_to_array (List.filter truthy_str (candidates rawTitle titleWords)).

(** The offer the favorites are matched against. *)
Record offer_info := OfferInfo {
  offerId : option string;
  offerPrice : option Z;
  offerDiscount : option Z;
  offerStore : option string;
  offerCategory : option string
}.

(** [String(a).toLowerCase().trim() !== String(b).toLowerCase().trim()] *)
Definition differs_ci (a b : string) : bool :=
  negb (String.eqb (trim (toLowerCase a)) (trim (toLowerCase b))).

(** The filters of one favorite row, in the order of the code. *)
Definition filters_pass (o : offer_info) (row : favorite_row) : bool :=
  let category_ok :=
    match fav_category row, offerCategory o with
    | Some fc, Some oc =>
        if truthy_str fc && truthy_str oc then negb (differs_ci fc oc)
        else true
    | _, _ => true
    end in
  let store_ok :=
    match fav_store row, offerStore o with
    | Some fs, Some os =>
        if truthy_str fs && truthy_str os then negb (differs_ci fs os)
        else true
    | _, _ => true
    end in
  let min_price_ok :=
    match fav_min_price row, offerPrice o with
    | Some m, Some p => negb (p <? m)
    | _, _ => true
    end in
  let max_price_ok :=
    match fav_max_price row, offerPrice o with
    | Some m, Some p => negb (m <? p)
    | _, _ => true
    end in
  let min_discount_ok :=
    match fav_min_discount row, offerDiscount o with
    | Some m, Some d => negb (d <? m)
    | _, _ => true
    end in
  category_ok && store_ok && min_price_ok && max_price_ok
    && min_discount_ok.

(** [SELECT ... FROM favorites WHERE type = 'keyword'
    AND lower(key) = ANY($2)] for one chunk of candidates. *)
Definition keyword_rows (favs : list favorite_row) (chunk : list string)
    : list favorite_row :=
  List.filter
    (fun f => String.eqb (fav_type f) "keyword"
              && mem_str (toLowerCase (fav_key f))
                         (List.map toLowerCase chunk))
    favs.

Definition keyword_matches (favs : list favorite_row) (o : offer_info)
    (cands : list string) : list match_entry :=
  chunk ← chunks 20 cands;
  List.map (fun row => {| userId := fav_uid row; matchType := MKeyword;
                          keyword := Some (fav_key row);
                          matchOfferId := None;
                          favoriteId := fav_id row |})
           (List.filter (filters_pass o) (keyword_rows favs chunk)).

(** [SELECT id, uid FROM favorites WHERE type = 'offer' AND key = $2] *)
Definition product_matches (favs : list favorite_row) (o : offer_info)
    : list match_entry :=
  match offerId o with
  | Some id =>
      if truthy_str id then
        List.map (fun row => {| userId := fav_uid row;
                                matchType := MProduct;
                                keyword := None;
                                matchOfferId := Some id;
                                favoriteId := fav_id row |})
                 (List.filter
                    (fun f => String.eqb (fav_type f) "offer"
                              && String.eqb (fav_key f) id)
                    favs)
      else []
  | None => []
  end.

(** [m.keyword || m.offerId || ''] *)
Definition match_reason (m : match_entry) : string :=
  if truthy_opt (keyword m) then default "" (keyword m)
  else if truthy_opt (matchOfferId m) then default "" (matchOfferId m)
  else "".

(** The key of the final loop:
    [`${m.userId}|${m.matchType}|${m.keyword || m.offerId || ''}`]. *)
Definition dedup_key (m : match_entry) : string :=
  userId m +:+ "|" +:+ match_type_name (matchType m) +:+ "|"
    +:+ match_reason m.

(** [findUsersWithMatchingKeywords({titleWords, rawTitle, offerId, ...})] *)
Definition findUsersWithMatchingKeywords (favs : list favorite_row)
    (titleWords : list string) (rawTitle : option string)
    (o : offer_info) : list match_entry :=
  let matches :=
    keyword_matches favs o (candidateSet rawTitle titleWords)
      ++ product_matches favs o in
  dedup_by dedup_key ∅ matches.

End Postgres.

(** ** services/firestore.js: users, favoriters, the notification journal *)

Module Firestore.
Import Js Utils Db.

(** The object [getUserPreferences] answers. *)
Record prefs := Prefs {
  notifications_push : bool;
  notifications_new_offers : bool;
  notifications_super : bool;
  favorites_enabled : bool;
  favorites_products : bool;
  favorites_searches : bool
}.

(** [SELECT ... FROM users WHERE uid = $1 LIMIT 1] *)
Definition user_by_uid (us : list user_row) (uid : string)
    : option user_row :=
  List.find (fun u => bool_decide (u_uid u = uid)) us.

(** [row.flag === true] *)
Definition is_true (x : option bool) : bool :=
  match x with Some true => true | _ => false end.

(** [getUserPreferences(_projectId, userId, _token)] *)
Definition getUserPreferences (us : list user_row) (userId : string)
    : option prefs :=
  match user_by_uid us userId with
  | None => None
  | Some row =>
      let superOffers := is_true (u_superoffers row) in
      let favProducts := is_true (u_favorites_products row) in
      let favSearches := is_true (u_favorites_searches row) in
      let favoritesEnabled := favProducts || favSearches in
      let pushEnabled := superOffers || favoritesEnabled in
      Some {| notifications_push := pushEnabled;
              notifications_new_offers := pushEnabled;
              notifications_super := superOffers;
              favorites_enabled := favoritesEnabled;
              favorites_products := favProducts;
              favorites_searches := favSearches |}
  end.

(** [getUserFcmToken(_projectId, userId, _token)] *)
Definition getUserFcmToken (us : list user_row) (userId : string)
    : option string :=
  match user_by_uid us userId with
  | None => None
  | Some row =>
      match u_token_fcm row with
      | Some token => if truthy_str token then Some (trim token) else None
      | None => None
      end
  end.

(** [createFirestoreNotificationDoc(_projectId, _token, offerId, userIds,
    type)]: one journal row per user, one with a NULL user when the list
    is empty. *)
Definition createFirestoreNotificationDoc (now : Z) (w : world)
    (offerId : string) (userIds : list string) (type : string) : world :=
  let users := match userIds with
               | [] => [None]
               | _ => List.map Some userIds
               end in
  foldl (fun w uid =>
           snd (insert_notification w (fun id =>
             {| n_id := id; n_offer_id := Some offerId; n_title := None;
                n_target := None; n_created_at := now; n_uid := uid;
                n_type := Some type |})))
        w users.

(** [findFavoritersByOffer(_projectId, offerId, _token, altOfferId)]:
    [SELECT DISTINCT uid FROM favorites WHERE type = 'offer'
    AND key IN (...)], then [.filter(Boolean)]. *)
Definition findFavoritersByOffer (favs : list favorite_row)
    (offerId : string) (altOfferId : option string) : list string :=
  let keys :=
    match altOfferId with
    | Some alt =>
        if truthy_str alt && negb (String.eqb alt offerId)
        then [offerId; alt] else [offerId]
    | None => [offerId]
    end in
  List.filter truthy_str
    (set_to_array
       (List.map fav_uid
          (List.filter
             (fun f => String.eqb (fav_type f) "offer"
                       && mem_str (fav_key f) keys)
             favs))).

Definition seven_days : Z := 7 * 24 * 60 * 60 * 1000.

(** [hasOfferBeenNotified(_projectId, offerId, _token)]:
    [created_at > now() - interval '7 days']. *)
Definition hasOfferBeenNotified (now : Z) (ns : list notification_row)
    (offerId : string) : bool :=
  existsb (fun n => bool_decide (n_offer_id n = Some offerId)
                    && (now - seven_days <? n_created_at n))
          ns.

End Firestore.

(** ** The notification services: fan-out and retraction *)

Module Notifications.
Import Js Utils Db Event Postgres Firestore.

(** What one call of the push provider does: [{success: true}],
    [{success: false}], or an exception of the transport. *)
Inductive send_outcome := SendOk | SendRejected | SendThrew.

(** The provider, as the environment of one fan-out: the outcome of the
    send issued for the recipient at a position, to a device token. *)
Definition provider := nat -> string -> send_outcome.

(** How a call ends. *)
Inductive error := ReferenceError (name : string).
Inductive completion (A : Type) :=
| Returned (a : A)
| Thrown (e : error).
Global Arguments Returned {A} a.
Global Arguments Thrown {A} e.

(** [shouldSendNotification(prefs, matchType)] *)
Definition shouldSendNotification (p : option prefs)
    (matchType : match_type) : bool :=
  match p with
  | None => false
  | Some prefs =>
      if negb (notifications_push prefs)
         || negb (notifications_new_offers prefs) then false
      else if negb (favorites_enabled prefs) then false
      else match matchType with
           | MProduct => favorites_products prefs
           | MKeyword => favorites_searches prefs
           end
  end.

Record notify_options := NotifyOptions {
  useHeartTitle : bool;
  isAvailableAgain : bool;
  reasonByUid : gmap string string
}.

(** The task of one recipient of [notifyUsersAboutOffer]: the user id when
    the message was delivered, [None] for [null]. *)
Definition notify_task (us : list user_row) (fcm : provider)
    (i : nat) (uid : string) : option string :=
  match getUserPreferences us uid with
  | None => None
  | Some prefs =>
      if negb (shouldSendNotification (Some prefs) MProduct) then None
      else
        match getUserFcmToken us uid with
        | None => None
        | Some fcmToken =>
            if negb (truthy_str fcmToken) then None
            else match fcm i fcmToken with
                 | SendOk => Some uid
                 | SendRejected | SendThrew => None
                 end
        end
  end.

(** [results.filter(r => r.status === 'fulfilled' && r.value)
           .map(r => r.value)] *)
Definition fulfilled_values (results : list (option string)) : list string :=
  List.filter truthy_str (omap (fun r => r) results).

(** The reasons inferred from the product favorites of the offer. *)
Definition autofill_reasons (favs : list favorite_row) (offerId : string)
    (reasons : gmap string string) : gmap string string :=
  foldl (fun m row =>
           if truthy_str (fav_uid row) && bool_decide (m !! fav_uid row = None)
           then <[fav_uid row := pretty (fav_id row)]> m
           else m)
        reasons
        (List.filter (fun f => String.eqb (fav_type f) "offer"
                               && String.eqb (fav_key f) offerId)
                     favs).

Definition notification_title (opts : notify_options) (p : post) : string :=
  let titlePrefix :=
    if isAvailableAgain opts then "❤️ "
    else if useHeartTitle opts then "❤️ " else "🔍 " in
  titlePrefix +:+ str_or (post_title p) "Offerta".

(** [notifyUsersAboutOffer(projectId, userIds, post, offerId, token,
    options)]: the list [notified] and the tables afterwards.  The body
    and the image of the message are not carried. *)
Definition notifyUsersAboutOffer (now : Z) (fcm : provider) (w : world)
    (userIds : list string) (p : post) (offerId : string)
    (opts : notify_options) : list string * world :=
  let title := notification_title opts p in
  let target := if truthy_str offerId then offerId else "unknown" in
  let '(notificationId, w1) :=
    insert_notification w (fun id =>
      {| n_id := id; n_offer_id := Some offerId; n_title := Some title;
         n_target := Some target; n_created_at := now; n_uid := None;
         n_type := None |}) in
  let finalReasonByUid :=
    if bool_decide (reasonByUid opts = ∅) && truthy_str offerId
    then autofill_reasons (favorites w1) offerId (reasonByUid opts)
    else reasonByUid opts in
  let results := imap (notify_task (users w1) fcm) userIds in
  let notified := fulfilled_values results in
  match notified with
  | [] => (notified, w1)
  | _ =>
      let w2 := createFirestoreNotificationDoc now w1 offerId notified
                  "favorites" in
      let w3 :=
        if truthy_num notificationId then
          with_receipts w2
            (users_notifications w2 ++
             List.map (fun uid =>
               {| un_uid := uid; un_sent_at := now;
                  un_notification_id := Some notificationId;
                  un_withdrawn := Some false; un_read := Some false;
                  un_reason :=
                    match finalReasonByUid !! uid with
                    | Some r => Some r
                    | None => if truthy_str offerId then Some offerId
                              else None
                    end |}) notified)
        else w2 in
      (notified, w3)
  end.

(** [sendSuperOfferNotification(projectId, token, post, offerId)] *)
Definition sendSuperOfferNotification (now : Z) (fcm : provider)
    (w : world) (offerId : string) : world :=
  let recipients :=
    List.filter (fun u => is_true (u_superoffers u)
                          && bool_decide (is_Some (u_token_fcm u)))
                (users w) in
  match recipients with
  | [] => w
  | _ =>
      let results :=
        imap (fun i u =>
                match fcm i (default "" (u_token_fcm u)) with
                | SendOk => Some (u_uid u)
                | SendRejected | SendThrew => None
                end) recipients in
      match fulfilled_values results with
      | [] => w
      | notified =>
          createFirestoreNotificationDoc now w offerId notified "superoffer"
      end
  end.

(** *** Retraction *)

(** [{updated, sent}] *)
Record retract_result := RetractResult {
  r_updated : nat;
  r_sent : nat
}.

Record retract_recipient := RetractRecipient {
  rr_token : string;
  rr_notificationId : Z;
  rr_target : option string
}.

(** [rows.map(r => ({token: r.token_fcm, ...})).filter(r => r.token)];
    [fallback] is what a NULL target is replaced by. *)
Definition retract_recipients (fallback : option string)
    (rows : list withdraw_row) : list retract_recipient :=
  omap (fun r =>
          match wr_token_fcm r with
          | Some tok =>
              if truthy_str tok
              then Some {| rr_token := tok;
                           rr_notificationId := wr_notification_id r;
                           rr_target := match wr_target r with
                                        | Some t => Some t
                                        | None => fallback
                                        end |}
              else None
          | None => None
          end) rows.

(** One retraction task: [sent.success], and [false] from the [catch]. *)
Definition retract_task (fcm : provider) (i : nat) (r : retract_recipient)
    : bool :=
  match fcm i (rr_token r) with
  | SendOk => true
  | SendRejected | SendThrew => false
  end.

(** Reading [name.length] where the bindings in scope are [scope]: an
    identifier that is not bound raises a [ReferenceError]. *)
Definition read_length (scope : list (string * nat)) (name : string)
    : completion nat :=
  match List.find (fun b => String.eqb (fst b) name) scope with
  | Some b => Returned (snd b)
  | None => Thrown (ReferenceError name)
  end.

(** The tail shared by the two retractions, from the filtered recipients
    on; [logged] is the identifier whose length the partial-failure
    warning reports. *)
Definition retract_fanout (fcm : provider) (projectId token : string)
    (res : withdraw_result) (recipients : list retract_recipient)
    (logged : string) : completion retract_result :=
  if negb (truthy_str projectId) || negb (truthy_str token)
  then Returned {| r_updated := updated res; r_sent := 0 |}
  else
    let outcomes := imap (retract_task fcm) recipients in
    let successCount := length (List.filter (fun v => v) outcomes) in
    let failureCount := length (List.filter negb outcomes) in
    let scope := [ ("rows", length (rows res));
                   ("recipients", length recipients);
                   ("sendAll", length outcomes);
                   ("outcomes", length outcomes) ] in
    let warned :=
      if (0 <? failureCount)%nat then read_length scope logged
      else Returned 0%nat in
    match warned with
    | Thrown e => Thrown e
    | Returned _ =>
        Returned {| r_updated := updated res; r_sent := successCount |}
    end.

(** [withdrawOfferNotifications(projectId, offerId, token)]; its warning
    reads [tokens.length]. *)
Definition withdrawOfferNotifications (db_ok : bool) (fcm : provider)
    (w : world) (projectId offerId token : string)
    : completion retract_result * world :=
  match withdrawNotificationsForOffer db_ok w offerId with
  | (None, w') => (Returned {| r_updated := 0; r_sent := 0 |}, w')
  | (Some res, w') =>
      (retract_fanout fcm projectId token res
         (retract_recipients (Some offerId) (rows res)) "tokens", w')
  end.

(** [withdrawNotificationByIdFanout(projectId, notificationId, token)];
    its warning reads [recipients.length]. *)
Definition withdrawNotificationByIdFanout (db_ok : bool) (fcm : provider)
    (w : world) (projectId : string) (notificationId : Z) (token : string)
    : completion retract_result * world :=
  match withdrawNotificationById db_ok w notificationId with
  | (None, w') => (Returned {| r_updated := 0; r_sent := 0 |}, w')
  | (Some res, w') =>
      (retract_fanout fcm projectId token res
         (retract_recipients None (rows res)) "recipients", w')
  end.

End Notifications.

(** ** routes: the ingestion handler [POST /manage-offer]

    The handler is a function of the tables and of what the collaborators
    answer; it gives the response, the tables afterwards and the steps it
    took.  Of the collaborators only the push provider and the query of
    the withdrawal can fail here, and the code catches both, so the
    catch-all answer 500 of the handler is not reached. *)

Module Routes.
Import Js Utils Arbiter Db Event Postgres Firestore Notifications.

(** The flags of [getAppInitConfig()] the handler reads. *)
Record appInit := AppInit {
  accept_incoming_requests : bool;
  send_favorites_notifications : bool;
  send_super_offers_notifications : bool
}.

(** What the collaborators answer while one event is handled. *)
Record env := Env {
  (** [Date.now()], and [now()] of the datastore *)
  now : Z;
  (** [getAppInitConfig()]; [None] when it throws *)
  app_init : option appInit;
  (** [getProjectId()] and [getAccessToken()]; empty when they throw *)
  projectId : string;
  accessToken : string;
  fcm : provider;
  (** does the query of [withdrawNotificationsForOffer] succeed? *)
  withdraw_query_ok : bool;
  (** the [category] and [category_original] the event holds after the
      categorization call *)
  groq : post -> field string * field string;
  (** [generateOfferId()] *)
  fresh_offer_id : string
}.

Inductive response :=
| Ok200 (action : string) (reason : option string)
        (offer_id : option string)
| BadRequest (error : string).

(** The steps of one handling, in the order they happen. *)
Inductive step :=
| Withdraw (offerId : string)
| Arbitrate (newPriority existingPriority : Z)
| MarkDeleted (id : string) (deleteTs : option Z)
| HardDelete (id : string)
| SuperOffer (id : string)
| Notify (userIds : list string) (id : string)
| InsertOrUpdate (row : offer_row)
| Purge.

Definition outcome : Type := response * world * list step.

(** [withdrawNotificationsSafe(projectId, token, offerId)]: nothing for
    an empty id; an exception of the retraction is caught and logged. *)
Definition withdrawNotificationsSafe (e : env) (w : world)
    (offerId : string) : world * list step :=
  if negb (truthy_str offerId) then (w, [])
  else (snd (withdrawOfferNotifications (withdraw_query_ok e) (fcm e) w
               (projectId e) offerId (accessToken e)),
        [Withdraw offerId]).

(** What the handler has resolved before it looks at the kind of the
    event. *)
Record context := Context {
  channelId : string;
  newPriority : Z;
  existing : option offer_row;
  existingPriority : Z;
  existingDocIsActive : bool;
  docIdToUse : string;
  superOfferNotify : bool
}.

Definition row_flag (r : offer_row) (c : string) : bool :=
  toBool (js_of_col (col r c)).

Definition resolve (w : world) (p : post) (code : string) : context :=
  let channelId := str_or (post_channel_id p) "" in
  let existing := getOfferByCode (offers w) code in
  {| channelId := channelId;
     newPriority := getChannelPriority channelId;
     existing := existing;
     existingPriority :=
       match existing with
       | Some ex =>
           getChannelPriority (col_string_or_empty (col ex "channel_id"))
       | None => 3
       end;
     existingDocIsActive :=
       match existing with
       | Some ex => negb (row_flag ex "is_expired")
                    && negb (row_flag ex "is_deleted")
       | None => false
       end;
     docIdToUse :=
       match existing with
       | Some ex => offer_id ex
       | None => str_or (post_offer_id p) ""
       end;
     superOfferNotify := toBool (jsval_of_flag (post_super_offer_notify p))
  |}.

(** [(post.is_expired ?? false) || (post.is_deleted ?? false)] *)
Definition reports_gone (p : post) : bool :=
  nullish (post_is_expired p) false || nullish (post_is_deleted p) false.

(** [post.timestamp ? Number(post.timestamp) : null] *)
Definition event_delete_ts (p : post) : option Z :=
  match post_timestamp p with
  | Val z => if truthy_num z then Some z else None
  | _ => None
  end.

Definition mark (e : env) (w : world) (id : string) (ts : option Z)
    : world :=
  with_offers w (markOfferDeleted (now e) (offers w) id ts).

Definition hard_delete (w : world) (id : string) : world :=
  with_offers w (hardDeleteOffer (offers w) id).

(** The branch of [POST_CREATED] for an event that reports the offer
    expired or deleted. *)
Definition created_gone (e : env) (w : world) (p : post) (c : context)
    : outcome :=
  let id := docIdToUse c in
  let '(w1, retracted) := withdrawNotificationsSafe e w id in
  let pre := retracted ++ [Arbitrate (newPriority c) (existingPriority c)] in
  if newPriority c <=? existingPriority c then
    let favoriters := findFavoritersByOffer (favorites w1) id None in
    let notified := hasOfferBeenNotified (now e) (notifications w1) id in
    if (0 <? length favoriters)%nat then
      let ts := event_delete_ts p in
      (Ok200 "ignored_deleted_because_in_favorites" None None,
       mark e w1 id ts, pre ++ [MarkDeleted id ts; Purge])
    else if notified then
      let ts := Some (deleteAtPlusDays (now e) 7) in
      (Ok200 "soft_deleted" None None,
       mark e w1 id ts, pre ++ [MarkDeleted id ts; Purge])
    else
      (Ok200 "deleted_via_create" None None,
       hard_delete w1 id, pre ++ [HardDelete id; Purge])
  else (Ok200 "delete_ignored" None None, w1, pre).

(** The same branch of [POST_EDITED]. *)
Definition edited_gone (e : env) (w : world) (p : post) (c : context)
    : outcome :=
  let id := docIdToUse c in
  let '(w1, retracted) := withdrawNotificationsSafe e w id in
  let pre := retracted ++ [Arbitrate (newPriority c) (existingPriority c)] in
  if newPriority c <=? existingPriority c then
    let favoriters := findFavoritersByOffer (favorites w1) id None in
    let notified := hasOfferBeenNotified (now e) (notifications w1) id in
    if (0 <? length favoriters)%nat then
      let ts := event_delete_ts p in
      (Ok200 "ignored_deleted_because_in_favorites" None None,
       mark e w1 id ts, pre ++ [MarkDeleted id ts; Purge])
    else if notified then
      let ts := Some (deleteAtPlusDays (now e) 7) in
      (Ok200 "soft_deleted" None None,
       mark e w1 id ts, pre ++ [MarkDeleted id ts; Purge])
    else
      let ts := Some (deleteAtPlusDays (now e) 7) in
      (Ok200 "soft_deleted_via_edit" None None,
       mark e w1 id ts, pre ++ [MarkDeleted id ts; Purge])
  else (Ok200 "delete_ignored" None None, w1, pre).

(** [POST_DELETED] *)
Definition deleted (e : env) (w : world) (p : post) (c : context)
    : outcome :=
  let id := docIdToUse c in
  let '(w1, retracted) := withdrawNotificationsSafe e w id in
  let pre := retracted ++ [Arbitrate (newPriority c) (existingPriority c)] in
  if existingPriority c <? newPriority c then
    (Ok200 "skipped" (Some "lower_priority_on_delete") None, w1, pre)
  else
    let favoriters := findFavoritersByOffer (favorites w1) id None in
    let notified := hasOfferBeenNotified (now e) (notifications w1) id in
    if (0 <? length favoriters)%nat then
      let ts := event_delete_ts p in
      (Ok200 "soft_deleted" None None,
       mark e w1 id ts, pre ++ [MarkDeleted id ts; Purge])
    else if notified then
      let ts := Some (deleteAtPlusDays (now e) 7) in
      (Ok200 "soft_deleted" None None,
       mark e w1 id ts, pre ++ [MarkDeleted id ts; Purge])
    else
      (Ok200 "deleted" None None,
       hard_delete w1 id, pre ++ [HardDelete id; Purge]).

Definition have_creds (e : env) : bool :=
  truthy_str (projectId e) && truthy_str (accessToken e).

(** The super-offer broadcast; [superofferSent] is still [false] where
    either branch tests it. *)
Definition super_offer (e : env) (ai : appInit) (w : world) (c : context)
    : world * list step :=
  if superOfferNotify c && have_creds e
     && send_super_offers_notifications ai
  then (sendSuperOfferNotification (now e) (fcm e) w (docIdToUse c),
        [SuperOffer (docIdToUse c)])
  else (w, []).

(** [if (post.timestamp === -1) post.timestamp =
      timestampRequest === -1 ? Date.now() : timestampRequest] *)
Definition resolve_timestamp (e : env) (pl : payload) (p : post) : post :=
  match post_timestamp p with
  | Val (-1) =>
      set_timestamp
        (match timestamp pl with
         | Val (-1) => Val (now e)
         | Val t => Val t
         | _ => Null
         end) p
  | _ => p
  end.

(** Modelled from the spec: [assignCategoryWithGroq(post, offerId)] of
    services/groq.js, the third-party categorization call, is not part of
    the sources; it assigns the category keys of the event, which the
    environment supplies. *)
Definition assignCategoryWithGroq (e : env) (p : post) : post :=
  set_category (fst (groq e p)) (set_category_original (snd (groq e p)) p).

Definition is_daily_channel (channelId : string) : bool :=
  String.eqb channelId "-1001207516682"
  || String.eqb channelId "-1001305107383".

(** [daily_offer], [main_category] and the stable [offer_id]. *)
Definition stamp (c : context) (p : post) : post :=
  let p := set_daily_offer (Val (is_daily_channel (channelId c))) p in
  let p := set_main_category
             (Val (determineMainCategory (post_category_original p))) p in
  match existing c with
  | Some ex => set_offer_id (Val (offer_id ex)) p
  | None => p
  end.

Definition wasPreviouslyFlagged (c : context) : bool :=
  match existing c with
  | Some ex => row_flag ex "is_expired" || row_flag ex "is_deleted"
  | None => false
  end.

(** [(post.is_expired ?? false) === false &&
     (post.is_deleted ?? false) === false] *)
Definition isNowAvailable (p : post) : bool :=
  negb (nullish (post_is_expired p) false)
  && negb (nullish (post_is_deleted p) false).

(** [post.offer_id || null] *)
Definition alt_offer_id (p : post) : option string :=
  let s := str_or (post_offer_id p) "" in
  if truthy_str s then Some s else None.

Definition persist (w : world) (row : offer_row) : world :=
  with_offers w (insertOrUpdateOffer (offers w) row).

(** [row = buildRowFromPost(...); row.offer_id = docIdToUse] *)
Definition build_row (e : env) (pl : payload) (p : post) (c : context)
    : offer_row :=
  {| offer_id := docIdToUse c;
     cols := cols (buildRowFromPost (fresh_offer_id e) (now e) pl p) |}.

Definition offer_info_of (p : post) (c : context) : offer_info :=
  let store1 := str_or (post_store p) (str_or (post_store_name p) "") in
  let cat1 := str_or (post_category p) (str_or (post_main_category p) "") in
  {| offerId := Some (docIdToUse c);
     offerPrice := match post_price_numeric p with
                   | Val z => Some z | _ => None end;
     offerDiscount := match post_perc p with
                      | Val z => Some z | _ => None end;
     offerStore := if truthy_str store1 then Some store1 else None;
     offerCategory := if truthy_str cat1 then Some cat1 else None |}.

(** The keyword stage that follows the persisting of a created offer. *)
Definition keyword_stage (e : env) (ai : appInit) (w : world) (p : post)
    (c : context) : world * list step :=
  let title := str_or (post_title p) "" in
  if truthy_str title && have_creds e then
    let titleWords := extractWordsFromTitle title in
    let matches :=
      findUsersWithMatchingKeywords (favorites w) titleWords (Some title)
        (offer_info_of p c) in
    let keywordMatches :=
      List.filter (fun m => match matchType m with
                            | MKeyword => true | MProduct => false end)
                  matches in
    let keywordUids := List.map userId keywordMatches in
    let reasons :=
      foldl (fun (m : gmap string string) x =>
               if truthy_str (userId x)
               then <[userId x := pretty (favoriteId x)]> m else m)
            ∅ keywordMatches in
    if (0 <? length keywordUids)%nat && send_favorites_notifications ai
    then
      (snd (notifyUsersAboutOffer (now e) (fcm e) w keywordUids p
              (docIdToUse c)
              {| useHeartTitle := true; isAvailableAgain := false;
                 reasonByUid := reasons |}),
       [Notify keywordUids (docIdToUse c)])
    else (w, [])
  else (w, []).

Definition heart (again : bool) : notify_options :=
  {| useHeartTitle := true; isAvailableAgain := again; reasonByUid := ∅ |}.

(** The event as [POST_CREATED] has assigned it when the row is built. *)
Definition created_post (e : env) (pl : payload) (p : post) (c : context)
    : post :=
  stamp c (assignCategoryWithGroq e (resolve_timestamp e pl p)).

(** [POST_CREATED] for an event that reports the offer available. *)
Definition created_active (e : env) (ai : appInit) (w : world)
    (pl : payload) (p : post) (c : context) : outcome :=
  let id := docIdToUse c in
  let '(w1, s1) := super_offer e ai w c in
  let s2 := s1 ++ [Arbitrate (newPriority c) (existingPriority c)] in
  if bool_decide (is_Some (existing c)) && existingDocIsActive c
     && (existingPriority c <? newPriority c)
  then (Ok200 "skipped" (Some "lower_priority_channel") None, w1, s2)
  else
    let p := created_post e pl p c in
    let row := build_row e pl p c in
    let '(w2, s3) :=
      if bool_decide (is_Some (existing c)) && wasPreviouslyFlagged c
         && isNowAvailable p
      then
        let favoriters :=
          findFavoritersByOffer (favorites w1) id (alt_offer_id p) in
        if (0 <? length favoriters)%nat && have_creds e
           && send_favorites_notifications ai
        then (snd (notifyUsersAboutOffer (now e) (fcm e) w1 favoriters p
                     id (heart true)),
              [Notify favoriters id])
        else (w1, [])
      else (w1, []) in
    let w3 := persist w2 row in
    let '(w4, s4) := keyword_stage e ai w3 p c in
    (Ok200 "created" None (Some id), w4,
     s2 ++ s3 ++ [InsertOrUpdate row; Purge] ++ s4).

(** [existing?.price_numeric ? Number(existing.price_numeric) : null] *)
Definition existingPrice (c : context) : option Z :=
  match existing c with
  | Some ex =>
      match col ex "price_numeric" with
      | Some (SInt z) => if truthy_num z then Some z else None
      | _ => None
      end
  | None => None
  end.

(** [post.price_numeric !== undefined ? Number(post.price_numeric) : null] *)
Definition newPrice (p : post) : option Z :=
  match post_price_numeric p with
  | Absent => None
  | Null => Some 0
  | Val z => Some z
  end.

Definition price_dropped (c : context) (p : post) : bool :=
  match existingPrice c, newPrice p with
  | Some old, Some new => new <? old
  | _, _ => false
  end.

(** The category of the stored row is kept when the incoming one is not
    one of [CATEGORIES]. *)
Definition keep_category (c : context) (p : post) : post :=
  let incomingCat :=
    str_or (post_category p) (str_or (post_category_original p) "") in
  let incomingValid :=
    truthy_str incomingCat
    && existsb (fun k => String.eqb (toLowerCase k) (toLowerCase incomingCat))
               CATEGORIES in
  let stored :=
    match existing c with
    | Some ex => col_string_or_empty (col ex "category")
    | None => ""
    end in
  if negb incomingValid && truthy_str stored
  then set_category (Val stored) (set_category_original (Val stored) p)
  else p.

(** Restoration: the flags and the expiry of the event are reset. *)
Definition restore (c : context) (p : post) : post :=
  if wasPreviouslyFlagged c && isNowAvailable p
  then set_is_deleted (Val false)
         (set_is_expired (Val false)
            (set_timestamp_expired (Val (-1)) p))
  else p.

(** The event as [POST_EDITED] has assigned it when the row is built. *)
Definition edited_post (e : env) (pl : payload) (p : post) (c : context)
    : post :=
  restore c
    (stamp c
       (keep_category c
          (assignCategoryWithGroq e (resolve_timestamp e pl p)))).

(** [POST_EDITED] for an event that reports the offer available. *)
Definition edited_active (e : env) (ai : appInit) (w : world)
    (pl : payload) (p : post) (c : context) : outcome :=
  let id := docIdToUse c in
  let '(w1, s1) := super_offer e ai w c in
  let s2 := s1 ++ [Arbitrate (newPriority c) (existingPriority c)] in
  if existingDocIsActive c && (existingPriority c <? newPriority c)
  then (Ok200 "skipped" (Some "lower_priority_on_edit") None, w1, s2)
  else
    let favoriters :=
      findFavoritersByOffer (favorites w1) id (alt_offer_id p) in
    let may_notify :=
      (0 <? length favoriters)%nat && have_creds e
      && send_favorites_notifications ai in
    let '(w2, s3) :=
      if wasPreviouslyFlagged c && isNowAvailable p && may_notify
      then (snd (notifyUsersAboutOffer (now e) (fcm e) w1 favoriters p id
                   (heart true)),
            [Notify favoriters id])
      else (w1, []) in
    let '(w3, s4) :=
      if price_dropped c p && may_notify
      then (snd (notifyUsersAboutOffer (now e) (fcm e) w2 favoriters p id
                   (heart false)),
            [Notify favoriters id])
      else (w2, []) in
    let p := edited_post e pl p c in
    let row := build_row e pl p c in
    let w4 := persist w3 row in
    (Ok200 "edited" None (Some id), w4,
     s2 ++ s3 ++ s4 ++ [InsertOrUpdate row; Purge]).

(** [post.title_clean] and [post.chatgpt.title] replace the title; the
    other keys [applyChatGptOverride] copies are not carried. *)
Definition override_title (p : post) : post :=
  let p :=
    match post_title_clean p with
    | Val t => if truthy_str t then set_title (Val t) p else p
    | _ => p
    end in
  match post_chatgpt_title p with
  | Val t => if truthy_str (trim t) then set_title (Val t) p else p
  | _ => p
  end.

Definition closed : appInit :=
  {| accept_incoming_requests := false;
     send_favorites_notifications := false;
     send_super_offers_notifications := false |}.

(** The checks that precede the reconciliation: the response that ends
    the request, or the flags, the event and its [code]. *)
Definition precheck (e : env) (pl : payload)
    : response + (appInit * post * string) :=
  let ai := default closed (app_init e) in
  if negb (accept_incoming_requests ai)
  then inl (Ok200 "skipped_incoming_disabled" None None)
  else
    match body_post pl with
    | Val p0 =>
        if negb (truthy_str (str_or (type pl) ""))
           || negb (truthy_str (str_or (post_offer_id p0) ""))
        then inl (BadRequest "Missing fields")
        else
          let p := override_title p0 in
          let isExplicit := nullish (post_is_explicit p) false in
          let channelId := str_or (post_channel_id p) "" in
          let link := str_or (post_link p) "" in
          if isExplicit || mem_str channelId SKIP_CHANNELS
             || includes "\u0026aod\u003d1" link
          then inl (Ok200 "skipped" None None)
          else
            let code := str_or (post_code p) "" in
            if negb (truthy_str code)
            then inl (BadRequest "Missing code")
            else inr (ai, p, code)
    | _ => inl (BadRequest "Missing fields")
    end.

(** The reconciliation proper, by kind of event. *)
Definition reconcile (e : env) (ai : appInit) (w : world) (pl : payload)
    (p : post) (code : string) : outcome :=
  let c := resolve w p code in
  let kind := str_or (type pl) "" in
  if String.eqb kind "POST_CREATED" then
    if reports_gone p then created_gone e w p c
    else created_active e ai w pl p c
  else if String.eqb kind "POST_EDITED" then
    if reports_gone p then edited_gone e w p c
    else edited_active e ai w pl p c
  else if String.eqb kind "POST_DELETED" then deleted e w p c
  else (BadRequest "Unknown type", w, []).

(** [router.post('/manage-offer', ...)] *)
Definition manageOffer (e : env) (w : world) (pl : payload) : outcome :=
  match precheck e pl with
  | inl r => (r, w, [])
  | inr (ai, p, code) => reconcile e ai w pl p code
  end.

Definition response_of (o : outcome) : response := fst (fst o).
Definition world_of (o : outcome) : world := snd (fst o).
Definition steps_of (o : outcome) : list step := snd o.

End Routes.

(** * Notions the statements use *)

Module Notions.
Import Js Utils Arbiter Db Event Postgres Firestore Notifications Routes.

(** What an entry of the match result credits: the user, the kind of
    match, and the keyword or the offer id. *)
Definition credited (m : match_entry) : string * match_type * string :=
  (userId m, matchType m, match_reason m).

(** The key of the final loop as a function of what is credited. *)
Definition render_key (t : string * match_type * string) : string :=
  t.1.1 +:+ "|" +:+ match_type_name t.1.2 +:+ "|" +:+ t.2.

(** Is [m] a keyword entry of the user [uid]? *)
Definition is_keyword_entry_of (uid : string) (m : match_entry) : bool :=
  String.eqb (userId m) uid
  && match matchType m with MKeyword => true | MProduct => false end.

(** Does the key of the keyword favorite [f] equal, case aside, a candidate
    of the title? *)
Definition key_matches_title (title : string) (f : favorite_row) : bool :=
  String.eqb (fav_type f) "keyword"
  && mem_str (toLowerCase (fav_key f))
       (List.map toLowerCase
          (candidateSet (Some title) (extractWordsFromTitle title))).

(** The kind of the event. *)
Definition kind (pl : payload) : string := str_or (type pl) "".

(** Does the event say that the offer is gone: a creation or an edit that
    reports it expired or deleted, or a deletion? *)
Definition removal_event (pl : payload) (p : post) : bool :=
  ((String.eqb (kind pl) "POST_CREATED" || String.eqb (kind pl) "POST_EDITED")
   && reports_gone p)
  || (negb (String.eqb (kind pl) "POST_CREATED")
      && negb (String.eqb (kind pl) "POST_EDITED")
      && String.eqb (kind pl) "POST_DELETED").

(** Does the event say that the offer is available: a creation or an edit
    that reports it neither expired nor deleted? *)
Definition active_event (pl : payload) (p : post) : bool :=
  (String.eqb (kind pl) "POST_CREATED" || String.eqb (kind pl) "POST_EDITED")
  && negb (reports_gone p).

Definition is_edit (pl : payload) : bool :=
  negb (String.eqb (kind pl) "POST_CREATED")
  && String.eqb (kind pl) "POST_EDITED".

(** The test both active branches make before they persist. *)
Definition outranked (c : context) : bool :=
  existingDocIsActive c && (existingPriority c <? newPriority c).

(** The row an active event persists. *)
Definition persisted_row (e : env) (pl : payload) (p : post) (c : context)
    : offer_row :=
  build_row e pl
    (if is_edit pl then edited_post e pl p c else created_post e pl p c) c.

(** What a removal the priority is checked for does to [offers];
    [fallback] is the last case of the branch. *)
Definition removed_offers (e : env) (w : world) (p : post) (c : context)
    (fallback : list offer_row) : list offer_row :=
  let id := docIdToUse c in
  if existingPriority c <? newPriority c then offers w
  else if (0 <? length (findFavoritersByOffer (favorites w) id None))%nat
       then markOfferDeleted (now e) (offers w) id (event_delete_ts p)
       else if hasOfferBeenNotified (now e) (notifications w) id
            then markOfferDeleted (now e) (offers w) id
                   (Some (deleteAtPlusDays (now e) 7))
            else fallback.

(** The steps of a removal: the retraction, then the arbitration, then
    the rest, which is empty when the channel is outranked. *)
Definition gone_steps (e : env) (w : world) (c : context) (o : outcome)
    : Prop :=
  ∃ rest,
    steps_of o =
      (withdrawNotificationsSafe e w (docIdToUse c)).2
        ++ (Arbitrate (newPriority c) (existingPriority c) :: rest)
    ∧ ((existingPriority c <? newPriority c) = true → rest = []).

(** The two answers to a removal whose channel is outranked. *)
Definition outranked_response (r : response) : Prop :=
  r = Ok200 "delete_ignored" None None
  ∨ r = Ok200 "skipped" (Some "lower_priority_on_delete") None.

(** What a removal branch does: to [offers], to the receipts, in which
    order, and what it answers when the channel is outranked. *)
Definition gone_outcome (e : env) (w : world) (p : post) (c : context)
    (fallback : list offer_row) (o : outcome) : Prop :=
  offers (world_of o) = removed_offers e w p c fallback
  ∧ users_notifications (world_of o)
    = users_notifications (withdrawNotificationsSafe e w (docIdToUse c)).1
  ∧ gone_steps e w c o
  ∧ ((existingPriority c <? newPriority c) = true →
     outranked_response (response_of o)).

(** [offer_id] is the key of [offers]. *)
Definition keyed (t : list offer_row) : Prop := NoDup (offer_id <$> t).

(** At most one offer per [code]: rows of one code carry one [offer_id]. *)
Definition one_offer_per_code (t : list offer_row) : Prop :=
  ∀ c r1 r2, r1 ∈ t → r2 ∈ t →
             has_code c r1 = true → has_code c r2 = true →
             offer_id r1 = offer_id r2.

(** The number of rows of a code. *)
Definition rows_of_code (c : string) (t : list offer_row) : nat :=
  length (List.filter (has_code c) t).

(** The [offers] table after the event is handled. *)
Definition offers_after (e : env) (w : world) (pl : payload)
    : list offer_row :=
  offers (world_of (manageOffer e w pl)).

(** The last case of a removal: an edit flags the row, a creation or a
    deletion removes it. *)
Definition last_resort (e : env) (w : world) (pl : payload) (c : context)
    : list offer_row :=
  if is_edit pl
  then markOfferDeleted (now e) (offers w) (docIdToUse c)
         (Some (deleteAtPlusDays (now e) 7))
  else hardDeleteOffer (offers w) (docIdToUse c).

(** The tables the notification services never write. *)
Record same_catalog (w w' : world) : Prop := SameCatalog {
  same_offers : offers w' = offers w;
  same_favorites : favorites w' = favorites w;
  same_users : users w' = users w
}.

End Notions.

(** * Sample inputs *)

Module Samples.
Import Js Utils Arbiter Db Event Postgres Firestore Notifications Routes.

(** A user who allows product-favorite notifications and has a device. *)
Definition alice : user_row :=
  {| u_uid := "u1"; u_token_fcm := Some "tk1"; u_superoffers := None;
     u_favorites_searches := Some true; u_favorites_products := Some true |}.

Definition headphones : post :=
  {| post_offer_id := Val "o1"; post_code := Val "C1";
     post_channel_id := Val "-1001207516682"; post_link := Absent;
     post_title := Val "Cuffie Bluetooth Sony"; post_title_clean := Absent;
     post_chatgpt_title := Absent; post_is_explicit := Absent;
     post_is_expired := Absent; post_is_deleted := Absent;
     post_super_offer_notify := Absent; post_timestamp := Absent;
     post_timestamp_expired := Absent; post_price_numeric := Val 30;
     post_perc := Absent; post_store := Absent; post_store_name := Absent;
     post_category := Absent; post_category_original := Absent;
     post_main_category := Absent; post_daily_offer := Absent |}.

Definition all_delivered : provider := fun _ _ => SendOk.
Definition all_rejected : provider := fun _ _ => SendRejected.

(** One notification of the offer [o1], delivered to [u1] and not yet
    withdrawn. *)
Definition notified_world : world :=
  {| offers := []; favorites := []; users := [alice];
     notifications :=
       [ {| n_id := 1; n_offer_id := Some "o1"; n_title := Some "t";
            n_target := Some "o1"; n_created_at := 1000; n_uid := None;
            n_type := None |} ];
     users_notifications :=
       [ {| un_uid := "u1"; un_sent_at := 1000;
            un_notification_id := Some 1; un_withdrawn := Some false;
            un_read := Some false; un_reason := None |} ];
     notifications_seq := 1 |}.

Definition withdrawn_world : world :=
  with_receipts notified_world
    [ {| un_uid := "u1"; un_sent_at := 1000;
         un_notification_id := Some 1; un_withdrawn := Some true;
         un_read := Some false; un_reason := None |} ].

Definition all_on : appInit :=
  {| accept_incoming_requests := true;
     send_favorites_notifications := true;
     send_super_offers_notifications := true |}.

(** The collaborators of a handling at time 5000 with every feature on. *)
Definition open_env : env :=
  {| now := 5000;
     app_init := Some all_on;
     projectId := "project"; accessToken := "token";
     fcm := all_delivered; withdraw_query_ok := true;
     groq := fun p => (post_category p, post_category_original p);
     fresh_offer_id := "fresh" |}.

(** The stored row of the offer [o1], code [C1], reported by the channel
    of rank 2. *)
Definition stored_row : offer_row :=
  {| offer_id := "o1";
     cols := <["code" := SText "C1"]>
             (<["channel_id" := SText "-1001207516682"]>
             (<["timestamp" := SInt 1000]> ∅)) |}.

Definition favorite_of_bob : favorite_row :=
  {| fav_id := 7; fav_uid := "u2"; fav_key := "o1"; fav_type := "offer";
     fav_category := None; fav_store := None; fav_min_price := None;
     fav_max_price := None; fav_min_discount := None |}.

(** The offer is stored; nobody holds it as a favorite, nothing was sent. *)
Definition quiet_world : world :=
  {| offers := [stored_row]; favorites := []; users := [alice];
     notifications := []; users_notifications := [];
     notifications_seq := 0 |}.

(** The offer is stored and is a product favorite of [u2]. *)
Definition favorited_world : world :=
  {| offers := [stored_row]; favorites := [favorite_of_bob];
     users := [alice]; notifications := []; users_notifications := [];
     notifications_seq := 0 |}.

Definition empty_world : world :=
  {| offers := []; favorites := []; users := []; notifications := [];
     users_notifications := []; notifications_seq := 0 |}.

Definition event (kind : string) (p : post) : payload :=
  {| type := Val kind; timestamp := Absent; body_post := Val p |}.

Definition headphones_gone : post := set_is_deleted (Val true) headphones.

(** A keyword favorite of [u1] with no filter, and one that asks for a
    price of at least 50. *)
Definition bluetooth_favorite : favorite_row :=
  {| fav_id := 1; fav_uid := "u1"; fav_key := "bluetooth";
     fav_type := "keyword"; fav_category := None; fav_store := None;
     fav_min_price := None; fav_max_price := None;
     fav_min_discount := None |}.

Definition bluetooth_from_50 : favorite_row :=
  {| fav_id := 1; fav_uid := "u1"; fav_key := "bluetooth";
     fav_type := "keyword"; fav_category := None; fav_store := None;
     fav_min_price := Some 50; fav_max_price := None;
     fav_min_discount := None |}.

Definition headphones_at_30 : offer_info :=
  {| offerId := Some "o1"; offerPrice := Some 30; offerDiscount := None;
     offerStore := None; offerCategory := None |}.

End Samples.

(** ** services/postgres.js: the inbox of a user

    The queries the notification endpoints of routes/api.js run on
    [users_notifications]: marking as read, counting and listing. *)

Module Inbox.
Import Js Utils Db Postgres.

(** [uid = $1 AND COALESCE(withdrawn, false) = false
    AND COALESCE(read, false) = false] *)
Definition unread_of (uid : string) (un : receipt_row) : bool :=
  bool_decide (un_uid un = uid) && not_withdrawn un
  && negb (default false (un_read un)).

(** [SET read = true] *)
Definition set_read (un : receipt_row) : receipt_row :=
  {| un_uid := un_uid un; un_sent_at := un_sent_at un;
     un_notification_id := un_notification_id un;
     un_withdrawn := un_withdrawn un; un_read := Some true;
     un_reason := un_reason un |}.

(** [{success: true, updated}], and [None] for the [{success: false}] of
    the [catch]. *)
Definition mark_where (db_ok : bool) (w : world)
    (hit : receipt_row -> bool) : option nat * world :=
  if db_ok then
    (Some (length (List.filter hit (users_notifications w))),
     with_receipts w
       (List.map (fun un => if hit un then set_read un else un)
                 (users_notifications w)))
  else (None, w).

(** [markNotificationRead({uid, notificationId})] *)
Definition markNotificationRead (db_ok : bool) (w : world) (uid : string)
    (notificationId : Z) : option nat * world :=
  mark_where db_ok w
    (fun un => unread_of uid un
               && bool_decide (un_notification_id un = Some notificationId)).

(** [markAllNotificationsRead({uid})] *)
Definition markAllNotificationsRead (db_ok : bool) (w : world)
    (uid : string) : option nat * world :=
  mark_where db_ok w (unread_of uid).

(** [countUnreadNotifications({uid})] *)
Definition countUnreadNotifications (db_ok : bool) (w : world)
    (uid : string) : option nat :=
  if db_ok
  then Some (length (List.filter (unread_of uid) (users_notifications w)))
  else None.

(** A row of [listNotifications]; the body of the message is not
    carried. *)
Record inbox_row := InboxRow {
  in_id : Z;
  in_title : option string;
  in_target : option string;
  in_created_at : Z;
  in_offer_id : option string;
  in_sent_at : Z;
  in_read : bool;
  in_withdrawn : bool
}.

(** [parseInt(s, 10)] on text: white space, a sign, then the longest run
    of digits; [None] is [NaN]. *)
Fixpoint digits_go (acc : Z) (seen : bool) (s : string) : option Z :=
  match s with
  | String c r =>
      if is_digit c
      then digits_go (10 * acc + Z.of_nat (code c - 48)) true r
      else if seen then Some acc else None
  | EmptyString => if seen then Some acc else None
  end.

Definition parseInt10 (s : string) : option Z :=
  match drop_spaces s with
  | String "-" r => Z.opp <$> digits_go 0 false r
  | String "+" r => digits_go 0 false r
  | r => digits_go 0 false r
  end.

(** [parseInt(limit, 10)] on what the endpoint passes: the text of the
    query, or the number [200]. *)
Definition parseInt_limit (limit : jsval) : option Z :=
  match limit with
  | JNum z => Some z
  | JStr s => parseInt10 s
  | JBool _ | JNull | JUndefined => None
  end.

(** [Math.min(Math.max(parseInt(limit, 10) || 200, 1), 500)] *)
Definition clamp_limit (limit : jsval) : Z :=
  let n := match parseInt_limit limit with
           | Some z => if truthy_num z then z else 200
           | None => 200
           end in
  Z.min (Z.max n 1) 500.

(** [ORDER BY un.sent_at DESC]: insertion keeps rows of equal [sent_at]
    in the order of the join. *)
Fixpoint insert_desc (x : inbox_row) (l : list inbox_row) : list inbox_row :=
  match l with
  | [] => [x]
  | y :: r =>
      if in_sent_at y <? in_sent_at x then x :: l
      else y :: insert_desc x r
  end.

Definition order_desc (l : list inbox_row) : list inbox_row :=
  foldr insert_desc [] l.

(** The join of [listNotifications] for one receipt. *)
Definition inbox_rows_of (ns : list notification_row) (un : receipt_row)
    : list inbox_row :=
  List.map (fun n => {| in_id := n_id n; in_title := n_title n;
                        in_target := n_target n;
                        in_created_at := n_created_at n;
                        in_offer_id := n_offer_id n;
                        in_sent_at := un_sent_at un;
                        in_read := default false (un_read un);
                        in_withdrawn := default false (un_withdrawn un) |})
           (List.filter
              (fun n => bool_decide (un_notification_id un = Some (n_id n)))
              ns).

(** [listNotifications({uid, limit = 200, since = null})]; [parsedSince]
    is the value of [parseMaybeDate(since)] in milliseconds. *)
Definition listNotifications (w : world) (uid : string) (limit : jsval)
    (parsedSince : option Z) : list inbox_row :=
  let receipts :=
    List.filter
      (fun un => bool_decide (un_uid un = uid) && not_withdrawn un
                 && match parsedSince with
                    | Some t => t <=? un_sent_at un
                    | None => true
                    end)
      (users_notifications w) in
  take (Z.to_nat (clamp_limit limit))
       (order_desc (un ← receipts; inbox_rows_of (notifications w) un)).

End Inbox.

(** ** services/postgres.js: updating a user *)

Module Users.
Import Js Utils Db.

(** The [updates] object of [updateUser], with the keys that assign a
    column the embedding carries; the other keys are not carried.  A key
    can be absent, hold [null], or hold a value, which for the flags is
    any JavaScript value. *)
Record user_updates := UserUpdates {
  up_token_fcm : field string;
  up_superoffers : field jsval;
  up_favorites_products : field jsval;
  up_favorites_searches : field jsval
}.

(** How a call ends: the two exceptions, [{success: false, reason:
    'no_fields'}], or [{success, row}]. *)
Inductive update_outcome :=
| UidRequired
| TableUnavailable
| NoFields
| Updated (success : bool) (row : option user_row).

(** The value a flag key assigns: [None] when the loop continues (the
    key is absent, the column does not exist, or the value is
    [undefined] or [null]), else [toBool] of the value. *)
Definition flag_value (columns : list string) (name : string)
    (x : field jsval) : option bool :=
  match x with
  | Val v =>
      if mem_str name columns then
        match v with
        | JUndefined | JNull => None
        | _ => Some (toBool v)
        end
      else None
  | Absent | Null => None
  end.

Definition text_value (columns : list string) (name : string)
    (x : field string) : option string :=
  match x with
  | Val s => if mem_str name columns then Some s else None
  | Absent | Null => None
  end.

(** [SET c = $i] for the assignments collected, on one row. *)
Definition assign_columns (columns : list string) (u : user_updates)
    (r : user_row) : user_row :=
  {| u_uid := u_uid r;
     u_token_fcm :=
       match text_value columns "token_fcm" (up_token_fcm u) with
       | Some s => Some s
       | None => u_token_fcm r
       end;
     u_superoffers :=
       match flag_value columns "superoffers" (up_superoffers u) with
       | Some b => Some b
       | None => u_superoffers r
       end;
     u_favorites_searches :=
       match flag_value columns "favorites_searches"
               (up_favorites_searches u) with
       | Some b => Some b
       | None => u_favorites_searches r
       end;
     u_favorites_products :=
       match flag_value columns "favorites_products"
               (up_favorites_products u) with
       | Some b => Some b
       | None => u_favorites_products r
       end |}.

Definition pushed {A} (x : option A) : nat :=
  match x with Some _ => 1%nat | None => 0%nat end.

(** [sets.length] *)
Definition assignments (columns : list string) (u : user_updates) : nat :=
  (pushed (text_value columns "token_fcm" (up_token_fcm u))
   + pushed (flag_value columns "superoffers" (up_superoffers u))
   + pushed (flag_value columns "favorites_products"
               (up_favorites_products u))
   + pushed (flag_value columns "favorites_searches"
               (up_favorites_searches u)))%nat.

Definition with_users (w : world) (t : list user_row) : world :=
  {| offers := offers w; favorites := favorites w; users := t;
     notifications := notifications w;
     users_notifications := users_notifications w;
     notifications_seq := notifications_seq w |}.

(** [updateUser(uid, updates)]; [columns] is what [getTableColumns('users')]
    answers. *)
Definition updateUser (columns : list string) (w : world) (uid : string)
    (u : user_updates) : update_outcome * world :=
  if negb (truthy_str uid) then (UidRequired, w)
  else if negb (mem_str "uid" columns) then (TableUnavailable, w)
  else if (assignments columns u =? 0)%nat then (NoFields, w)
  else
    let hit r := bool_decide (u_uid r = uid) in
    let t := List.map (fun r => if hit r then assign_columns columns u r
                                else r) (users w) in
    let returned := List.filter hit t in
    (Updated (0 <? length returned)%nat (head returned), with_users w t).

End Users.

(** ** services/postgres.js: removing a favorite *)

Module Favorites.
Import Js Utils Db.

Definition with_favorites (w : world) (t : list favorite_row) : world :=
  {| offers := offers w; favorites := t; users := users w;
     notifications := notifications w;
     users_notifications := users_notifications w;
     notifications_seq := notifications_seq w |}.

(** [uid = $1 AND "key" = $2 AND ($3::text IS NULL OR "type" = $3)],
    where [$3] is [type || null]. *)
Definition removed (uid key : string) (type : option string)
    (f : favorite_row) : bool :=
  String.eqb (fav_uid f) uid && String.eqb (fav_key f) key
  && match type with
     | Some t => if truthy_str t then String.eqb (fav_type f) t else true
     | None => true
     end.

(** [removeFavorite({uid, key, type})]: [{success: rowCount > 0}] and the
    table afterwards. *)
Definition removeFavorite (w : world) (uid key : string)
    (type : option string) : bool * world :=
  ((0 <? length (List.filter (removed uid key type) (favorites w)))%nat,
   with_favorites w
     (List.filter (fun f => negb (removed uid key type f)) (favorites w))).

End Favorites.

(** ** services/groq.js and [mapResponseToCategory] of utils.js

    The text of services/groq.js is found at the end of
    services/telegram.js.  The functions are embedded here as they are
    written; the handler above sees the call through the two keys it
    leaves in the event. *)

Module Groq.
Import Js Utils Event.

(** [s.replace(/X+$/, '')] for a class [X] of characters. *)
Fixpoint drop_while (f : ascii -> bool) (s : string) : string :=
  match s with
  | String c r => if f c then drop_while f r else s
  | EmptyString => EmptyString
  end.

Definition strip_end (f : ascii -> bool) (s : string) : string :=
  String.rev (drop_while f (String.rev s)).

(** The clean-up of the answer in [callGroqForCategory]: [trim()], the
    dots at the end removed, then the quotes (single and double) and the
    white space at the end, then [trim()] again. *)
Definition clean_answer (content : string) : string :=
  trim (strip_end (fun c => (code c =? 34)%nat || (code c =? 39)%nat
                            || is_space c)
          (strip_end (fun c => (code c =? 46)%nat) (trim content))).

(** [resp.localeCompare(cat, undefined, {sensitivity: 'accent'}) === 0]:
    on printable 7-bit text, equality up to the case of the letters. *)
Definition same_name (resp cat : string) : bool :=
  String.eqb (toLowerCase resp) (toLowerCase cat).

(** [mapResponseToCategory(resp)] *)
Definition mapResponseToCategory (resp : string) : option string :=
  match List.find (same_name resp) CATEGORIES with
  | Some cat => Some cat
  | None =>
      List.find (fun cat => includes (toLowerCase cat) (toLowerCase resp))
                CATEGORIES
  end.

(** [CATEGORIES.includes('Uncategorized') ? 'Uncategorized' : other] *)
Definition uncategorized_or (other : string) : string :=
  if mem_str "Uncategorized" CATEGORIES then "Uncategorized" else other.

(** [post.category_original = c; post.category = c] *)
Definition assign (c : string) (p : post) : post :=
  set_category (Val c) (set_category_original (Val c) p).

(** [assignCategoryWithGroq(post, offerId)].  [domain] is [post.domain],
    a key the event record does not carry; [content] is the text the
    model answers with, [None] when the call throws. *)
Definition assignCategoryWithGroq (domain : field string)
    (content : option string) (p : post) : post :=
  let domain := str_or domain "" in
  let isAmazon :=
    truthy_str domain && includes "amazon" (toLowerCase domain) in
  let currentCategory := str_or (post_category_original p) "" in
  let categoryIsKnown :=
    truthy_str currentCategory
    && existsb (fun c => String.eqb (toLowerCase c)
                                    (toLowerCase currentCategory))
               CATEGORIES in
  if isAmazon || categoryIsKnown then p
  else
    match content with
    | Some content =>
        let mapped :=
          match mapResponseToCategory (clean_answer content) with
          | Some cat => if truthy_str cat then cat
                        else uncategorized_or (default "" (head CATEGORIES))
          | None => uncategorized_or (default "" (head CATEGORIES))
          end in
        assign mapped p
    | None =>
        let fallback :=
          uncategorized_or
            (if truthy_str currentCategory then currentCategory
             else default "" (head CATEGORIES)) in
        assign fallback p
    end.

End Groq.

(** ** services/offers.js: paging of [GET /offers] *)

Module Offers.
Import Js.

Definition hex_value (c : ascii) : option Z :=
  if is_digit c then Some (Z.of_nat (code c - 48))
  else if ((97 <=? code c) && (code c <=? 102))%nat
       then Some (Z.of_nat (code c - 87))
  else if ((65 <=? code c) && (code c <=? 70))%nat
       then Some (Z.of_nat (code c - 55))
  else None.

Definition digit_value (radix : Z) (c : ascii) : option Z :=
  match hex_value c with
  | Some v => if v <? radix then Some v else None
  | None => None
  end.

(** The longest run of digits of the radix; [None] is [NaN]. *)
Fixpoint digits_go (radix acc : Z) (seen : bool) (s : string) : option Z :=
  match s with
  | String c r =>
      match digit_value radix c with
      | Some v => digits_go radix (radix * acc + v) true r
      | None => if seen then Some acc else None
      end
  | EmptyString => if seen then Some acc else None
  end.

(** [parseInt(s)] without a radix: white space, a sign, [0x] or [0X]
    for base 16, then the digits. *)
Definition unsigned (s : string) : option Z :=
  match s with
  | String "0" (String "x" r) | String "0" (String "X" r) =>
      digits_go 16 0 false r
  | _ => digits_go 10 0 false s
  end.

Definition parseInt (s : string) : option Z :=
  match drop_spaces s with
  | String "-" r => Z.opp <$> unsigned r
  | String "+" r => unsigned r
  | r => unsigned r
  end.




End Offers.

(** * Further notions the statements use *)

Module Frames.
Import Js Utils Arbiter Db Event Postgres Firestore Notifications Routes.

(** Whose receipt it is, and of which notification. *)
Definition receipt_key (un : receipt_row) : string * option Z :=
  (un_uid un, un_notification_id un).

(** From [w] to [w'] the favorites and the users are untouched, the
    journal of notifications and the receipts only grow at their end, and
    a receipt keeps its user and its notification. *)
Record grows (w w' : world) : Prop := Grows {
  grows_favorites : favorites w' = favorites w;
  grows_users : users w' = users w;
  grows_notifications : notifications w `prefix_of` notifications w';
  grows_receipts :
    receipt_key <$> users_notifications w
      `prefix_of` receipt_key <$> users_notifications w'
}.

(** From [w] to [w'] nothing was journalled and no receipt was added. *)
Record silent (w w' : world) : Prop := Silent {
  silent_notifications : notifications w' = notifications w;
  silent_receipts :
    receipt_key <$> users_notifications w'
    = receipt_key <$> users_notifications w
}.


End Frames.

(** * Further sample inputs *)

Module Fixtures.
Import Js Utils Arbiter Db Event Postgres Firestore Notifications Routes.
Import Samples Users.

(** The headphones as one of the skipped channels reports them. *)
Definition from_skipped_channel : post :=
  {| post_offer_id := Val "o1"; post_code := Val "C1";
     post_channel_id := Val "-1001313053355"; post_link := Absent;
     post_title := Val "Cuffie Bluetooth Sony"; post_title_clean := Absent;
     post_chatgpt_title := Absent; post_is_explicit := Absent;
     post_is_expired := Absent; post_is_deleted := Absent;
     post_super_offer_notify := Absent; post_timestamp := Absent;
     post_timestamp_expired := Absent; post_price_numeric := Val 30;
     post_perc := Absent; post_store := Absent; post_store_name := Absent;
     post_category := Absent; post_category_original := Absent;
     post_main_category := Absent; post_daily_offer := Absent |}.

(** The collaborators when the project id cannot be obtained. *)
Definition without_project : env :=
  {| now := 5000;
     app_init := Some all_on;
     projectId := ""; accessToken := "token";
     fcm := all_delivered; withdraw_query_ok := true;
     groq := fun p => (post_category p, post_category_original p);
     fresh_offer_id := "fresh" |}.

(** The stored row of [o1] after a soft delete. *)
Definition flagged_row : offer_row :=
  {| offer_id := "o1";
     cols := <["code" := SText "C1"]>
             (<["channel_id" := SText "-1001207516682"]>
             (<["timestamp" := SInt 1000]>
             (<["is_deleted" := SBool true]>
             (<["is_expired" := SBool true]>
             (<["timestamp_expired" := SInt 4000]> ∅))))) |}.

Definition flagged_world : world :=
  {| offers := [flagged_row]; favorites := []; users := [alice];
     notifications := []; users_notifications := [];
     notifications_seq := 0 |}.

(** The update by which a user turns the product notifications off. *)
Definition opt_out : user_updates :=
  {| up_token_fcm := Absent; up_superoffers := Absent;
     up_favorites_products := Val (JStr "no");
     up_favorites_searches := Null |}.

End Fixtures.

(** * Properties *)

Import Js Utils Arbiter Db Event Postgres Firestore Notifications Routes.
Import Notions Samples.

(** ** The functions on sample inputs *)

Example toBool_values :
  toBool (JStr " TRUE ") = true ∧ toBool (JStr "t") = true
  ∧ toBool (JNum 1) = true ∧ toBool (JNum 2) = false
  ∧ toBool JNull = false ∧ toBool (JStr "no") = false.
Proof. by vm_compute. Qed.

Example getChannelPriority_values :
  getChannelPriority "-1001305107383" = 1
  ∧ getChannelPriority "-1001207516682" = 2
  ∧ getChannelPriority "-1001313053355" = 3
  ∧ getChannelPriority "" = 3.
Proof. by vm_compute. Qed.

Example extractWordsFromTitle_sample :
  extractWordsFromTitle "Cuffie Bluetooth Sony, usb  hub! Sony"
  = ["cuffie"; "bluetooth"; "sony"; "usb"; "hub"].
Proof. by vm_compute. Qed.

Example candidateSet_sample :
  candidateSet (Some "Cuffie Bluetooth Sony")
    (extractWordsFromTitle "Cuffie Bluetooth Sony")
  = ["cuffie"; "Cuffie"; "bluetooth"; "Bluetooth"; "sony"; "Sony";
     "cuffie bluetooth"; "bluetooth sony"; "cuffie bluetooth sony"].
Proof. by vm_compute. Qed.

(** The keyword [bluetooth] with no filter matches the title; with a
    minimum price of 50 it does not match an offer at 30. *)
Example keyword_match_sample :
  findUsersWithMatchingKeywords [bluetooth_favorite]
    (extractWordsFromTitle "Cuffie Bluetooth Sony")
    (Some "Cuffie Bluetooth Sony") headphones_at_30
  = [ {| userId := "u1"; matchType := MKeyword;
         keyword := Some "bluetooth"; matchOfferId := None;
         favoriteId := 1 |} ]
  ∧ findUsersWithMatchingKeywords [bluetooth_from_50]
      (extractWordsFromTitle "Cuffie Bluetooth Sony")
      (Some "Cuffie Bluetooth Sony") headphones_at_30
    = [].
Proof. by vm_compute. Qed.

(** A retraction for an offer with no receipt returns [{updated: 0,
    sent: 0}] and changes nothing. *)
Example retract_nothing :
  withdrawOfferNotifications true all_rejected empty_world
    "project" "o1" "token"
  = (Returned {| r_updated := 0; r_sent := 0 |}, empty_world).
Proof. by vm_compute. Qed.

Example determineMainCategory_values :
  determineMainCategory (Val "Kindle Store") = "Libri"
  ∧ determineMainCategory (Val "Elettronica") = "Tecnologia"
  ∧ determineMainCategory (Val "Sconosciuta") = "Altro"
  ∧ determineMainCategory Null = "Altro".
Proof. by vm_compute. Qed.

(** ** Lists, sets and strings *)

Lemma elem_of_lfilter {A} (f : A -> bool) (l : list A) (x : A) :
  x ∈ List.filter f l ↔ x ∈ l ∧ f x = true.
Proof. rewrite !list_elem_of_In. apply List.filter_In. Qed.

Lemma elem_of_lmap {A B} (f : A -> B) (l : list A) (y : B) :
  y ∈ List.map f l ↔ ∃ x, y = f x ∧ x ∈ l.
Proof. apply list_elem_of_fmap. Qed.


Section dedup.
Context {A K : Type} `{Countable K} (key : A -> K).

Lemma dedup_by_elem (seen : gset K) (l : list A) (x : A) :
  x ∈ dedup_by key seen l → x ∈ l ∧ key x ∉ seen.
Proof.
  revert seen. induction l as [|y l IH]; intros seen; simpl.
  - intros Hx. by apply elem_of_nil in Hx.
  - destruct (decide (key y ∈ seen)) as [Hin|Hnin].
    + intros Hx. apply IH in Hx as [? ?]. split; [by right|done].
    + intros [->|Hx]%elem_of_cons.
      * split; [by left|done].
      * apply IH in Hx as [? Hk]. split; [by right|].
        intros Hs. apply Hk, elem_of_union. by right.
Qed.

Lemma dedup_by_NoDup (seen : gset K) (l : list A) :
  NoDup (key <$> dedup_by key seen l).
Proof.
  revert seen. induction l as [|y l IH]; intros seen; simpl.
  - constructor.
  - destruct (decide (key y ∈ seen)); [apply IH|].
    rewrite fmap_cons. constructor; [|apply IH].
    intros (z & Hz & Hin)%list_elem_of_fmap.
    apply dedup_by_elem in Hin as [_ Hk]. rewrite <- Hz in Hk.
    apply Hk, elem_of_union. left. by apply elem_of_singleton.
Qed.

Lemma dedup_by_covers (seen : gset K) (l : list A) (x : A) :
  x ∈ l → key x ∉ seen →
  ∃ y, y ∈ dedup_by key seen l ∧ key y = key x.
Proof.
  revert seen. induction l as [|y l IH]; intros seen Hx Hk; simpl.
  - by apply elem_of_nil in Hx.
  - apply elem_of_cons in Hx as [->|Hx].
    + rewrite decide_False by done. exists y. split; [by left|done].
    + destruct (decide (key y ∈ seen)); [by apply IH|].
      destruct (decide (key x = key y)) as [Heq|Hne].
      * exists y. split; [by left|done].
      * destruct (IH ({[key y]} ∪ seen) Hx) as (z & Hz & Hkz).
        { by intros [?%elem_of_singleton|?]%elem_of_union. }
        exists z. split; [by right|done].
Qed.

Lemma dedup_by_length (seen : gset K) (l : list A) :
  (length (dedup_by key seen l) ≤ length l)%nat.
Proof.
  revert seen. induction l as [|y l IH]; intros seen; simpl; [lia|].
  destruct (decide (key y ∈ seen)); simpl.
  - specialize (IH seen). lia.
  - specialize (IH ({[key y]} ∪ seen)). lia.
Qed.
End dedup.

Lemma set_to_array_elem {K} `{Countable K} (l : list K) (x : K) :
  x ∈ set_to_array l ↔ x ∈ l.
Proof.
  unfold set_to_array. split.
  - intros Hx. by apply dedup_by_elem in Hx as [? _].
  - intros Hx.
    destruct (dedup_by_covers (fun k => k) ∅ l x Hx) as (y & Hy & ->);
      [set_solver|done].
Qed.

Lemma set_to_array_NoDup {K} `{Countable K} (l : list K) :
  NoDup (set_to_array l).
Proof.
  unfold set_to_array.
  pose proof (dedup_by_NoDup (fun k : K => k) ∅ l) as Hn.
  by rewrite list_fmap_id in Hn.
Qed.


Lemma take_elem {A} (n : nat) (l : list A) (x : A) : x ∈ take n l → x ∈ l.
Proof. apply subseteq_take. Qed.




(** ** The match engine: candidate keys *)












(** ** The match engine: one entry per user, match type and key *)

Lemma dedup_key_credited (l : list match_entry) :
  dedup_key <$> l = render_key <$> (credited <$> l).
Proof. by rewrite <- list_fmap_compose. Qed.

(** C8, as the code has it: the result holds at most one entry per user,
    match type and key (the keyword of the favorite, or the offer id); two
    favorites of one user with different keywords are two entries. *)
Theorem matches_unique_per_user_type_key (favs : list favorite_row)
    (titleWords : list string) (rawTitle : option string) (o : offer_info) :
  NoDup (credited <$>
           findUsersWithMatchingKeywords favs titleWords rawTitle o).
Proof.
  unfold findUsersWithMatchingKeywords.
  set (matches := keyword_matches _ _ _ ++ _).
  pose proof (dedup_by_NoDup dedup_key ∅ matches) as Hn.
  rewrite dedup_key_credited in Hn. by apply NoDup_fmap_1 in Hn.
Qed.

(** C8 as stated fails: a user whose favorites [bluetooth] and
    [cuffie bluetooth] both match the title [Cuffie Bluetooth Sony] is
    credited with two keyword entries. *)
Lemma two_keyword_entries_for_one_user :
  ¬ (∀ (favs : list favorite_row) (title : string) (o : offer_info)
       (f1 f2 : favorite_row),
       f1 ∈ favs → f2 ∈ favs → f1 ≠ f2 →
       fav_uid f1 = fav_uid f2 →
       key_matches_title title f1 = true →
       key_matches_title title f2 = true →
       (length (List.filter (is_keyword_entry_of (fav_uid f1))
                  (findUsersWithMatchingKeywords favs
                     (extractWordsFromTitle title) (Some title) o))
        ≤ 1)%nat).
Proof.
  intros Hclaim.
  pose (f1 := Favorite 1 "u1" "bluetooth" "keyword" None None None None None).
  pose (f2 := Favorite 2 "u1" "cuffie bluetooth" "keyword"
                None None None None None).
  pose (o := OfferInfo (Some "o1") (Some 30) None None None).
  specialize (Hclaim [f1; f2] "Cuffie Bluetooth Sony" o f1 f2).
  assert (Hlen : (2 ≤ 1)%nat); [|lia].
  etrans; [|apply Hclaim].
  - by vm_compute.
  - by left.
  - by right; left.
  - discriminate.
  - reflexivity.
  - by vm_compute.
  - by vm_compute.
Qed.

(** ** The fan-out: who is notified *)

Lemma notify_task_Some (us : list user_row) (fcm : provider) (i : nat)
    (uid v : string) :
  notify_task us fcm i uid = Some v →
  v = uid
  ∧ shouldSendNotification (getUserPreferences us uid) MProduct = true
  ∧ ∃ tok, getUserFcmToken us uid = Some tok ∧ truthy_str tok = true
           ∧ fcm i tok = SendOk.
Proof.
  unfold notify_task.
  destruct (getUserPreferences us uid) as [prefs|]; [|done].
  destruct (shouldSendNotification (Some prefs) MProduct) eqn:Hs; [|done].
  destruct (getUserFcmToken us uid) as [tok|]; [|done]. simpl.
  destruct (truthy_str tok) eqn:Ht; [|done]. simpl.
  destruct (fcm i tok) eqn:Hf; [|done..].
  intros [= <-]. eauto 6.
Qed.

Lemma shouldSendNotification_product (us : list user_row) (uid : string) :
  shouldSendNotification (getUserPreferences us uid) MProduct = true →
  ∃ row, user_by_uid us uid = Some row
         ∧ u_favorites_products row = Some true.
Proof.
  unfold getUserPreferences.
  destruct (user_by_uid us uid) as [row|]; [|done].
  unfold shouldSendNotification. simpl.
  destruct (u_favorites_products row) as [[]|] eqn:Hp; simpl.
  - intros _. eauto.
  - by repeat case_match.
  - by repeat case_match.
Qed.

Lemma getUserFcmToken_Some (us : list user_row) (uid tok : string) :
  getUserFcmToken us uid = Some tok →
  ∃ row stored, user_by_uid us uid = Some row
                ∧ u_token_fcm row = Some stored
                ∧ stored ≠ "" ∧ tok = trim stored.
Proof.
  unfold getUserFcmToken.
  destruct (user_by_uid us uid) as [row|]; [|done].
  destruct (u_token_fcm row) as [stored|] eqn:Hstored; [|done].
  destruct stored as [|c stored]; [done|].
  intros [= <-]. exists row, (String c stored).
  split; [done|]. split; [done|]. split; [discriminate|done].
Qed.

Lemma notifyUsersAboutOffer_notified (now : Z) (fcm : provider) (w : world)
    (userIds : list string) (p : post) (offerId : string)
    (opts : notify_options) :
  (notifyUsersAboutOffer now fcm w userIds p offerId opts).1 =
  fulfilled_values (imap (notify_task (users w) fcm) userIds).
Proof.
  unfold notifyUsersAboutOffer. simpl.
  by destruct (fulfilled_values _).
Qed.

Lemma fulfilled_values_elem (results : list (option string)) (v : string) :
  v ∈ fulfilled_values results ↔ Some v ∈ results ∧ truthy_str v = true.
Proof.
  unfold fulfilled_values. rewrite elem_of_lfilter, list_elem_of_omap.
  split.
  - intros [(r & Hr & ->) Ht]. done.
  - intros [Hr Ht]. eauto.
Qed.

Lemma createFirestoreNotificationDoc_receipts (now : Z) (w : world)
    (offerId : string) (userIds : list string) (type : string) :
  users_notifications
    (createFirestoreNotificationDoc now w offerId userIds type) =
  users_notifications w.
Proof.
  unfold createFirestoreNotificationDoc.
  generalize (match userIds with [] => [None] | _ => List.map Some userIds end).
  intros l. revert w. induction l as [|u l IH]; intros w; simpl; [done|].
  by rewrite IH.
Qed.

(** C10: whoever is in the list [notifyUsersAboutOffer] returns is a
    requested recipient whose stored flags permit product-favorite
    notifications (the check is made with the match type [product],
    whatever the options of the call) and who has a non-empty device token;
    the returned list does not depend on the reasons a keyword match
    supplies; every receipt the call adds belongs to a returned user. *)
Theorem notified_only_with_product_preference (now : Z) (fcm : provider)
    (w : world) (userIds : list string) (p : post) (offerId : string)
    (opts : notify_options) (uid : string) :
  uid ∈ (notifyUsersAboutOffer now fcm w userIds p offerId opts).1 →
  uid ∈ userIds
  ∧ shouldSendNotification (getUserPreferences (users w) uid) MProduct = true
  ∧ (∃ row stored,
       user_by_uid (users w) uid = Some row
       ∧ u_favorites_products row = Some true
       ∧ u_token_fcm row = Some stored
       ∧ stored ≠ "" ∧ trim stored ≠ "")
  ∧ (∀ reasons : gmap string string,
       (notifyUsersAboutOffer now fcm w userIds p offerId
          {| useHeartTitle := true; isAvailableAgain := false;
             reasonByUid := reasons |}).1
       = (notifyUsersAboutOffer now fcm w userIds p offerId opts).1)
  ∧ (∀ r, r ∈ users_notifications
                (notifyUsersAboutOffer now fcm w userIds p offerId opts).2 →
          r ∈ users_notifications w
          ∨ un_uid r ∈
              (notifyUsersAboutOffer now fcm w userIds p offerId opts).1).
Proof.
  intros Hin. pose proof Hin as Hin'.
  rewrite notifyUsersAboutOffer_notified in Hin'.
  apply fulfilled_values_elem in Hin' as [Hres _].
  apply elem_of_lookup_imap in Hres as (i & u & Htask & Hu).
  symmetry in Htask.
  apply notify_task_Some in Htask as (-> & Hprefs & tok & Htok & Ht & _).
  split; [by eapply list_elem_of_lookup_2|].
  split; [done|].
  split.
  { apply shouldSendNotification_product in Hprefs as (row & Hrow & Hprod).
    apply getUserFcmToken_Some in Htok as (row' & stored & Hrow' & Hs & Hne & ->).
    rewrite Hrow in Hrow'. injection Hrow' as <-.
    exists row, stored. repeat split; try done.
    intros Hempty. by rewrite Hempty in Ht. }
  split.
  { intros reasons. by rewrite !notifyUsersAboutOffer_notified. }
  intros r. rewrite notifyUsersAboutOffer_notified.
  unfold notifyUsersAboutOffer. simpl.
  destruct (fulfilled_values _) as [|v vs] eqn:Hv; [by left|].
  destruct (truthy_num _); cbn -[List.map createFirestoreNotificationDoc].
  - rewrite createFirestoreNotificationDoc_receipts.
    cbn -[List.map].
    intros [Hr|Hr]%elem_of_app; [by left|].
    apply elem_of_lmap in Hr as (x & -> & Hx). by right.
  - rewrite createFirestoreNotificationDoc_receipts. by left.
Qed.

Lemma notified_only_with_product_preference_witness :
  "u1" ∈ (notifyUsersAboutOffer 5000 all_delivered notified_world ["u1"]
            headphones "o1" (heart false)).1
  ∧ shouldSendNotification
      (getUserPreferences (users notified_world) "u1") MProduct = true.
Proof.
  assert (Hin : "u1" ∈ (notifyUsersAboutOffer 5000 all_delivered
                          notified_world ["u1"] headphones "o1"
                          (heart false)).1).
  { rewrite notifyUsersAboutOffer_notified. vm_compute. by left. }
  split; [exact Hin|].
  exact (proj1 (proj2 (notified_only_with_product_preference
                         5000 all_delivered notified_world ["u1"] headphones
                         "o1" (heart false) "u1" Hin))).
Defined.

(** ** Retraction: individual send failures *)



(** The retraction by offer id throws as soon as one send fails. *)
Lemma retract_fanout_tokens_logged (fcm : provider)
    (projectId token : string) (res : withdraw_result)
    (recipients : list retract_recipient) (i : nat) (r : retract_recipient) :
  truthy_str projectId = true → truthy_str token = true →
  recipients !! i = Some r → fcm i (rr_token r) ≠ SendOk →
  retract_fanout fcm projectId token res recipients "tokens"
  = Thrown (ReferenceError "tokens").
Proof.
  intros Hp Ht Hr Hf. unfold retract_fanout. rewrite Hp, Ht. simpl.
  assert (Hfail : false ∈ imap (retract_task fcm) recipients).
  { replace false with (retract_task fcm i r).
    - by apply elem_of_lookup_imap_2.
    - unfold retract_task. by destruct (fcm i (rr_token r)). }
  assert (Hpos : (0 < length (List.filter negb
                                (imap (retract_task fcm) recipients)))%nat).
  { assert (Hin : false ∈ List.filter negb
                            (imap (retract_task fcm) recipients))
      by by apply elem_of_lfilter.
    destruct (List.filter negb _); [by apply elem_of_nil in Hin|simpl; lia]. }
  apply Nat.ltb_lt in Hpos. by rewrite Hpos.
Qed.

Lemma withdrawOfferNotifications_throws (fcm : provider) (w : world)
    (projectId offerId token : string) (i : nat) (r : retract_recipient) :
  truthy_str projectId = true → truthy_str token = true →
  retract_recipients (Some offerId)
    (select_receipts w (fun n => bool_decide (n_offer_id n = Some offerId)))
    !! i = Some r →
  fcm i (rr_token r) ≠ SendOk →
  (withdrawOfferNotifications true fcm w projectId offerId token).1
  = Thrown (ReferenceError "tokens").
Proof.
  intros Hp Ht Hr Hf.
  unfold withdrawOfferNotifications, withdrawNotificationsForOffer,
    withdraw_where.
  simpl. by eapply retract_fanout_tokens_logged.
Qed.

(** C9 fails on the code: with one receipt of the offer and a send the
    provider rejects, [withdrawOfferNotifications] persists the withdrawal
    and then throws a [ReferenceError] for [tokens] instead of returning
    [{updated: 1, sent: 0}], which is what the retraction by notification
    id returns on the same tables. *)
Theorem withdraw_offer_throws_on_rejected_send :
  withdrawOfferNotifications true all_rejected notified_world
    "project" "o1" "token"
  = (Thrown (ReferenceError "tokens"), withdrawn_world)
  ∧ withdrawNotificationByIdFanout true all_rejected notified_world
      "project" 1 "token"
    = (Returned {| r_updated := 1; r_sent := 0 |}, withdrawn_world).
Proof. split; by vm_compute. Qed.

(** ** What the notification services leave alone *)

Lemma same_catalog_refl (w : world) : same_catalog w w.
Proof. by split. Qed.

Lemma same_catalog_trans (w1 w2 w3 : world) :
  same_catalog w1 w2 → same_catalog w2 w3 → same_catalog w1 w3.
Proof. intros [? ? ?] [? ? ?]. split; congruence. Qed.

Lemma createFirestoreNotificationDoc_catalog (now : Z) (w : world)
    (offerId : string) (userIds : list string) (type : string) :
  same_catalog w (createFirestoreNotificationDoc now w offerId userIds type).
Proof.
  unfold createFirestoreNotificationDoc.
  generalize (match userIds with [] => [None] | _ => List.map Some userIds end).
  intros l. revert w. induction l as [|u l IH]; intros w; simpl.
  - apply same_catalog_refl.
  - eapply same_catalog_trans; [|apply IH]. by split.
Qed.

Lemma notifyUsersAboutOffer_catalog (now : Z) (fcm : provider) (w : world)
    (userIds : list string) (p : post) (offerId : string)
    (opts : notify_options) :
  same_catalog w (notifyUsersAboutOffer now fcm w userIds p offerId opts).2.
Proof.
  unfold notifyUsersAboutOffer. simpl.
  destruct (fulfilled_values _) as [|v vs]; [by split|].
  set (w1 := {| offers := offers w; favorites := _ |}).
  assert (H1 : same_catalog w w1) by by split.
  pose proof (createFirestoreNotificationDoc_catalog now w1 offerId
                (v :: vs) "favorites") as H2.
  destruct (truthy_num _); cbn -[createFirestoreNotificationDoc].
  - destruct H2 as [Ho Hf Hu]. subst w1. simpl in Ho, Hf, Hu.
    split; simpl; congruence.
  - by eapply same_catalog_trans.
Qed.

Lemma sendSuperOfferNotification_catalog (now : Z) (fcm : provider)
    (w : world) (offerId : string) :
  same_catalog w (sendSuperOfferNotification now fcm w offerId).
Proof.
  unfold sendSuperOfferNotification.
  destruct (List.filter _ (users w)); [apply same_catalog_refl|].
  destruct (fulfilled_values _); [apply same_catalog_refl|].
  apply createFirestoreNotificationDoc_catalog.
Qed.

Lemma withdraw_where_frame (db_ok : bool) (w : world)
    (sel : notification_row -> bool) :
  same_catalog w (withdraw_where db_ok w sel).2
  ∧ notifications (withdraw_where db_ok w sel).2 = notifications w.
Proof.
  unfold withdraw_where. destruct db_ok; simpl; [|by repeat split].
  destruct (set_to_array _); by repeat split.
Qed.

Lemma withdrawNotificationsSafe_frame (e : env) (w : world) (id : string) :
  same_catalog w (withdrawNotificationsSafe e w id).1
  ∧ notifications (withdrawNotificationsSafe e w id).1 = notifications w.
Proof.
  unfold withdrawNotificationsSafe.
  destruct (negb (truthy_str id)); simpl; [by repeat split|].
  unfold withdrawOfferNotifications, withdrawNotificationsForOffer.
  pose proof (withdraw_where_frame (withdraw_query_ok e) w
                (fun n => bool_decide (n_offer_id n = Some id))) as Hf.
  by destruct (withdraw_where _ _ _) as [[res|] w'].
Qed.

Lemma super_offer_catalog (e : env) (ai : appInit) (w : world) (c : context) :
  same_catalog w (super_offer e ai w c).1.
Proof.
  unfold super_offer. case_match; simpl.
  - apply sendSuperOfferNotification_catalog.
  - apply same_catalog_refl.
Qed.

Lemma keyword_stage_catalog (e : env) (ai : appInit) (w : world) (p : post)
    (c : context) :
  same_catalog w (keyword_stage e ai w p c).1.
Proof.
  unfold keyword_stage.
  repeat case_match; simpl;
    (apply same_catalog_refl || apply notifyUsersAboutOffer_catalog).
Qed.

(** ** The branches of the handler, by what they do to [offers] *)

Lemma leb_ltb_negb (x y : Z) : (x <=? y) = negb (y <? x).
Proof. destruct (Z.leb_spec x y), (Z.ltb_spec y x); (done || lia). Qed.

Section gone.
Context (e : env) (w : world) (p : post) (c : context).

Local Ltac gone_branch :=
  destruct (withdrawNotificationsSafe_frame e w (docIdToUse c))
    as [[Ho Hf Hu] Hn];
  destruct (withdrawNotificationsSafe e w (docIdToUse c)) as [w1 s1];
  simpl in *;
  rewrite Hf, Hn, ?leb_ltb_negb;
  destruct (existingPriority c <? newPriority c); simpl;
  [ split; [done|]; split; [done|]; split; [by exists []|];
    intros _; (by left) || (by right)
  | repeat case_match; simpl; rewrite ?Ho;
    (split; [done|]); (split; [done|]);
    (split; [|done]); eexists; (split; [by rewrite <- app_assoc|done]) ].

Lemma created_gone_outcome :
  gone_outcome e w p c (hardDeleteOffer (offers w) (docIdToUse c))
    (created_gone e w p c).
Proof.
  unfold gone_outcome, created_gone, removed_offers, gone_steps,
    outranked_response.
  gone_branch.
Qed.

Lemma edited_gone_outcome :
  gone_outcome e w p c
    (markOfferDeleted (now e) (offers w) (docIdToUse c)
       (Some (deleteAtPlusDays (now e) 7)))
    (edited_gone e w p c).
Proof.
  unfold gone_outcome, edited_gone, removed_offers, gone_steps,
    outranked_response.
  gone_branch.
Qed.

Lemma deleted_outcome :
  gone_outcome e w p c (hardDeleteOffer (offers w) (docIdToUse c))
    (deleted e w p c).
Proof.
  unfold gone_outcome, deleted, removed_offers, gone_steps,
    outranked_response.
  gone_branch.
Qed.
End gone.

Section active.
Context (e : env) (ai : appInit) (w : world) (pl : payload) (p : post)
        (c : context).

Lemma created_active_offers :
  let o := created_active e ai w pl p c in
  let row := build_row e pl (created_post e pl p c) c in
  if bool_decide (is_Some (existing c)) && outranked c
  then offers (world_of o) = offers w
       ∧ response_of o = Ok200 "skipped" (Some "lower_priority_channel") None
  else offers (world_of o) = insertOrUpdateOffer (offers w) row
       ∧ response_of o = Ok200 "created" None (Some (docIdToUse c))
       ∧ InsertOrUpdate row ∈ steps_of o.
Proof.
  unfold created_active, outranked.
  pose proof (super_offer_catalog e ai w c) as [Ho _ _].
  destruct (super_offer e ai w c) as [w1 s1]. simpl in Ho.
  rewrite andb_assoc.
  destruct (bool_decide (is_Some (existing c)) && existingDocIsActive c
            && (existingPriority c <? newPriority c)); [done|].
  set (q := created_post e pl p c).
  set (stage := if bool_decide (is_Some (existing c))
                   && wasPreviouslyFlagged c && isNowAvailable q
                then _ else _).
  assert (Hs : offers stage.1 = offers w).
  { subst stage. repeat case_match; simpl; try done.
    by rewrite (same_offers _ _ (notifyUsersAboutOffer_catalog _ _ _ _ _ _ _)). }
  destruct stage as [w2 s3]. simpl in Hs.
  pose proof (keyword_stage_catalog e ai (persist w2 (build_row e pl q c))
                q c) as [Hk _ _].
  destruct (keyword_stage _ _ _ _ _) as [w4 s4]. simpl in *.
  unfold world_of, response_of, steps_of. simpl.
  rewrite Hk, Hs. repeat split.
  rewrite !elem_of_app. right. right. by left.
Qed.

Lemma edited_active_offers :
  let o := edited_active e ai w pl p c in
  let row := build_row e pl (edited_post e pl p c) c in
  if outranked c
  then offers (world_of o) = offers w
       ∧ response_of o = Ok200 "skipped" (Some "lower_priority_on_edit") None
  else offers (world_of o) = insertOrUpdateOffer (offers w) row
       ∧ response_of o = Ok200 "edited" None (Some (docIdToUse c))
       ∧ InsertOrUpdate row ∈ steps_of o.
Proof.
  unfold edited_active, outranked.
  pose proof (super_offer_catalog e ai w c) as [Ho _ _].
  destruct (super_offer e ai w c) as [w1 s1]. simpl in Ho.
  destruct (existingDocIsActive c && (existingPriority c <? newPriority c));
    [done|].
  set (favoriters := findFavoritersByOffer _ _ _).
  set (may := (0 <? length favoriters)%nat && _ && _).
  set (stage1 := if wasPreviouslyFlagged c && isNowAvailable p && may
                 then _ else _).
  assert (H1 : offers stage1.1 = offers w).
  { subst stage1. case_match; simpl; [|done].
    by rewrite (same_offers _ _ (notifyUsersAboutOffer_catalog _ _ _ _ _ _ _)). }
  destruct stage1 as [w2 s3]. simpl in H1.
  set (stage2 := if price_dropped c p && may then _ else _).
  assert (H2 : offers stage2.1 = offers w).
  { subst stage2. case_match; simpl; [|done].
    by rewrite (same_offers _ _ (notifyUsersAboutOffer_catalog _ _ _ _ _ _ _)). }
  destruct stage2 as [w3 s4]. simpl in *.
  unfold world_of, response_of, steps_of. simpl.
  rewrite H2. repeat split.
  rewrite !elem_of_app. right. right. right. by left.
Qed.
End active.

(** ** The handler, by what it does to [offers] *)

Lemma manageOffer_rejected (e : env) (w : world) (pl : payload)
    (r : response) :
  precheck e pl = inl r → manageOffer e w pl = (r, w, []).
Proof. unfold manageOffer. by intros ->. Qed.

Lemma manageOffer_removal (e : env) (w : world) (pl : payload)
    (ai : appInit) (p : post) (code : string) :
  precheck e pl = inr (ai, p, code) →
  removal_event pl p = true →
  let c := resolve w p code in
  gone_outcome e w p c (last_resort e w pl c) (manageOffer e w pl).
Proof.
  intros Hg Hr c. unfold manageOffer. rewrite Hg.
  unfold reconcile. fold c. unfold last_resort, is_edit.
  unfold removal_event in Hr. unfold kind in *.
  destruct (String.eqb (str_or (type pl) "") "POST_CREATED");
    cbn [negb andb orb] in *.
  { rewrite orb_false_r in Hr. rewrite Hr. apply created_gone_outcome. }
  destruct (String.eqb (str_or (type pl) "") "POST_EDITED");
    cbn [negb andb orb] in *.
  { rewrite orb_false_r in Hr. rewrite Hr. apply edited_gone_outcome. }
  rewrite Hr. apply deleted_outcome.
Qed.

Lemma manageOffer_active (e : env) (w : world) (pl : payload)
    (ai : appInit) (p : post) (code : string) :
  precheck e pl = inr (ai, p, code) →
  active_event pl p = true →
  let c := resolve w p code in
  let o := manageOffer e w pl in
  let row := persisted_row e pl p c in
  if outranked c
  then offers_after e w pl = offers w
       ∧ ∃ reason, response_of o = Ok200 "skipped" (Some reason) None
  else offers_after e w pl = insertOrUpdateOffer (offers w) row
       ∧ response_of o
         = Ok200 (if is_edit pl then "edited" else "created") None
             (Some (docIdToUse c))
       ∧ InsertOrUpdate row ∈ steps_of o.
Proof.
  intros Hg Ha c. unfold offers_after, manageOffer. rewrite Hg.
  unfold reconcile. fold c. unfold persisted_row, is_edit.
  unfold active_event in Ha. unfold kind in *.
  apply andb_true_iff in Ha as [Hk Hgone].
  apply negb_true_iff in Hgone. rewrite Hgone.
  destruct (String.eqb (str_or (type pl) "") "POST_CREATED");
    cbn [negb andb orb] in *.
  - pose proof (created_active_offers e ai w pl p c) as H. simpl in H.
    assert (Hex : outranked c = true → is_Some (existing c)).
    { unfold outranked, c, resolve. simpl.
      destruct (getOfferByCode (offers w) code); [eauto|done]. }
    destruct (outranked c).
    + rewrite bool_decide_eq_true_2 in H by auto. simpl in H.
      destruct H as [? ?]. eauto.
    + rewrite andb_false_r in H. destruct H as (? & ? & ?). eauto.
  - rewrite Hk.
    pose proof (edited_active_offers e ai w pl p c) as H. simpl in H.
    destruct (outranked c).
    + destruct H as [? ?]. eauto.
    + destruct H as (? & ? & ?). eauto.
Qed.

(** *** Rows of [offers] *)

Lemma pick_first_fold (b : offer_row) (l : list offer_row) :
  ∃ x, foldl pick_first (Some b) l = Some x ∧ (x = b ∨ x ∈ l).
Proof.
  revert b. induction l as [|r l IH]; intros b; simpl.
  - eauto.
  - destruct (sorts_before r b).
    + destruct (IH r) as (x & -> & [->|Hx]); eexists; split; eauto;
        right; by constructor.
    + destruct (IH b) as (x & -> & [->|Hx]); eexists; split; eauto;
        right; by constructor.
Qed.

Lemma getOfferByCode_Some (t : list offer_row) (c : string) (ex : offer_row) :
  getOfferByCode t c = Some ex → ex ∈ t ∧ has_code c ex = true.
Proof.
  unfold getOfferByCode.
  destruct (List.filter (has_code c) t) as [|b l] eqn:Hf; [done|]. simpl.
  destruct (pick_first_fold b l) as (x & -> & Hx). intros [= <-].
  apply elem_of_lfilter. rewrite Hf.
  destruct Hx as [->|Hx]; [by left|by right].
Qed.

Lemma getOfferByCode_None (t : list offer_row) (c : string) :
  getOfferByCode t c = None ↔ List.filter (has_code c) t = [].
Proof.
  unfold getOfferByCode.
  destruct (List.filter (has_code c) t) as [|b l]; [done|]. simpl.
  destruct (pick_first_fold b l) as (x & -> & _). done.
Qed.

Lemma mark_row_id (id : string) (ts : Z) (r : offer_row) :
  offer_id (mark_row id ts r) = offer_id r.
Proof. unfold mark_row. by destruct (has_id id r). Qed.

Lemma mark_row_flags (id : string) (ts : Z) (r : offer_row) :
  offer_id r = id →
  col (mark_row id ts r) "is_deleted" = Some (SBool true)
  ∧ col (mark_row id ts r) "is_expired" = Some (SBool true)
  ∧ col (mark_row id ts r) "timestamp_expired" = Some (SInt ts).
Proof.
  intros Hid. unfold mark_row, has_id. rewrite bool_decide_eq_true_2 by done.
  unfold col. simpl. by rewrite !lookup_insert.
Qed.

Lemma markOfferDeleted_elem (now : Z) (t : list offer_row) (id : string)
    (ts : option Z) (r' : offer_row) :
  r' ∈ markOfferDeleted now t id ts ↔
  ∃ r, r' = mark_row id (default now ts) r ∧ r ∈ t.
Proof. apply elem_of_lmap. Qed.

Lemma markOfferDeleted_length (now : Z) (t : list offer_row) (id : string)
    (ts : option Z) :
  length (markOfferDeleted now t id ts) = length t.
Proof. apply length_fmap. Qed.

Lemma markOfferDeleted_ids (now : Z) (t : list offer_row) (id : string)
    (ts : option Z) :
  offer_id <$> markOfferDeleted now t id ts = offer_id <$> t.
Proof.
  unfold markOfferDeleted. induction t as [|r t IH]; [done|].
  cbn. f_equal; [apply mark_row_id|apply IH].
Qed.

(** A soft deletion keeps every row and flags the rows of the offer. *)
Lemma markOfferDeleted_soft (now : Z) (t : list offer_row) (id : string)
    (ts : option Z) :
  offer_id <$> markOfferDeleted now t id ts = offer_id <$> t
  ∧ ∀ r, r ∈ markOfferDeleted now t id ts → offer_id r = id →
         col r "is_deleted" = Some (SBool true)
         ∧ col r "is_expired" = Some (SBool true)
         ∧ col r "timestamp_expired" = Some (SInt (default now ts)).
Proof.
  split; [apply markOfferDeleted_ids|].
  intros r (r0 & -> & Hr0)%markOfferDeleted_elem Hr.
  rewrite mark_row_id in Hr. by apply mark_row_flags.
Qed.

Lemma hardDeleteOffer_elem (t : list offer_row) (id : string)
    (r : offer_row) :
  r ∈ hardDeleteOffer t id ↔ r ∈ t ∧ offer_id r ≠ id.
Proof.
  unfold hardDeleteOffer. rewrite elem_of_lfilter. unfold has_id.
  rewrite negb_true_iff, bool_decide_eq_false. done.
Qed.

Lemma resolve_existing (w : world) (p : post) (code : string)
    (ex : offer_row) :
  getOfferByCode (offers w) code = Some ex →
  let c := resolve w p code in
  docIdToUse c = offer_id ex
  ∧ existingPriority c
    = getChannelPriority (col_string_or_empty (col ex "channel_id"))
  ∧ newPriority c = getChannelPriority (str_or (post_channel_id p) "")
  ∧ existing c = Some ex.
Proof. intros Hex. unfold resolve. rewrite Hex. done. Qed.

Lemma length_pos_nonempty {A} (l : list A) :
  (0 <? length l)%nat = true ↔ l ≠ [].
Proof. destruct l; simpl; split; (done || lia). Qed.

(** ** Removal: soft or hard, and the expiry that is stored *)

Lemma removal_permitted (e : env) (w : world) (pl : payload)
    (ai : appInit) (p : post) (code : string) :
  precheck e pl = inr (ai, p, code) →
  removal_event pl p = true →
  newPriority (resolve w p code) ≤ existingPriority (resolve w p code) →
  let id := docIdToUse (resolve w p code) in
  offers_after e w pl =
    if (0 <? length (findFavoritersByOffer (favorites w) id None))%nat
    then markOfferDeleted (now e) (offers w) id (event_delete_ts p)
    else if hasOfferBeenNotified (now e) (notifications w) id || is_edit pl
         then markOfferDeleted (now e) (offers w) id
                (Some (deleteAtPlusDays (now e) 7))
         else hardDeleteOffer (offers w) id.
Proof.
  intros Hg Hr Hle id.
  destruct (manageOffer_removal e w pl ai p code Hg Hr) as [Hafter _].
  unfold offers_after. rewrite Hafter.
  unfold removed_offers, last_resort. fold id.
  destruct (Z.ltb_spec (existingPriority (resolve w p code))
              (newPriority (resolve w p code))); [lia|].
  destruct (0 <? _)%nat; [done|].
  by destruct (hasOfferBeenNotified _ _ _), (is_edit pl).
Qed.

(** C1, as the code has it: when the event says the offer is gone and the
    priority permits the overwrite, the offer the handler resolves (the
    stored row of the [code], else the [offer_id] of the event) is
    soft-deleted (every row kept, the rows of the offer flagged deleted
    and expired) if a user holds it as a product favorite, or a
    notification was sent for it in the last 7 days, or the event is an
    edit; it is hard-deleted (no row of the offer remains) otherwise, that
    is for a creation or a deletion of an offer nobody holds or was told
    about. *)
Theorem removal_soft_or_hard (e : env) (w : world) (pl : payload)
    (ai : appInit) (p : post) (code : string) :
  precheck e pl = inr (ai, p, code) →
  removal_event pl p = true →
  newPriority (resolve w p code) ≤ existingPriority (resolve w p code) →
  let id := docIdToUse (resolve w p code) in
  let favoriters := findFavoritersByOffer (favorites w) id None in
  let notified := hasOfferBeenNotified (now e) (notifications w) id in
  (favoriters ≠ [] ∨ notified = true ∨ is_edit pl = true →
     offer_id <$> offers_after e w pl = offer_id <$> offers w
     ∧ ∀ r, r ∈ offers_after e w pl → offer_id r = id →
            col r "is_deleted" = Some (SBool true)
            ∧ col r "is_expired" = Some (SBool true))
  ∧ (favoriters = [] → notified = false → is_edit pl = false →
     offers_after e w pl = hardDeleteOffer (offers w) id
     ∧ ∀ r, r ∈ offers_after e w pl → offer_id r ≠ id).
Proof.
  intros Hg Hr Hle id favoriters notified.
  rewrite (removal_permitted e w pl ai p code Hg Hr Hle).
  fold id favoriters notified.
  split.
  - intros Hsoft.
    assert (Hshape : ∃ ts,
      (if (0 <? length favoriters)%nat
       then markOfferDeleted (now e) (offers w) id (event_delete_ts p)
       else if notified || is_edit pl
            then markOfferDeleted (now e) (offers w) id
                   (Some (deleteAtPlusDays (now e) 7))
            else hardDeleteOffer (offers w) id)
      = markOfferDeleted (now e) (offers w) id ts).
    { destruct (0 <? length favoriters)%nat eqn:Hf; [eauto|].
      destruct (notified || is_edit pl) eqn:Hn; [eauto|].
      apply orb_false_iff in Hn as [Hn He].
      destruct Hsoft as [Hne|[?|?]]; [|congruence..].
      apply length_pos_nonempty in Hne. congruence. }
    destruct Hshape as [ts ->].
    destruct (markOfferDeleted_soft (now e) (offers w) id ts)
      as (Hkept & Hflags).
    split; [done|]. intros r Hr1 Hr2.
    by destruct (Hflags r Hr1 Hr2) as (? & ? & ?).
  - intros Hf Hn He. rewrite Hf, Hn, He. simpl. split; [done|].
    intros r Hr1. by apply hardDeleteOffer_elem in Hr1 as [_ ?].
Qed.

(** C1 as stated fails: an edit that reports the offer deleted, for an offer
    nobody holds and nobody was told about, leaves the row in the table. *)
Lemma edit_of_unheld_offer_keeps_row :
  ¬ (∀ (e : env) (w : world) (pl : payload) (ai : appInit) (p : post)
       (code : string) (ex : offer_row),
       precheck e pl = inr (ai, p, code) →
       removal_event pl p = true →
       getOfferByCode (offers w) code = Some ex →
       getChannelPriority (str_or (post_channel_id p) "")
         ≤ getChannelPriority (col_string_or_empty (col ex "channel_id")) →
       findFavoritersByOffer (favorites w) (offer_id ex) None = [] →
       hasOfferBeenNotified (now e) (notifications w) (offer_id ex) = false →
       ∀ r, r ∈ offers_after e w pl → offer_id r ≠ offer_id ex).
Proof.
  intros Hclaim.
  apply (Hclaim open_env quiet_world (event "POST_EDITED" headphones_gone)
           all_on headphones_gone "C1" stored_row)
    with (r := mark_row "o1" 604805000 stored_row);
    try (by vm_compute).
  replace (offers_after open_env quiet_world
             (event "POST_EDITED" headphones_gone))
    with [mark_row "o1" 604805000 stored_row] by (by vm_compute).
  by left.
Qed.

(** C4, as the code has it: when the offer the handler resolves is
    soft-deleted because a user holds it as a product favorite, the stored [timestamp_expired] is the
    timestamp of the event's [post] when it is present and not zero, and
    the time of processing otherwise; when it is soft-deleted with no such
    user (a notification was sent in the last 7 days, or the event is an
    edit), it is the time of processing plus 7 days, whatever timestamp
    the event carries. *)
Theorem soft_delete_expiry (e : env) (w : world) (pl : payload)
    (ai : appInit) (p : post) (code : string) :
  precheck e pl = inr (ai, p, code) →
  removal_event pl p = true →
  newPriority (resolve w p code) ≤ existingPriority (resolve w p code) →
  let id := docIdToUse (resolve w p code) in
  let favoriters := findFavoritersByOffer (favorites w) id None in
  let notified := hasOfferBeenNotified (now e) (notifications w) id in
  (favoriters ≠ [] →
     ∀ r, r ∈ offers_after e w pl → offer_id r = id →
          col r "timestamp_expired"
          = Some (SInt match post_timestamp p with
                       | Val t => if t =? 0 then now e else t
                       | _ => now e
                       end))
  ∧ (favoriters = [] → notified = true ∨ is_edit pl = true →
     ∀ r, r ∈ offers_after e w pl → offer_id r = id →
          col r "timestamp_expired"
          = Some (SInt (now e + 7 * 24 * 60 * 60 * 1000))).
Proof.
  intros Hg Hr Hle id favoriters notified.
  rewrite (removal_permitted e w pl ai p code Hg Hr Hle).
  fold id favoriters notified.
  split.
  - intros Hne%length_pos_nonempty. rewrite Hne. intros r Hr1 Hr2.
    destruct (markOfferDeleted_soft (now e) (offers w) id (event_delete_ts p))
      as (_ & Hflags).
    destruct (Hflags r Hr1 Hr2) as (_ & _ & ->).
    unfold event_delete_ts, truthy_num, nowMs.
    destruct (post_timestamp p) as [| |t]; [done..|].
    by destruct (t =? 0).
  - intros Hf Hsoft. rewrite Hf. simpl.
    assert (Hor : notified || is_edit pl = true).
    { apply orb_true_iff. tauto. }
    rewrite Hor. intros r Hr1 Hr2.
    destruct (markOfferDeleted_soft (now e) (offers w) id
                (Some (deleteAtPlusDays (now e) 7)))
      as (_ & Hflags).
    by destruct (Hflags r Hr1 Hr2) as (_ & _ & ->).
Qed.

(** C4 as stated fails: a deletion that carries no timestamp, of an offer a
    user holds as a product favorite, stores the time of processing, not
    the time of processing plus 7 days. *)
Lemma favorited_offer_expires_now :
  ¬ (∀ (e : env) (w : world) (pl : payload) (ai : appInit) (p : post)
       (code : string) (ex : offer_row),
       precheck e pl = inr (ai, p, code) →
       removal_event pl p = true →
       getOfferByCode (offers w) code = Some ex →
       getChannelPriority (str_or (post_channel_id p) "")
         ≤ getChannelPriority (col_string_or_empty (col ex "channel_id")) →
       ∀ r, r ∈ offers_after e w pl → offer_id r = offer_id ex →
            col r "is_deleted" = Some (SBool true) →
            col r "timestamp_expired"
            = Some (SInt match post_timestamp p, timestamp pl with
                         | Val t, _ => t
                         | _, Val t => t
                         | _, _ => now e + 7 * 24 * 60 * 60 * 1000
                         end)).
Proof.
  intros Hclaim.
  assert (Hts : col (mark_row "o1" 5000 stored_row) "timestamp_expired"
                = Some (SInt 604805000)); [|by vm_compute in Hts].
  apply (Hclaim open_env favorited_world (event "POST_DELETED" headphones)
           all_on headphones "C1" stored_row);
    try (by vm_compute).
  replace (offers_after open_env favorited_world
             (event "POST_DELETED" headphones))
    with [mark_row "o1" 5000 stored_row] by (by vm_compute).
  by left.
Qed.

(** ** Arbitration between channels *)

Lemma getChannelPriority_range (id : string) :
  1 ≤ getChannelPriority id ≤ 3
  ∧ (id ≠ "-1001305107383" → id ≠ "-1001207516682" →
     getChannelPriority id = 3).
Proof.
  unfold getChannelPriority.
  destruct (String.eqb_spec id "-1001305107383"); [split; [lia|done]|].
  destruct (String.eqb_spec id "-1001207516682"); [split; [lia|done]|].
  split; [lia|done].
Qed.

Lemma insertOrUpdateOffer_existing (t : list offer_row) (row ex : offer_row) :
  ex ∈ t → offer_id ex = offer_id row →
  insertOrUpdateOffer t row = List.map (update_row row) t.
Proof.
  intros Hin Hid. unfold insertOrUpdateOffer.
  assert (He : existsb (has_id (offer_id row)) t = true).
  { apply existsb_exists. exists ex. split; [by apply list_elem_of_In|].
    unfold has_id. by apply bool_decide_eq_true. }
  by rewrite He.
Qed.

Lemma insertOrUpdateOffer_fresh (t : list offer_row) (row : offer_row) :
  (∀ r, r ∈ t → offer_id r ≠ offer_id row) →
  insertOrUpdateOffer t row = t ++ [row].
Proof.
  intros Hfresh. unfold insertOrUpdateOffer.
  assert (He : existsb (has_id (offer_id row)) t = false).
  { apply not_true_is_false. intros (r & Hr & Hid)%existsb_exists.
    apply list_elem_of_In in Hr. apply bool_decide_eq_true in Hid.
    by apply (Hfresh r). }
  by rewrite He.
Qed.

Lemma resolve_active (w : world) (p : post) (code : string) (ex : offer_row) :
  getOfferByCode (offers w) code = Some ex →
  existingDocIsActive (resolve w p code)
  = negb (row_flag ex "is_expired") && negb (row_flag ex "is_deleted").
Proof. intros Hex. unfold resolve. by rewrite Hex. Qed.

(** C2: an event that reports the offer available, for a code that has a
    stored row, is skipped and leaves [offers] as it is when the stored row
    is active and the rank of the channel of the event is strictly larger
    than the rank of the channel of the stored row; when its rank is smaller
    or equal it is persisted, as an update in place of the row with the
    stored [offer_id].  A channel id other than the two named ones has
    rank 3, the largest. *)
Theorem lower_priority_never_overwrites (e : env) (w : world) (pl : payload)
    (ai : appInit) (p : post) (code : string) (ex : offer_row) :
  precheck e pl = inr (ai, p, code) →
  active_event pl p = true →
  getOfferByCode (offers w) code = Some ex →
  let incoming := getChannelPriority (str_or (post_channel_id p) "") in
  let stored :=
    getChannelPriority (col_string_or_empty (col ex "channel_id")) in
  (row_flag ex "is_expired" = false → row_flag ex "is_deleted" = false →
   stored < incoming →
     offers_after e w pl = offers w
     ∧ ∃ reason,
         response_of (manageOffer e w pl) = Ok200 "skipped" (Some reason) None)
  ∧ (incoming ≤ stored →
     ∃ row,
       offer_id row = offer_id ex
       ∧ InsertOrUpdate row ∈ steps_of (manageOffer e w pl)
       ∧ offers_after e w pl = List.map (update_row row) (offers w)
       ∧ update_row row ex ∈ offers_after e w pl
       ∧ cols (update_row row ex) = cols row ∪ cols ex)
  ∧ (∀ id : string,
       1 ≤ getChannelPriority id ≤ 3
       ∧ (id ≠ "-1001305107383" → id ≠ "-1001207516682" →
          getChannelPriority id = 3)).
Proof.
  intros Hg Ha Hex incoming stored.
  pose proof (manageOffer_active e w pl ai p code Hg Ha) as H.
  cbv zeta in H. unfold outranked in H.
  destruct (resolve_existing w p code ex Hex) as (Hid & Hep & Hnp & _).
  rewrite (resolve_active w p code ex Hex), Hep, Hnp in H.
  fold incoming stored in H.
  destruct (getOfferByCode_Some _ _ _ Hex) as [Hin _].
  split; [|split; [|apply getChannelPriority_range]].
  - intros Hexp Hdel Hlt. apply Z.ltb_lt in Hlt.
    rewrite Hexp, Hdel, Hlt in H. by destruct H.
  - intros Hle. apply Z.ltb_ge in Hle.
    rewrite Hle, andb_false_r in H.
    destruct H as (Hafter & _ & Hstep).
    set (row := persisted_row e pl p (resolve w p code)) in *.
    assert (Hrow : offer_id row = offer_id ex) by (by rewrite <- Hid).
    exists row. split; [done|]. split; [done|].
    rewrite Hafter, (insertOrUpdateOffer_existing _ row ex) by done.
    split; [done|]. split.
    + apply elem_of_lmap. eauto.
    + unfold update_row, has_id.
      by rewrite bool_decide_eq_true_2.
Qed.

(** ** What the checks before the reconciliation establish *)

Lemma precheck_passed (e : env) (pl : payload) (ai : appInit) (p : post)
    (code : string) :
  precheck e pl = inr (ai, p, code) →
  post_code p = Val code
  ∧ truthy_str code = true
  ∧ truthy_str (str_or (post_offer_id p) "") = true
  ∧ ∃ p0, body_post pl = Val p0 ∧ p = override_title p0.
Proof.
  unfold precheck.
  destruct (negb (accept_incoming_requests _)); [done|].
  destruct (body_post pl) as [| |p0]; [done..|].
  destruct (negb (truthy_str (str_or (type pl) ""))
            || negb (truthy_str (str_or (post_offer_id p0) ""))) eqn:Hid;
    [done|].
  destruct (_ || _ || _); [done|].
  destruct (truthy_str (str_or (post_code (override_title p0)) "")) eqn:Hc;
    [|done].
  simpl. intros [= <- <- <-].
  apply orb_false_iff in Hid as [_ Hid]. apply negb_false_iff in Hid.
  split.
  - unfold str_or in Hc |- *.
    destruct (post_code (override_title p0)) as [| |s]; try done.
    by destruct (truthy_str s).
  - split; [done|]. split; [|eauto].
    unfold override_title. by repeat case_match.
Qed.

Lemma persisted_row_code (e : env) (pl : payload) (p : post) (c : context)
    (code : string) :
  post_code p = Val code →
  col (persisted_row e pl p c) "code" = Some (SText code)
  ∧ offer_id (persisted_row e pl p c) = docIdToUse c.
Proof.
  intros Hcode. split; [|done].
  assert (Hkeep : post_code (if is_edit pl then edited_post e pl p c
                             else created_post e pl p c) = Val code).
  { unfold edited_post, created_post, restore, stamp, keep_category,
      assignCategoryWithGroq, resolve_timestamp.
    by repeat case_match. }
  unfold persisted_row, build_row, buildRowFromPost, col. simpl.
  rewrite Hkeep. simpl. by rewrite lookup_insert_eq.
Qed.

(** ** Events whose code matches no stored row *)

Lemma resolve_absent (w : world) (p : post) (code : string) :
  getOfferByCode (offers w) code = None →
  let c := resolve w p code in
  docIdToUse c = str_or (post_offer_id p) ""
  ∧ existingPriority c = 3
  ∧ existingDocIsActive c = false
  ∧ existing c = None.
Proof. intros Hex. unfold resolve. by rewrite Hex. Qed.

Lemma markOfferDeleted_absent (now : Z) (t : list offer_row) (id : string)
    (ts : option Z) :
  (∀ r, r ∈ t → offer_id r ≠ id) → markOfferDeleted now t id ts = t.
Proof.
  unfold markOfferDeleted. induction t as [|r t IH]; intros Hfresh; [done|].
  simpl. f_equal.
  - unfold mark_row, has_id. rewrite bool_decide_eq_false_2; [done|].
    apply Hfresh. by left.
  - apply IH. intros r' Hr'. apply Hfresh. by right.
Qed.

Lemma hardDeleteOffer_absent (t : list offer_row) (id : string) :
  (∀ r, r ∈ t → offer_id r ≠ id) → hardDeleteOffer t id = t.
Proof.
  unfold hardDeleteOffer. induction t as [|r t IH]; intros Hfresh; [done|].
  simpl. unfold has_id at 1. rewrite bool_decide_eq_false_2.
  - simpl. f_equal. apply IH. intros r' Hr'. apply Hfresh. by right.
  - apply Hfresh. by left.
Qed.

Lemma insertOrUpdateOffer_has_row (t : list offer_row) (row : offer_row) :
  ∃ r, r ∈ insertOrUpdateOffer t row ∧ offer_id r = offer_id row.
Proof.
  unfold insertOrUpdateOffer.
  destruct (existsb (has_id (offer_id row)) t) eqn:He.
  - apply existsb_exists in He as (r & Hr & Hid).
    apply list_elem_of_In in Hr. apply bool_decide_eq_true in Hid.
    exists (update_row row r). split.
    + apply elem_of_lmap. eauto.
    + unfold update_row. by destruct (has_id (offer_id row) r).
  - exists row. split; [|done]. apply elem_of_app. right. by left.
Qed.

(** C3, as the code has it: for an edit or a deletion whose [code] has no
    stored row the handler works on the [offer_id] of the event itself.
    An edit that reports the offer available is persisted: a row with that
    [offer_id] is appended when no row carries it, and updated otherwise.
    A removal (an edit that reports the offer gone, or a deletion) is
    never outranked and touches only rows that carry that [offer_id]:
    [offers] is unchanged when no row carries it. *)
Theorem unmatched_edit_or_delete (e : env) (w : world) (pl : payload)
    (ai : appInit) (p : post) (code : string) :
  precheck e pl = inr (ai, p, code) →
  getOfferByCode (offers w) code = None →
  String.eqb (kind pl) "POST_CREATED" = false →
  let id := str_or (post_offer_id p) "" in
  (active_event pl p = true →
     ∃ row,
       offer_id row = id
       ∧ col row "code" = Some (SText code)
       ∧ offers_after e w pl = insertOrUpdateOffer (offers w) row
       ∧ (∃ r, r ∈ offers_after e w pl ∧ offer_id r = id)
       ∧ ((∀ r, r ∈ offers w → offer_id r ≠ id) →
          offers_after e w pl = offers w ++ [row]))
  ∧ (removal_event pl p = true →
     (∀ r, r ∈ offers w → offer_id r ≠ id) →
     offers_after e w pl = offers w).
Proof.
  intros Hg Hex Hkind id.
  destruct (resolve_absent w p code Hex) as (Hid & Hep & Hact & _).
  split.
  - intros Ha.
    pose proof (manageOffer_active e w pl ai p code Hg Ha) as H.
    simpl in H. unfold outranked in H. rewrite Hact in H. simpl in H.
    destruct H as (Hafter & _ & _).
    set (row := persisted_row e pl p (resolve w p code)) in *.
    assert (Hrow : offer_id row = id) by done.
    exists row. split; [done|]. split.
    { by apply persisted_row_code, (precheck_passed e pl ai p code). }
    split; [done|]. rewrite Hafter. split.
    + rewrite <- Hrow. apply insertOrUpdateOffer_has_row.
    + intros Hfresh. apply insertOrUpdateOffer_fresh. by rewrite Hrow.
  - intros Hr Hfresh.
    destruct (manageOffer_removal e w pl ai p code Hg Hr) as [Hafter _].
  unfold offers_after. rewrite Hafter.
    unfold removed_offers, last_resort. rewrite Hid, Hep. fold id.
    pose proof (getChannelPriority_range (channelId (resolve w p code)))
      as [Hrange _].
    change (newPriority (resolve w p code))
      with (getChannelPriority (channelId (resolve w p code))).
    destruct (Z.ltb_spec 3 (getChannelPriority
                              (channelId (resolve w p code)))); [lia|].
    rewrite !markOfferDeleted_absent, hardDeleteOffer_absent by done.
    by repeat case_match.
Qed.

(** C3 as stated fails: an edit whose code has no stored row creates the
    row. *)
Lemma unmatched_edit_creates_row :
  ¬ (∀ (e : env) (w : world) (pl : payload) (ai : appInit) (p : post)
       (code : string),
       precheck e pl = inr (ai, p, code) →
       getOfferByCode (offers w) code = None →
       kind pl = "POST_EDITED" ∨ kind pl = "POST_DELETED" →
       offers_after e w pl = offers w).
Proof.
  intros Hclaim.
  assert (Hsame : offers_after open_env empty_world
                    (event "POST_EDITED" headphones) = []).
  { apply (Hclaim open_env empty_world (event "POST_EDITED" headphones)
             all_on headphones "C1"); try (by vm_compute). by left. }
  by vm_compute in Hsame.
Qed.

(** ** Retraction comes before arbitration *)

Lemma set_withdrawn_notification (ids : list Z) (un : receipt_row) :
  un_notification_id (set_withdrawn ids un) = un_notification_id un.
Proof. unfold set_withdrawn. by repeat case_match. Qed.

Lemma select_receipts_covers (w : world) (sel : notification_row -> bool)
    (n : notification_row) (un : receipt_row) :
  n ∈ notifications w → sel n = true →
  un ∈ users_notifications w →
  un_notification_id un = Some (n_id n) →
  not_withdrawn un = true →
  n_id n ∈ List.map wr_notification_id (select_receipts w sel).
Proof.
  intros Hn Hsel Hun Hid Hnw. unfold select_receipts.
  assert (Hrow : ∃ r, r ∈ join_user (users w) n un
                      ∧ wr_notification_id r = n_id n).
  { unfold join_user.
    destruct (List.filter _ (users w)) as [|u us]; simpl.
    - eexists. split; [by left|done].
    - eexists. split; [by left|done]. }
  destruct Hrow as (r & Hr & <-).
  apply elem_of_lmap. exists r. split; [done|].
  apply list_elem_of_bind. exists n. split; [|by apply elem_of_lfilter].
  apply list_elem_of_bind. exists un. split; [done|].
  apply elem_of_lfilter. split; [done|].
  by rewrite Hid, bool_decide_eq_true_2, Hnw.
Qed.

(** After the withdrawal every receipt of a notification the selection
    covers is withdrawn. *)
Lemma withdraw_where_effect (w : world) (sel : notification_row -> bool)
    (n : notification_row) (un : receipt_row) :
  n ∈ notifications w → sel n = true →
  un ∈ users_notifications (withdraw_where true w sel).2 →
  un_notification_id un = Some (n_id n) →
  un_withdrawn un = Some true.
Proof.
  intros Hn Hsel Hun Hid. unfold withdraw_where in Hun. simpl in Hun.
  assert (Hcover : ∀ un0, un0 ∈ users_notifications w →
                     un_notification_id un0 = Some (n_id n) →
                     not_withdrawn un0 = true →
                     n_id n ∈ set_to_array
                                (List.map wr_notification_id
                                   (select_receipts w sel))).
  { intros un0 H0 H1 H2. apply set_to_array_elem.
    by eapply select_receipts_covers. }
  assert (Hdone : ∀ un0, not_withdrawn un0 = false →
                    un_withdrawn un0 = Some true).
  { intros un0. unfold not_withdrawn.
    by destruct (un_withdrawn un0) as [[]|]. }
  destruct (set_to_array _) as [|z ids] eqn:Hids; simpl in Hun.
  - destruct (not_withdrawn un) eqn:Hnw; [|by apply Hdone].
    specialize (Hcover un Hun Hid Hnw). by apply elem_of_nil in Hcover.
  - apply elem_of_lmap in Hun as (un0 & -> & Hun0).
    rewrite set_withdrawn_notification in Hid.
    unfold set_withdrawn. rewrite Hid.
    destruct (not_withdrawn un0) eqn:Hnw.
    + by rewrite bool_decide_eq_true_2 by by apply (Hcover un0).
    + apply Hdone in Hnw. by case_match.
Qed.

Lemma withdrawNotificationsSafe_attempt (e : env) (w : world) (id : string) :
  truthy_str id = true →
  withdrawNotificationsSafe e w id
  = ((withdraw_where (withdraw_query_ok e) w
        (fun n => bool_decide (n_offer_id n = Some id))).2,
     [Withdraw id]).
Proof.
  intros Hid. unfold withdrawNotificationsSafe. rewrite Hid. simpl.
  unfold withdrawOfferNotifications, withdrawNotificationsForOffer.
  by destruct (withdraw_where _ _ _) as [[res|] w'].
Qed.

Lemma docIdToUse_truthy (e : env) (w : world) (pl : payload) (ai : appInit)
    (p : post) (code : string) :
  precheck e pl = inr (ai, p, code) →
  (∀ r, r ∈ offers w → offer_id r ≠ "") →
  truthy_str (docIdToUse (resolve w p code)) = true.
Proof.
  intros Hg Hwf. unfold resolve. simpl.
  destruct (getOfferByCode (offers w) code) as [ex|] eqn:Hex.
  - apply getOfferByCode_Some in Hex as [Hin _].
    specialize (Hwf ex Hin). by destruct (offer_id ex).
  - by destruct (precheck_passed e pl ai p code Hg) as (_ & _ & ? & _).
Qed.

(** C6: for an event that says the offer is gone and that has passed the
    checks of the request, with no stored row of empty [offer_id], the
    first step is the retraction for the resolved offer and the second is
    the comparison of the two ranks.  So the retraction is made also when
    the channel is outranked: the handler then does nothing else, answers
    [delete_ignored] (creation, edit) or [skipped] (deletion) and leaves
    [offers] as it is.  When its query succeeds, every receipt of a
    notification of the offer is withdrawn afterwards. *)
Theorem retraction_precedes_arbitration (e : env) (w : world) (pl : payload)
    (ai : appInit) (p : post) (code : string) :
  precheck e pl = inr (ai, p, code) →
  removal_event pl p = true →
  (∀ r, r ∈ offers w → offer_id r ≠ "") →
  let c := resolve w p code in
  let id := docIdToUse c in
  let o := manageOffer e w pl in
  (∃ rest,
     steps_of o
     = Withdraw id :: Arbitrate (newPriority c) (existingPriority c) :: rest
     ∧ (existingPriority c < newPriority c → rest = []))
  ∧ (existingPriority c < newPriority c →
     outranked_response (response_of o) ∧ offers_after e w pl = offers w)
  ∧ (withdraw_query_ok e = true →
     ∀ n un,
       n ∈ notifications w → n_offer_id n = Some id →
       un ∈ users_notifications (world_of o) →
       un_notification_id un = Some (n_id n) →
       un_withdrawn un = Some true).
Proof.
  intros Hg Hr Hwf c id o.
  destruct (manageOffer_removal e w pl ai p code Hg Hr)
    as (Hoffers & Hreceipts & (rest & Hsteps & Hrest) & Hresp).
  fold c o in Hoffers, Hreceipts, Hsteps, Hrest, Hresp. fold id in Hreceipts.
  pose proof (docIdToUse_truthy e w pl ai p code Hg Hwf) as Hid.
  fold c id in Hid.
  rewrite (withdrawNotificationsSafe_attempt e w id Hid) in Hreceipts.
  fold id in Hsteps.
  rewrite (withdrawNotificationsSafe_attempt e w id Hid) in Hsteps.
  simpl in Hreceipts, Hsteps.
  split; [|split].
  - exists rest. split; [done|]. intros Hlt. by apply Hrest, Z.ltb_lt.
  - intros Hlt%Z.ltb_lt. split; [by apply Hresp|].
    unfold offers_after. fold o. rewrite Hoffers.
    unfold removed_offers. fold c. by rewrite Hlt.
  - intros Hok n un Hn Hoffer Hun Hnid.
    rewrite Hreceipts, Hok in Hun.
    eapply withdraw_where_effect; [exact Hn| |exact Hun|exact Hnid].
    by apply bool_decide_eq_true.
Qed.

(** ** One row per code *)

Lemma rows_of_code_le_1 (c : string) (t : list offer_row) :
  keyed t → one_offer_per_code t → (rows_of_code c t ≤ 1)%nat.
Proof.
  intros Hk Ho. unfold rows_of_code.
  destruct (List.filter (has_code c) t) as [|r1 [|r2 l]] eqn:Hf;
    simpl; [lia..|exfalso].
  assert (H1 : r1 ∈ List.filter (has_code c) t) by (rewrite Hf; by left).
  assert (H2 : r2 ∈ List.filter (has_code c) t)
    by (rewrite Hf; by right; left).
  apply elem_of_lfilter in H1 as [H1 Hc1].
  apply elem_of_lfilter in H2 as [H2 Hc2].
  pose proof (Ho c r1 r2 H1 H2 Hc1 Hc2) as Hid.
  assert (Hsub : List.filter (has_code c) t `sublist_of` t).
  { clear. induction t as [|r t IH]; simpl; [done|].
    destruct (has_code c r); [by apply sublist_skip|by apply sublist_cons]. }
  rewrite Hf in Hsub.
  assert (Hnd : NoDup (offer_id <$> r1 :: r2 :: l)).
  { eapply sublist_NoDup; [exact Hk|]. by apply fmap_sublist. }
  rewrite !fmap_cons in Hnd. apply NoDup_cons in Hnd as [Hnin _].
  apply Hnin. rewrite Hid. by left.
Qed.

Lemma update_row_id (row r : offer_row) :
  offer_id (update_row row r) = offer_id r.
Proof. unfold update_row. by destruct (has_id (offer_id row) r). Qed.

Lemma update_rows_ids (row : offer_row) (t : list offer_row) :
  offer_id <$> List.map (update_row row) t = offer_id <$> t.
Proof.
  induction t as [|r t IH]; [done|].
  cbn. f_equal; [apply update_row_id|apply IH].
Qed.

Lemma insertOrUpdateOffer_keyed (t : list offer_row) (row : offer_row) :
  keyed t → keyed (insertOrUpdateOffer t row).
Proof.
  unfold keyed, insertOrUpdateOffer. intros Hk.
  destruct (existsb (has_id (offer_id row)) t) eqn:He.
  - by rewrite update_rows_ids.
  - rewrite fmap_app. apply NoDup_app. split; [done|]. split.
    + intros id (r & -> & Hr)%list_elem_of_fmap Hrow.
      apply list_elem_of_singleton in Hrow.
      apply not_true_iff_false in He. apply He, existsb_exists.
      exists r. split; [by apply list_elem_of_In|].
      by apply bool_decide_eq_true.
    + apply NoDup_singleton.
Qed.

Lemma markOfferDeleted_keyed (now : Z) (t : list offer_row) (id : string)
    (ts : option Z) :
  keyed t → keyed (markOfferDeleted now t id ts).
Proof. unfold keyed. by rewrite markOfferDeleted_ids. Qed.

Lemma hardDeleteOffer_sublist (t : list offer_row) (id : string) :
  hardDeleteOffer t id `sublist_of` t.
Proof.
  unfold hardDeleteOffer. induction t as [|r t IH]; simpl; [done|].
  destruct (negb (has_id id r)); [by apply sublist_skip|by apply sublist_cons].
Qed.

Lemma hardDeleteOffer_keyed (t : list offer_row) (id : string) :
  keyed t → keyed (hardDeleteOffer t id).
Proof.
  unfold keyed. intros Hk. eapply sublist_NoDup; [exact Hk|].
  apply fmap_sublist, hardDeleteOffer_sublist.
Qed.

Lemma mark_row_code (c id : string) (ts : Z) (r : offer_row) :
  has_code c (mark_row id ts r) = has_code c r.
Proof.
  unfold mark_row. destruct (has_id id r); [|done].
  unfold has_code, col. simpl.
  by rewrite !lookup_insert_ne.
Qed.

Lemma markOfferDeleted_one_offer (now : Z) (t : list offer_row) (id : string)
    (ts : option Z) :
  one_offer_per_code t → one_offer_per_code (markOfferDeleted now t id ts).
Proof.
  intros Ho c r1 r2 (q1 & -> & H1)%markOfferDeleted_elem
    (q2 & -> & H2)%markOfferDeleted_elem.
  rewrite !mark_row_code, !mark_row_id. by apply Ho.
Qed.

Lemma hardDeleteOffer_one_offer (t : list offer_row) (id : string) :
  one_offer_per_code t → one_offer_per_code (hardDeleteOffer t id).
Proof.
  intros Ho c r1 r2 [H1 _]%hardDeleteOffer_elem [H2 _]%hardDeleteOffer_elem.
  by apply Ho.
Qed.

Lemma update_row_code (c code : string) (row r : offer_row) :
  col row "code" = Some (SText code) →
  offer_id r = offer_id row →
  has_code c (update_row row r) = bool_decide (c = code).
Proof.
  intros Hcode Hid. unfold update_row, has_id.
  rewrite bool_decide_eq_true_2 by done.
  unfold has_code, col in *. simpl.
  rewrite (lookup_union_Some_l _ _ _ _ Hcode).
  apply bool_decide_ext. split; [by intros [= ->]|by intros ->].
Qed.

Lemma has_code_row (c code : string) (row : offer_row) :
  col row "code" = Some (SText code) →
  has_code c row = bool_decide (c = code).
Proof.
  intros Hcode. unfold has_code. rewrite Hcode.
  apply bool_decide_ext. split; [by intros [= ->]|by intros ->].
Qed.

(** A row of the table after [insertOrUpdateOffer] carries the id and the
    code of the written row, or is a row of the table before with
    another id. *)
Lemma insertOrUpdateOffer_rows (t : list offer_row) (row : offer_row)
    (code : string) (r' : offer_row) :
  col row "code" = Some (SText code) →
  r' ∈ insertOrUpdateOffer t row →
  (offer_id r' = offer_id row ∧ ∀ c, has_code c r' = bool_decide (c = code))
  ∨ (r' ∈ t ∧ offer_id r' ≠ offer_id row).
Proof.
  intros Hcode. unfold insertOrUpdateOffer.
  destruct (existsb (has_id (offer_id row)) t) eqn:He.
  - intros (r & -> & Hr)%elem_of_lmap.
    destruct (decide (offer_id r = offer_id row)) as [Hid|Hid].
    + left. rewrite update_row_id. split; [done|].
      intros c. by apply update_row_code.
    + right. unfold update_row, has_id.
      by rewrite bool_decide_eq_false_2.
  - intros [Hr|Hr]%elem_of_app.
    + right. split; [done|]. intros Hid.
      apply not_true_iff_false in He. apply He, existsb_exists.
      exists r'. split; [by apply list_elem_of_In|].
      by apply bool_decide_eq_true.
    + apply list_elem_of_singleton in Hr as ->. left. split; [done|].
      intros c. by apply has_code_row.
Qed.

Lemma insertOrUpdateOffer_one_offer (t : list offer_row) (row : offer_row)
    (code : string) :
  one_offer_per_code t →
  col row "code" = Some (SText code) →
  (∃ ex, ex ∈ t ∧ has_code code ex = true ∧ offer_id ex = offer_id row)
  ∨ (∀ r, r ∈ t → has_code code r = false) →
  one_offer_per_code (insertOrUpdateOffer t row).
Proof.
  intros Ho Hcode Hwhere c r1 r2 H1 H2 Hc1 Hc2.
  assert (Hclash : ∀ r, r ∈ t → offer_id r ≠ offer_id row →
                        has_code code r = true → False).
  { intros r Hr Hid Hc. destruct Hwhere as [(ex & Hex & Hcex & Hidex)|Hnone].
    - apply Hid. rewrite <- Hidex. by apply (Ho code).
    - by rewrite (Hnone r Hr) in Hc. }
  pose proof (insertOrUpdateOffer_rows t row code r1 Hcode H1)
    as [[Hid1 Hk1]|[Hin1 Hid1]];
    pose proof (insertOrUpdateOffer_rows t row code r2 Hcode H2)
      as [[Hid2 Hk2]|[Hin2 Hid2]].
  - congruence.
  - rewrite Hk1 in Hc1. apply bool_decide_eq_true in Hc1 as ->.
    by destruct (Hclash r2 Hin2 Hid2 Hc2).
  - rewrite Hk2 in Hc2. apply bool_decide_eq_true in Hc2 as ->.
    by destruct (Hclash r1 Hin1 Hid1 Hc1).
  - by apply (Ho c).
Qed.

Lemma manageOffer_offers (e : env) (w : world) (pl : payload)
    (ai : appInit) (p : post) (code : string) :
  precheck e pl = inr (ai, p, code) →
  let c := resolve w p code in
  offers_after e w pl =
    if active_event pl p
    then if outranked c then offers w
         else insertOrUpdateOffer (offers w) (persisted_row e pl p c)
    else if removal_event pl p
         then removed_offers e w p c (last_resort e w pl c)
         else offers w.
Proof.
  intros Hg c.
  destruct (active_event pl p) eqn:Ha.
  { pose proof (manageOffer_active e w pl ai p code Hg Ha) as H.
    simpl in H. fold c in H. destruct (outranked c); by destruct H. }
  destruct (removal_event pl p) eqn:Hr.
  { by destruct (manageOffer_removal e w pl ai p code Hg Hr) as [? _]. }
  unfold offers_after, manageOffer. rewrite Hg. unfold reconcile.
  unfold active_event, removal_event, kind in Ha, Hr.
  destruct (String.eqb (str_or (type pl) "") "POST_CREATED");
    cbn [negb andb orb] in *.
  { destruct (reports_gone p); simpl in *; done. }
  destruct (String.eqb (str_or (type pl) "") "POST_EDITED");
    cbn [negb andb orb] in *.
  { destruct (reports_gone p); simpl in *; done. }
  by rewrite Hr.
Qed.

(** The handler keeps [offer_id] a key and keeps one offer per code. *)
Lemma manageOffer_invariant (e : env) (w : world) (pl : payload) :
  keyed (offers w) → one_offer_per_code (offers w) →
  keyed (offers_after e w pl) ∧ one_offer_per_code (offers_after e w pl).
Proof.
  intros Hk Ho.
  destruct (precheck e pl) as [r|[[ai p] code]] eqn:Hg.
  { unfold offers_after. by rewrite (manageOffer_rejected e w pl r Hg). }
  rewrite (manageOffer_offers e w pl ai p code Hg).
  set (c := resolve w p code).
  destruct (active_event pl p).
  - destruct (outranked c); [done|].
    split; [by apply insertOrUpdateOffer_keyed|].
    destruct (precheck_passed e pl ai p code Hg) as (Hcode & _).
    destruct (persisted_row_code e pl p c code Hcode) as [Hrc Hrid].
    apply (insertOrUpdateOffer_one_offer _ _ code); [done..|].
    destruct (getOfferByCode (offers w) code) as [ex|] eqn:Hex.
    + left. exists ex.
      destruct (getOfferByCode_Some _ _ _ Hex) as [Hin Hc].
      destruct (resolve_existing w p code ex Hex) as (Hid & _).
      fold c in Hid. by rewrite Hrid, Hid.
    + right. intros r Hr. apply getOfferByCode_None in Hex.
      apply not_true_iff_false. intros Hc.
      assert (Hin : r ∈ List.filter (has_code code) (offers w))
        by by apply elem_of_lfilter.
      rewrite Hex in Hin. by apply elem_of_nil in Hin.
  - destruct (removal_event pl p); [|done].
    unfold removed_offers, last_resort.
    repeat case_match;
      try done;
      (split; [by apply markOfferDeleted_keyed || by apply hardDeleteOffer_keyed
              |by apply markOfferDeleted_one_offer
               || by apply hardDeleteOffer_one_offer]).
Qed.

(** The handler never stores a row of empty [offer_id]. *)
Lemma manageOffer_ids_nonempty (e : env) (w : world) (pl : payload) :
  (∀ r, r ∈ offers w → offer_id r ≠ "") →
  ∀ r, r ∈ offers_after e w pl → offer_id r ≠ "".
Proof.
  intros Hwf.
  destruct (precheck e pl) as [res|[[ai p] code]] eqn:Hg.
  { unfold offers_after. by rewrite (manageOffer_rejected e w pl res Hg). }
  rewrite (manageOffer_offers e w pl ai p code Hg).
  set (c := resolve w p code).
  pose proof (docIdToUse_truthy e w pl ai p code Hg Hwf) as Hid. fold c in Hid.
  destruct (active_event pl p).
  - destruct (outranked c); [done|].
    intros r Hr. unfold insertOrUpdateOffer in Hr. case_match.
    + apply elem_of_lmap in Hr as (r0 & -> & Hr0).
      rewrite update_row_id. auto.
    + apply elem_of_app in Hr as [Hr|Hr]; [auto|].
      apply list_elem_of_singleton in Hr as ->.
      intros Hempty. change (docIdToUse c = "") in Hempty.
      by rewrite Hempty in Hid.
  - destruct (removal_event pl p); [|done].
    unfold removed_offers, last_resort.
    intros r Hr.
    assert (Hsrc : ∃ r0, r0 ∈ offers w ∧ offer_id r = offer_id r0).
    { repeat case_match; try (by eauto);
        try (apply markOfferDeleted_elem in Hr as (r0 & -> & Hr0);
             exists r0; by rewrite mark_row_id);
        try (apply hardDeleteOffer_elem in Hr as [Hr _]; by eauto). }
    destruct Hsrc as (r0 & Hr0 & ->). auto.
Qed.

(** ** Replaying a creation *)

Lemma rows_of_code_pos (c : string) (t : list offer_row) (r : offer_row) :
  r ∈ t → has_code c r = true → (1 ≤ rows_of_code c t)%nat.
Proof.
  intros Hr Hc. unfold rows_of_code.
  assert (Hin : r ∈ List.filter (has_code c) t) by by apply elem_of_lfilter.
  destruct (List.filter (has_code c) t); [by apply elem_of_nil in Hin|].
  simpl. lia.
Qed.

Lemma precheck_same_event (e1 e2 : env) (pl : payload) (ai1 ai2 : appInit)
    (p1 p2 : post) (code1 code2 : string) :
  precheck e1 pl = inr (ai1, p1, code1) → precheck e2 pl = inr (ai2, p2, code2) →
  p2 = p1 ∧ code2 = code1.
Proof.
  intros (Hc1 & _ & _ & q1 & Hb1 & ->)%precheck_passed
    (Hc2 & _ & _ & q2 & Hb2 & ->)%precheck_passed.
  rewrite Hb1 in Hb2. injection Hb2 as <-. split; congruence.
Qed.

(** C5: processing the same creation twice, whatever the collaborators
    answer the second time, leaves at most one row of its [code] in a
    table that had at most one offer per code and [offer_id] as its key.
    When the event reports the offer available and no row of the code was
    stored, the first processing answers [created] with the [offer_id] of
    the event and stores one row of the code; the second one finds that
    row by [code], resolves the same [offer_id], and either leaves
    [offers] as it is or updates that row in place: no row is added. *)
Theorem replayed_creation_keeps_one_row (e1 e2 : env) (w : world)
    (pl : payload) (ai : appInit) (p : post) (code : string) :
  precheck e1 pl = inr (ai, p, code) →
  kind pl = "POST_CREATED" →
  keyed (offers w) → one_offer_per_code (offers w) →
  let w1 := world_of (manageOffer e1 w pl) in
  let w2 := world_of (manageOffer e2 w1 pl) in
  (rows_of_code code (offers w2) ≤ 1)%nat
  ∧ (reports_gone p = false → rows_of_code code (offers w) = 0%nat →
     let id := str_or (post_offer_id p) "" in
     response_of (manageOffer e1 w pl) = Ok200 "created" None (Some id)
     ∧ rows_of_code code (offers w1) = 1%nat
     ∧ (∃ ex, getOfferByCode (offers w1) code = Some ex ∧ offer_id ex = id)
     ∧ docIdToUse (resolve w1 p code) = id
     ∧ (offers w2 = offers w1
        ∨ ∃ row, offer_id row = id
                 ∧ offers w2 = List.map (update_row row) (offers w1))
     ∧ length (offers w2) = length (offers w1)
     ∧ rows_of_code code (offers w2) = 1%nat).
Proof.
  intros Hg Hkind Hk Ho w1 w2.
  destruct (manageOffer_invariant e1 w pl Hk Ho) as [Hk1 Ho1].
  fold (offers_after e1 w pl) in w1.
  change (offers_after e1 w pl) with (offers w1) in Hk1, Ho1.
  destruct (manageOffer_invariant e2 w1 pl Hk1 Ho1) as [Hk2 Ho2].
  change (offers_after e2 w1 pl) with (offers w2) in Hk2, Ho2.
  split; [by apply rows_of_code_le_1|].
  intros Hgone Hnone id.
  destruct (precheck_passed e1 pl ai p code Hg) as (Hcode & _).
  assert (Ha : active_event pl p = true).
  { unfold active_event. by rewrite Hkind, Hgone. }
  assert (Hedit : is_edit pl = false) by (unfold is_edit; by rewrite Hkind).
  (* the first processing *)
  assert (Hex : getOfferByCode (offers w) code = None).
  { apply getOfferByCode_None. unfold rows_of_code in Hnone.
    by destruct (List.filter (has_code code) (offers w)). }
  destruct (resolve_absent w p code Hex) as (Hid & _ & Hact & _).
  pose proof (manageOffer_active e1 w pl ai p code Hg Ha) as H1.
  cbv zeta in H1. unfold outranked in H1. rewrite Hact, Hedit, Hid in H1.
  cbn [andb] in H1. destruct H1 as (Hafter1 & Hresp1 & _).
  change (offers_after e1 w pl) with (offers w1) in Hafter1.
  set (row1 := persisted_row e1 pl p (resolve w p code)) in *.
  destruct (persisted_row_code e1 pl p (resolve w p code) code Hcode)
    as [Hrc1 Hrid1].
  fold row1 in Hrc1, Hrid1. rewrite Hid in Hrid1. fold id in Hrid1, Hresp1.
  destruct (insertOrUpdateOffer_has_row (offers w) row1) as (r & Hr & Hrid).
  rewrite <- Hafter1 in Hr.
  assert (Hrcode : has_code code r = true).
  { rewrite Hafter1 in Hr.
    destruct (insertOrUpdateOffer_rows _ _ code r Hrc1 Hr)
      as [[_ Hc]|[_ Hne]]; [|done].
    rewrite Hc. by apply bool_decide_eq_true. }
  assert (Hone1 : rows_of_code code (offers w1) = 1%nat).
  { pose proof (rows_of_code_le_1 code _ Hk1 Ho1).
    pose proof (rows_of_code_pos code _ r Hr Hrcode). lia. }
  destruct (getOfferByCode (offers w1) code) as [ex|] eqn:Hex1; cycle 1.
  { apply getOfferByCode_None in Hex1. unfold rows_of_code in Hone1.
    by rewrite Hex1 in Hone1. }
  destruct (getOfferByCode_Some _ _ _ Hex1) as [Hexin Hexcode].
  assert (Hexid : offer_id ex = id).
  { rewrite (Ho1 code ex r Hexin Hr Hexcode Hrcode). congruence. }
  destruct (resolve_existing w1 p code ex Hex1) as (Hid2 & _).
  rewrite Hexid in Hid2.
  (* the second processing *)
  assert (Hsecond :
    offers w2 = offers w1
    ∨ ∃ row, offer_id row = id ∧ col row "code" = Some (SText code)
             ∧ offers w2 = List.map (update_row row) (offers w1)).
  { destruct (precheck e2 pl) as [res|[[ai2 p2] code2]] eqn:Hg2.
    { left. unfold w2. by rewrite (manageOffer_rejected e2 w1 pl res Hg2). }
    destruct (precheck_same_event e1 e2 pl _ _ _ _ _ _ Hg Hg2) as [-> ->].
    pose proof (manageOffer_active e2 w1 pl ai2 p code Hg2 Ha) as H2.
    cbv zeta in H2.
    change (offers_after e2 w1 pl) with (offers w2) in H2.
    destruct (outranked (resolve w1 p code)); [left; by destruct H2|].
    destruct H2 as (Hafter2 & _ & _). right.
    set (row2 := persisted_row e2 pl p (resolve w1 p code)) in *.
    destruct (persisted_row_code e2 pl p (resolve w1 p code) code Hcode)
      as [Hrc2 Hrid2].
    fold row2 in Hrc2, Hrid2. rewrite Hid2 in Hrid2.
    exists row2. split; [done|]. split; [done|].
    rewrite Hafter2. apply (insertOrUpdateOffer_existing _ _ ex); [done|].
    congruence. }
  split; [done|]. split; [done|]. split; [eauto|]. split; [done|].
  split; [|split].
  - destruct Hsecond as [?|(row & ? & _ & ?)]; eauto.
  - destruct Hsecond as [->|(row & _ & _ & ->)]; [done|apply length_fmap].
  - pose proof (rows_of_code_le_1 code _ Hk2 Ho2) as Hle.
    assert (Hge : (1 ≤ rows_of_code code (offers w2))%nat); [|lia].
    destruct Hsecond as [->|(row & Hrow & Hrowc & ->)]; [lia|].
    apply (rows_of_code_pos code _ (update_row row ex)).
    + apply elem_of_lmap. eauto.
    + rewrite (update_row_code code code row ex Hrowc) by congruence.
      by apply bool_decide_eq_true.
Qed.

(** ** The theorems at sample inputs *)

Lemma removal_soft_or_hard_witness :
  precheck open_env (event "POST_DELETED" headphones)
  = inr (all_on, headphones, "C1")
  ∧ removal_event (event "POST_DELETED" headphones) headphones = true
  ∧ newPriority (resolve favorited_world headphones "C1")
    ≤ existingPriority (resolve favorited_world headphones "C1")
  ∧ offer_id <$> offers_after open_env favorited_world
                   (event "POST_DELETED" headphones)
    = offer_id <$> offers favorited_world.
Proof.
  assert (H1 : precheck open_env (event "POST_DELETED" headphones)
               = inr (all_on, headphones, "C1")) by reflexivity.
  assert (H2 : removal_event (event "POST_DELETED" headphones) headphones
               = true) by reflexivity.
  assert (H3 : newPriority (resolve favorited_world headphones "C1")
               ≤ existingPriority (resolve favorited_world headphones "C1"))
    by (by vm_compute).
  assert (H4 : findFavoritersByOffer (favorites favorited_world)
                 (docIdToUse (resolve favorited_world headphones "C1")) None
               ≠ []) by (by vm_compute).
  split; [exact H1|]. split; [exact H2|]. split; [exact H3|].
  exact (proj1 (proj1 (removal_soft_or_hard open_env favorited_world
                         (event "POST_DELETED" headphones) all_on headphones
                         "C1" H1 H2 H3)
                  (or_introl H4))).
Defined.

Lemma soft_delete_expiry_witness :
  precheck open_env (event "POST_DELETED" headphones)
  = inr (all_on, headphones, "C1")
  ∧ removal_event (event "POST_DELETED" headphones) headphones = true
  ∧ newPriority (resolve favorited_world headphones "C1")
    ≤ existingPriority (resolve favorited_world headphones "C1")
  ∧ ∀ r, r ∈ offers_after open_env favorited_world
               (event "POST_DELETED" headphones) →
         offer_id r = "o1" →
         col r "timestamp_expired" = Some (SInt 5000).
Proof.
  assert (H1 : precheck open_env (event "POST_DELETED" headphones)
               = inr (all_on, headphones, "C1")) by reflexivity.
  assert (H2 : removal_event (event "POST_DELETED" headphones) headphones
               = true) by reflexivity.
  assert (H3 : newPriority (resolve favorited_world headphones "C1")
               ≤ existingPriority (resolve favorited_world headphones "C1"))
    by (by vm_compute).
  assert (H4 : findFavoritersByOffer (favorites favorited_world)
                 (docIdToUse (resolve favorited_world headphones "C1")) None
               ≠ []) by (by vm_compute).
  split; [exact H1|]. split; [exact H2|]. split; [exact H3|].
  exact (proj1 (soft_delete_expiry open_env favorited_world
                  (event "POST_DELETED" headphones) all_on headphones
                  "C1" H1 H2 H3) H4).
Defined.

Lemma lower_priority_never_overwrites_witness :
  precheck open_env (event "POST_CREATED" headphones)
  = inr (all_on, headphones, "C1")
  ∧ active_event (event "POST_CREATED" headphones) headphones = true
  ∧ getOfferByCode (offers quiet_world) "C1" = Some stored_row
  ∧ ∃ row, offer_id row = offer_id stored_row
           ∧ offers_after open_env quiet_world
               (event "POST_CREATED" headphones)
             = List.map (update_row row) (offers quiet_world).
Proof.
  assert (H1 : precheck open_env (event "POST_CREATED" headphones)
               = inr (all_on, headphones, "C1")) by reflexivity.
  assert (H2 : active_event (event "POST_CREATED" headphones) headphones
               = true) by reflexivity.
  assert (H3 : getOfferByCode (offers quiet_world) "C1" = Some stored_row)
    by (by vm_compute).
  assert (H4 : getChannelPriority (str_or (post_channel_id headphones) "")
               ≤ getChannelPriority
                   (col_string_or_empty (col stored_row "channel_id")))
    by (by vm_compute).
  split; [exact H1|]. split; [exact H2|]. split; [exact H3|].
  destruct (proj1 (proj2 (lower_priority_never_overwrites open_env
                            quiet_world (event "POST_CREATED" headphones)
                            all_on headphones "C1" stored_row
                            H1 H2 H3)) H4)
    as (row & Hid & _ & Hafter & _).
  exists row. split; [exact Hid|exact Hafter].
Defined.

Lemma unmatched_edit_or_delete_witness :
  precheck open_env (event "POST_EDITED" headphones)
  = inr (all_on, headphones, "C1")
  ∧ getOfferByCode (offers empty_world) "C1" = None
  ∧ String.eqb (kind (event "POST_EDITED" headphones)) "POST_CREATED" = false
  ∧ ∃ row, offer_id row = "o1"
           ∧ offers_after open_env empty_world
               (event "POST_EDITED" headphones) = [row].
Proof.
  assert (H1 : precheck open_env (event "POST_EDITED" headphones)
               = inr (all_on, headphones, "C1")) by reflexivity.
  assert (H2 : getOfferByCode (offers empty_world) "C1" = None)
    by reflexivity.
  assert (H3 : String.eqb (kind (event "POST_EDITED" headphones))
                 "POST_CREATED" = false) by reflexivity.
  assert (H4 : active_event (event "POST_EDITED" headphones) headphones
               = true) by reflexivity.
  split; [exact H1|]. split; [exact H2|]. split; [exact H3|].
  destruct (proj1 (unmatched_edit_or_delete open_env empty_world
                     (event "POST_EDITED" headphones) all_on headphones "C1"
                     H1 H2 H3) H4)
    as (row & Hid & _ & _ & _ & Hfresh).
  exists row. split; [exact Hid|].
  apply Hfresh. intros r Hr. by apply elem_of_nil in Hr.
Defined.

Lemma replayed_creation_keeps_one_row_witness :
  precheck open_env (event "POST_CREATED" headphones)
  = inr (all_on, headphones, "C1")
  ∧ kind (event "POST_CREATED" headphones) = "POST_CREATED"
  ∧ keyed (offers empty_world)
  ∧ one_offer_per_code (offers empty_world)
  ∧ (rows_of_code "C1"
       (offers
          (world_of
             (manageOffer open_env
                (world_of (manageOffer open_env empty_world
                             (event "POST_CREATED" headphones)))
                (event "POST_CREATED" headphones)))) ≤ 1)%nat.
Proof.
  assert (H1 : precheck open_env (event "POST_CREATED" headphones)
               = inr (all_on, headphones, "C1")) by reflexivity.
  assert (H2 : kind (event "POST_CREATED" headphones) = "POST_CREATED")
    by reflexivity.
  assert (H3 : keyed (offers empty_world)) by apply NoDup_nil_2.
  assert (H4 : one_offer_per_code (offers empty_world)).
  { intros c r1 r2 Hr. by apply elem_of_nil in Hr. }
  split; [exact H1|]. split; [exact H2|]. split; [exact H3|].
  split; [exact H4|].
  exact (proj1 (replayed_creation_keeps_one_row open_env open_env empty_world
                  (event "POST_CREATED" headphones) all_on headphones "C1"
                  H1 H2 H3 H4)).
Defined.

Lemma retraction_precedes_arbitration_witness :
  precheck open_env (event "POST_DELETED" headphones)
  = inr (all_on, headphones, "C1")
  ∧ removal_event (event "POST_DELETED" headphones) headphones = true
  ∧ (∀ r, r ∈ offers notified_world → offer_id r ≠ "")
  ∧ ∃ rest,
      steps_of (manageOffer open_env notified_world
                  (event "POST_DELETED" headphones))
      = Withdraw "o1" :: Arbitrate 2 3 :: rest.
Proof.
  assert (H1 : precheck open_env (event "POST_DELETED" headphones)
               = inr (all_on, headphones, "C1")) by reflexivity.
  assert (H2 : removal_event (event "POST_DELETED" headphones) headphones
               = true) by reflexivity.
  assert (H3 : ∀ r, r ∈ offers notified_world → offer_id r ≠ "").
  { intros r Hr. by apply elem_of_nil in Hr. }
  split; [exact H1|]. split; [exact H2|]. split; [exact H3|].
  destruct (proj1 (retraction_precedes_arbitration open_env notified_world
                     (event "POST_DELETED" headphones) all_on headphones
                     "C1" H1 H2 H3)) as (rest & Hsteps & _).
  exists rest. exact Hsteps.
Defined.

(** * Further properties of the handler and of the services *)

Import Inbox Favorites Frames Fixtures.

(** ** What the handler answers, and what it leaves alone *)

Lemma created_gone_response (e : env) (w : world) (p : post) (c : context) :
  ∃ a, response_of (created_gone e w p c) = Ok200 a None None.
Proof.
  unfold created_gone, response_of.
  destruct (withdrawNotificationsSafe e w (docIdToUse c)) as [w1 s].
  repeat case_match; simpl; eauto.
Qed.

Lemma edited_gone_response (e : env) (w : world) (p : post) (c : context) :
  ∃ a, response_of (edited_gone e w p c) = Ok200 a None None.
Proof.
  unfold edited_gone, response_of.
  destruct (withdrawNotificationsSafe e w (docIdToUse c)) as [w1 s].
  repeat case_match; simpl; eauto.
Qed.

Lemma deleted_response (e : env) (w : world) (p : post) (c : context) :
  ∃ a r, response_of (deleted e w p c) = Ok200 a r None.
Proof.
  unfold deleted, response_of.
  destruct (withdrawNotificationsSafe e w (docIdToUse c)) as [w1 s].
  repeat case_match; simpl; eauto.
Qed.

Lemma reconcile_response (e : env) (ai : appInit) (w : world) (pl : payload)
    (p : post) (code : string) :
  let o := reconcile e ai w pl p code in
  (∃ a r, response_of o = Ok200 a r None)
  ∨ (response_of o = Ok200 (if is_edit pl then "edited" else "created") None
                       (Some (docIdToUse (resolve w p code)))
     ∧ active_event pl p = true
     ∧ outranked (resolve w p code) = false)
  ∨ o = (BadRequest "Unknown type", w, []).
Proof.
  cbv zeta. unfold reconcile, is_edit, active_event, kind.
  set (c := resolve w p code).
  destruct (String.eqb (str_or (type pl) "") "POST_CREATED") eqn:Hc.
  - destruct (reports_gone p) eqn:Hg.
    + left. destruct (created_gone_response e w p c) as [a Ha]. eauto.
    + pose proof (created_active_offers e ai w pl p c) as H.
      cbv zeta in H.
      destruct (bool_decide (is_Some (existing c)) && outranked c) eqn:Ho.
      * left. destruct H as [_ H]. eauto.
      * destruct H as (_ & H & _).
        destruct (outranked c) eqn:Hout.
        -- left. unfold outranked in Hout.
           unfold c in Hout, Ho. unfold resolve in Hout, Ho.
           cbn [existingDocIsActive existing] in Hout, Ho.
           destruct (getOfferByCode (offers w) code); simpl in *; done.
        -- right; left. simpl. done.
  - destruct (String.eqb (str_or (type pl) "") "POST_EDITED") eqn:He.
    + destruct (reports_gone p) eqn:Hg.
      * left. destruct (edited_gone_response e w p c) as [a Ha]. eauto.
      * pose proof (edited_active_offers e ai w pl p c) as H.
        cbv zeta in H.
        destruct (outranked c) eqn:Ho.
        -- left. destruct H as [_ H]. eauto.
        -- right; left. destruct H as (_ & H & _). simpl. done.
    + destruct (String.eqb (str_or (type pl) "") "POST_DELETED") eqn:Hd.
      * left. apply deleted_response.
      * right; right. done.
Qed.

Lemma precheck_rejections (e : env) (pl : payload) (r : response) :
  precheck e pl = inl r →
  r = Ok200 "skipped_incoming_disabled" None None
  ∨ r = Ok200 "skipped" None None
  ∨ r = BadRequest "Missing fields" ∨ r = BadRequest "Missing code".
Proof.
  unfold precheck. intros H.
  repeat case_match; simplify_eq; eauto.
Qed.

(** X1.  An answer 400 means that nothing happened: whenever the handler
    answers with an error, the tables are the ones it was given and no
    step was taken (no retraction, no write, no message); the error is
    one of 'Missing fields', 'Missing code' and 'Unknown type'. *)
Theorem bad_request_changes_nothing (e : env) (w : world) (pl : payload)
    (err : string) :
  response_of (manageOffer e w pl) = BadRequest err →
  manageOffer e w pl = (BadRequest err, w, [])
  ∧ err ∈ ["Missing fields"; "Missing code"; "Unknown type"].
Proof.
  unfold manageOffer. destruct (precheck e pl) as [r|[[ai p] code]] eqn:Hp.
  - unfold response_of. simpl. intros ->. split; [done|].
    destruct (precheck_rejections _ _ _ Hp) as [H|[H|[H|H]]];
      simplify_eq; [apply list_elem_of_here|].
    apply list_elem_of_further, list_elem_of_here.
  - intros H.
    destruct (reconcile_response e ai w pl p code)
      as [(a & r & Ha)|[(Ha & _)|Ha]].
    + congruence.
    + congruence.
    + rewrite Ha in H |- *. unfold response_of in H. simpl in H.
      simplify_eq. split; [done|].
      do 2 apply list_elem_of_further. apply list_elem_of_here.
Qed.

Lemma bad_request_changes_nothing_witness :
  response_of (manageOffer open_env quiet_world (event "POST_MOVED" headphones))
  = BadRequest "Unknown type"
  ∧ manageOffer open_env quiet_world (event "POST_MOVED" headphones)
    = (BadRequest "Unknown type", quiet_world, []).
Proof.
  assert (H : response_of (manageOffer open_env quiet_world
                             (event "POST_MOVED" headphones))
              = BadRequest "Unknown type") by (by vm_compute).
  split; [exact H|].
  exact (proj1 (bad_request_changes_nothing open_env quiet_world
                  (event "POST_MOVED" headphones) "Unknown type" H)).
Defined.

Lemma override_title_keys (p : post) :
  post_code (override_title p) = post_code p
  ∧ post_offer_id (override_title p) = post_offer_id p
  ∧ post_channel_id (override_title p) = post_channel_id p
  ∧ post_link (override_title p) = post_link p
  ∧ post_is_explicit (override_title p) = post_is_explicit p.
Proof. unfold override_title. repeat case_match; done. Qed.

(** X2.  The [offer_id] of an answer names a stored row: the handler
    answers with an [offer_id] only for the actions 'created' and
    'edited', and then the table holds a row with that id whose code is
    the code of the event. *)
Theorem returned_offer_id_is_stored (e : env) (w : world) (pl : payload)
    (a : string) (r : option string) (id : string) :
  response_of (manageOffer e w pl) = Ok200 a r (Some id) →
  (a = "created" ∨ a = "edited") ∧ r = None
  ∧ ∃ p0 row,
      body_post pl = Val p0
      ∧ row ∈ offers_after e w pl
      ∧ offer_id row = id
      ∧ col row "code" = Some (SText (str_or (post_code p0) "")).
Proof.
  intros H.
  destruct (precheck e pl) as [r0|[[ai p] code]] eqn:Hp.
  { rewrite (manageOffer_rejected _ w _ _ Hp) in H.
    unfold response_of in H. simpl in H. subst r0.
    destruct (precheck_rejections _ _ _ Hp) as [?|[?|[?|?]]]; done. }
  assert (Hm : manageOffer e w pl = reconcile e ai w pl p code)
    by (unfold manageOffer; by rewrite Hp).
  destruct (reconcile_response e ai w pl p code)
    as [(a' & r' & Ha)|[(Ha & Hact & Hout)|Ha]].
  - rewrite Hm in H. congruence.
  - rewrite Hm in H. rewrite Ha in H. simplify_eq.
    split; [destruct (is_edit pl); eauto|]. split; [done|].
    destruct (precheck_passed _ _ _ _ _ Hp) as (Hcode & Htr & _ & p0 & Hb & ->).
    pose proof (manageOffer_active e w pl ai _ code Hp Hact) as Hrow.
    cbv zeta in Hrow. rewrite Hout in Hrow. destruct Hrow as (Hoff & _).
    set (row := persisted_row e pl (override_title p0)
                  (resolve w (override_title p0) code)) in *.
    destruct (persisted_row_code e pl (override_title p0)
                (resolve w (override_title p0) code) code Hcode)
      as [Hrc Hrid].
    destruct (insertOrUpdateOffer_has_row (offers w) row) as (x & Hx & Hxid).
    exists p0, x. split; [done|]. rewrite Hoff. split; [done|].
    split; [by rewrite Hxid|].
    destruct (insertOrUpdateOffer_rows (offers w) row code x Hrc Hx)
      as [[_ Hc]|[_ Hne]]; [|done].
    specialize (Hc code). rewrite bool_decide_true in Hc by done.
    unfold has_code in Hc. apply bool_decide_eq_true in Hc.
    destruct (override_title_keys p0) as (Hk & _). rewrite Hk in Hcode.
    rewrite Hcode. simpl. rewrite Htr. done.
  - rewrite Hm, Ha in H. done.
Qed.

Lemma returned_offer_id_is_stored_witness :
  response_of (manageOffer open_env empty_world
                 (event "POST_CREATED" headphones))
  = Ok200 "created" None (Some "o1")
  ∧ ∃ p0 row,
      body_post (event "POST_CREATED" headphones) = Val p0
      ∧ row ∈ offers_after open_env empty_world
                (event "POST_CREATED" headphones)
      ∧ offer_id row = "o1"
      ∧ col row "code" = Some (SText (str_or (post_code p0) "")).
Proof.
  assert (H : response_of (manageOffer open_env empty_world
                             (event "POST_CREATED" headphones))
              = Ok200 "created" None (Some "o1")) by (by vm_compute).
  split; [exact H|].
  exact (proj2 (proj2 (returned_offer_id_is_stored open_env empty_world
                         (event "POST_CREATED" headphones)
                         "created" None "o1" H))).
Defined.

(** X3.  An event that is flagged explicit, that comes from one of the
    channels of [SKIP_CHANNELS], or whose link contains the escaped
    marker [\u0026aod\u003d1], is answered 'skipped' before anything is
    looked up: the tables are unchanged and no step is taken, whatever the kind
    of the event. *)
Theorem flagged_event_is_skipped (e : env) (w : world) (pl : payload)
    (ai : appInit) (p0 : post) :
  app_init e = Some ai → accept_incoming_requests ai = true →
  body_post pl = Val p0 →
  truthy_str (str_or (type pl) "") = true →
  truthy_str (str_or (post_offer_id p0) "") = true →
  post_is_explicit p0 = Val true
  ∨ str_or (post_channel_id p0) "" ∈ SKIP_CHANNELS
  ∨ includes "\u0026aod\u003d1" (str_or (post_link p0) "") = true →
  manageOffer e w pl = (Ok200 "skipped" None None, w, []).
Proof.
  intros Hai Hacc Hb Ht Hid Hflag.
  apply manageOffer_rejected.
  unfold precheck. rewrite Hai. simpl. rewrite Hacc. simpl. rewrite Hb.
  rewrite Ht, Hid. simpl.
  destruct (override_title_keys p0) as (_ & _ & Hch & Hl & Hx).
  rewrite Hx, Hch, Hl.
  destruct Hflag as [-> | [H | ->]].
  - done.
  - unfold mem_str. rewrite (bool_decide_true _ H).
    by rewrite orb_true_r.
  - by rewrite orb_true_r.
Qed.

Lemma flagged_event_is_skipped_witness :
  manageOffer open_env quiet_world (event "POST_DELETED" from_skipped_channel)
  = (Ok200 "skipped" None None, quiet_world, []).
Proof.
  apply (flagged_event_is_skipped open_env quiet_world
           (event "POST_DELETED" from_skipped_channel) all_on
           from_skipped_channel); try reflexivity.
  right; left. refine (bool_decide_unpack _ _). by vm_compute.
Defined.

(** ** The tables the handler only adds to *)

Lemma grows_refl (w : world) : grows w w.
Proof. by split. Qed.

Lemma grows_trans (w1 w2 w3 : world) :
  grows w1 w2 → grows w2 w3 → grows w1 w3.
Proof.
  intros [a b c d] [a' b' c' d'].
  split; [congruence|congruence|by etrans|by etrans].
Qed.

Lemma grows_with_offers (w : world) (t : list offer_row) :
  grows w (with_offers w t).
Proof. by split. Qed.

Lemma grows_insert_notification (w : world) (mk : Z -> notification_row) :
  grows w (insert_notification w mk).2.
Proof. split; simpl; try done. by apply prefix_app_r. Qed.

Lemma grows_createFirestoreNotificationDoc (now : Z) (w : world)
    (offerId : string) (userIds : list string) (type : string) :
  grows w (createFirestoreNotificationDoc now w offerId userIds type).
Proof.
  unfold createFirestoreNotificationDoc.
  generalize (match userIds with [] => [None] | _ => List.map Some userIds end).
  intros l. revert w. induction l as [|u l IH]; intros w; cbn [foldl].
  - apply grows_refl.
  - eapply grows_trans; [|apply IH]. apply grows_insert_notification.
Qed.

Lemma grows_append_receipts (w : world) (l : list receipt_row) :
  grows w (with_receipts w (users_notifications w ++ l)).
Proof.
  split; simpl; try done. rewrite fmap_app. by apply prefix_app_r.
Qed.

Lemma grows_notifyUsersAboutOffer (now : Z) (fcm : provider) (w : world)
    (userIds : list string) (p : post) (offerId : string)
    (opts : notify_options) :
  grows w (notifyUsersAboutOffer now fcm w userIds p offerId opts).2.
Proof.
  unfold notifyUsersAboutOffer.
  destruct (insert_notification w _) as [nid w1] eqn:Hi.
  assert (H1 : grows w w1).
  { pose proof (grows_insert_notification w
      (fun id => {| n_id := id; n_offer_id := Some offerId;
                    n_title := Some (notification_title opts p);
                    n_target := Some (if truthy_str offerId then offerId
                                      else "unknown");
                    n_created_at := now; n_uid := None; n_type := None |}))
      as H.
    by rewrite Hi in H. }
  destruct (fulfilled_values _) as [|u l] eqn:Hf; [done|].
  simpl. eapply grows_trans; [exact H1|].
  eapply grows_trans; [apply grows_createFirestoreNotificationDoc|].
  destruct (truthy_num nid); [apply grows_append_receipts|apply grows_refl].
Qed.

Lemma grows_sendSuperOfferNotification (now : Z) (fcm : provider)
    (w : world) (offerId : string) :
  grows w (sendSuperOfferNotification now fcm w offerId).
Proof.
  unfold sendSuperOfferNotification.
  repeat case_match; try apply grows_refl.
  apply grows_createFirestoreNotificationDoc.
Qed.

Lemma set_withdrawn_key (ids : list Z) (un : receipt_row) :
  receipt_key (set_withdrawn ids un) = receipt_key un.
Proof.
  unfold set_withdrawn, receipt_key.
  repeat case_match; simpl; congruence.
Qed.

Lemma silent_refl (w : world) : silent w w.
Proof. by split. Qed.

Lemma silent_trans (w1 w2 w3 : world) :
  silent w1 w2 → silent w2 w3 → silent w1 w3.
Proof. intros [a b] [a' b']. split; congruence. Qed.

Lemma silent_grows (w w' : world) :
  silent w w' → favorites w' = favorites w → users w' = users w →
  grows w w'.
Proof. intros [a b] ? ?. split; try done; by rewrite ?a, ?b. Qed.

Lemma silent_with_offers (w : world) (t : list offer_row) :
  silent w (with_offers w t).
Proof. by split. Qed.

Lemma silent_withdraw_where (db_ok : bool) (w : world)
    (sel : notification_row -> bool) :
  silent w (withdraw_where db_ok w sel).2.
Proof.
  unfold withdraw_where. destruct db_ok; [|apply silent_refl]. simpl.
  case_match; [apply silent_refl|]. split; simpl; [done|].
  rewrite <- list_fmap_compose. apply list_fmap_ext.
  intros i un _. apply set_withdrawn_key.
Qed.

Lemma silent_withdrawNotificationsSafe (e : env) (w : world) (id : string) :
  silent w (withdrawNotificationsSafe e w id).1.
Proof.
  unfold withdrawNotificationsSafe.
  destruct (truthy_str id); simpl; [|apply silent_refl].
  unfold withdrawOfferNotifications, withdrawNotificationsForOffer.
  pose proof (silent_withdraw_where (withdraw_query_ok e) w
                (fun n => bool_decide (n_offer_id n = Some id))) as H.
  destruct (withdraw_where _ _ _) as [[res|] w']; exact H.
Qed.

Lemma grows_withdrawNotificationsSafe (e : env) (w : world) (id : string) :
  grows w (withdrawNotificationsSafe e w id).1.
Proof.
  destruct (withdrawNotificationsSafe_frame e w id) as [[_ Hf Hu] _].
  apply silent_grows; [apply silent_withdrawNotificationsSafe|done|done].
Qed.

Lemma grows_super_offer (e : env) (ai : appInit) (w : world) (c : context) :
  grows w (super_offer e ai w c).1.
Proof.
  unfold super_offer. case_match; simpl; [|apply grows_refl].
  apply grows_sendSuperOfferNotification.
Qed.

Lemma grows_keyword_stage (e : env) (ai : appInit) (w : world) (p : post)
    (c : context) :
  grows w (keyword_stage e ai w p c).1.
Proof.
  unfold keyword_stage. repeat case_match; simpl; try apply grows_refl.
  apply grows_notifyUsersAboutOffer.
Qed.

Lemma grows_created_gone (e : env) (w : world) (p : post) (c : context) :
  grows w (world_of (created_gone e w p c))
  ∧ silent w (world_of (created_gone e w p c)).
Proof.
  unfold created_gone, world_of.
  pose proof (grows_withdrawNotificationsSafe e w (docIdToUse c)) as Hg.
  pose proof (silent_withdrawNotificationsSafe e w (docIdToUse c)) as Hs.
  destruct (withdrawNotificationsSafe e w (docIdToUse c)) as [w1 s].
  simpl in Hg, Hs.
  repeat case_match; simpl; (split; [eapply grows_trans|eapply silent_trans]);
    eauto using grows_with_offers, silent_with_offers, grows_refl, silent_refl.
Qed.

Lemma grows_edited_gone (e : env) (w : world) (p : post) (c : context) :
  grows w (world_of (edited_gone e w p c))
  ∧ silent w (world_of (edited_gone e w p c)).
Proof.
  unfold edited_gone, world_of.
  pose proof (grows_withdrawNotificationsSafe e w (docIdToUse c)) as Hg.
  pose proof (silent_withdrawNotificationsSafe e w (docIdToUse c)) as Hs.
  destruct (withdrawNotificationsSafe e w (docIdToUse c)) as [w1 s].
  simpl in Hg, Hs.
  repeat case_match; simpl; (split; [eapply grows_trans|eapply silent_trans]);
    eauto using grows_with_offers, silent_with_offers, grows_refl, silent_refl.
Qed.

Lemma grows_deleted (e : env) (w : world) (p : post) (c : context) :
  grows w (world_of (deleted e w p c))
  ∧ silent w (world_of (deleted e w p c)).
Proof.
  unfold deleted, world_of.
  pose proof (grows_withdrawNotificationsSafe e w (docIdToUse c)) as Hg.
  pose proof (silent_withdrawNotificationsSafe e w (docIdToUse c)) as Hs.
  destruct (withdrawNotificationsSafe e w (docIdToUse c)) as [w1 s].
  simpl in Hg, Hs.
  repeat case_match; simpl; (split; [eapply grows_trans|eapply silent_trans]);
    eauto using grows_with_offers, silent_with_offers, grows_refl, silent_refl.
Qed.

Lemma grows_created_active (e : env) (ai : appInit) (w : world)
    (pl : payload) (p : post) (c : context) :
  grows w (world_of (created_active e ai w pl p c)).
Proof.
  unfold created_active, world_of.
  pose proof (grows_super_offer e ai w c) as H1.
  destruct (super_offer e ai w c) as [w1 s1]. simpl in H1.
  case_match; [done|].
  set (p' := created_post e pl p c).
  match goal with
  | |- context [let '(_, _) := ?x in _] =>
      assert (H2 : grows w1 x.1)
        by (repeat case_match; simpl;
            eauto using grows_refl, grows_notifyUsersAboutOffer);
      destruct x as [w2 s3]
  end.
  simpl in H2.
  pose proof (grows_keyword_stage e ai (persist w2 (build_row e pl p' c))
                p' c) as H3.
  destruct (keyword_stage _ _ _ _ _) as [w4 s4]. simpl in *.
  eapply grows_trans; [exact H1|]. eapply grows_trans; [exact H2|].
  eapply grows_trans; [apply grows_with_offers|exact H3].
Qed.

Lemma grows_edited_active (e : env) (ai : appInit) (w : world)
    (pl : payload) (p : post) (c : context) :
  grows w (world_of (edited_active e ai w pl p c)).
Proof.
  unfold edited_active, world_of.
  pose proof (grows_super_offer e ai w c) as H1.
  destruct (super_offer e ai w c) as [w1 s1]. simpl in H1.
  case_match; [done|].
  match goal with
  | |- context [let '(_, _) := ?x in _] =>
      assert (H2 : grows w1 x.1)
        by (repeat case_match; simpl;
            eauto using grows_refl, grows_notifyUsersAboutOffer);
      destruct x as [w2 s3]
  end.
  simpl in H2.
  match goal with
  | |- context [let '(_, _) := ?x in _] =>
      assert (H3 : grows w2 x.1)
        by (repeat case_match; simpl;
            eauto using grows_refl, grows_notifyUsersAboutOffer);
      destruct x as [w3 s4]
  end.
  simpl in *.
  eapply grows_trans; [exact H1|]. eapply grows_trans; [exact H2|].
  eapply grows_trans; [exact H3|apply grows_with_offers].
Qed.

(** X4.  The handler never touches the favorites or the users, never
    removes or rewrites a row of the notification journal, and never
    removes a receipt or gives it to another user or notification: the
    journal and the receipts after an event extend the ones before. *)
Theorem handler_only_adds_to_journal (e : env) (w : world) (pl : payload) :
  let w' := world_of (manageOffer e w pl) in
  favorites w' = favorites w
  ∧ users w' = users w
  ∧ notifications w `prefix_of` notifications w'
  ∧ receipt_key <$> users_notifications w
      `prefix_of` receipt_key <$> users_notifications w'.
Proof.
  cbv zeta.
  assert (H : grows w (world_of (manageOffer e w pl))).
  { unfold manageOffer.
    destruct (precheck e pl) as [r|[[ai p] code]]; [apply grows_refl|].
    unfold reconcile.
    repeat case_match;
      first [ apply grows_created_gone | apply grows_edited_gone
            | apply grows_deleted | apply grows_created_active
            | apply grows_edited_active | apply grows_refl ]. }
  by destruct H.
Qed.

Section switched_off.
Context (e : env) (ai : appInit) (w : world) (pl : payload) (p : post)
  (c : context).
Hypothesis off :
  have_creds e = false
  ∨ (send_favorites_notifications ai = false
     ∧ send_super_offers_notifications ai = false).

Lemma off_super :
  superOfferNotify c && have_creds e && send_super_offers_notifications ai
  = false.
Proof.
  destruct off as [->|[_ ->]]; by rewrite ?andb_false_r.
Qed.

Lemma off_favorites (b : bool) :
  b && have_creds e && send_favorites_notifications ai = false.
Proof.
  destruct off as [->|[-> _]]; by rewrite ?andb_false_r.
Qed.

Lemma silent_super_offer : super_offer e ai w c = (w, []).
Proof. unfold super_offer. by rewrite off_super. Qed.

Lemma silent_keyword_stage (w0 : world) (p0 : post) :
  keyword_stage e ai w0 p0 c = (w0, []).
Proof.
  unfold keyword_stage.
  destruct (truthy_str (str_or (post_title p0) "") && have_creds e) eqn:H;
    [|done].
  apply andb_prop in H as [_ Hc].
  destruct off as [Hn|[Hf _]]; [congruence|].
  by rewrite Hf, andb_false_r.
Qed.

Lemma silent_created_active :
  silent w (world_of (created_active e ai w pl p c)).
Proof.
  unfold created_active, world_of. rewrite silent_super_offer.
  case_match; [apply silent_refl|].
  rewrite off_favorites.
  match goal with
  | |- context [let '(_, _) := ?x in _] =>
      replace x with (w, @nil step) by (by repeat case_match)
  end.
  cbv zeta. rewrite silent_keyword_stage. simpl.
  apply silent_with_offers.
Qed.

Lemma silent_edited_active :
  silent w (world_of (edited_active e ai w pl p c)).
Proof.
  unfold edited_active, world_of. rewrite silent_super_offer.
  case_match; [apply silent_refl|].
  rewrite off_favorites, !andb_false_r. simpl.
  apply silent_with_offers.
Qed.

End switched_off.

Lemma precheck_app_init (e : env) (pl : payload) (ai : appInit) (p : post)
    (code : string) :
  precheck e pl = inr (ai, p, code) →
  app_init e = Some ai ∧ accept_incoming_requests ai = true.
Proof.
  unfold precheck. intros H.
  destruct (app_init e) as [ai0|]; simpl in H; [|done].
  destruct (accept_incoming_requests ai0) eqn:Ha; simpl in H; [|done].
  repeat case_match; by simplify_eq.
Qed.

(** X5.  No message without credentials or with the switches off: when
    the project id or the access token is missing, or when the
    application configuration has both [send_favorites_notifications]
    and [send_super_offers_notifications] off, handling an event
    journals no notification and adds no receipt (a retraction may still
    flag receipts as withdrawn). *)
Theorem no_message_when_switched_off (e : env) (w : world) (pl : payload) :
  have_creds e = false
  ∨ (∀ ai, app_init e = Some ai →
           send_favorites_notifications ai = false
           ∧ send_super_offers_notifications ai = false) →
  let w' := world_of (manageOffer e w pl) in
  notifications w' = notifications w
  ∧ receipt_key <$> users_notifications w'
    = receipt_key <$> users_notifications w.
Proof.
  intros Hoff. cbv zeta.
  assert (H : silent w (world_of (manageOffer e w pl))).
  { unfold manageOffer.
    destruct (precheck e pl) as [r|[[ai p] code]] eqn:Hp;
      [apply silent_refl|].
    destruct (precheck_app_init _ _ _ _ _ Hp) as [Hai _].
    assert (Hoff' : have_creds e = false
                    ∨ (send_favorites_notifications ai = false
                       ∧ send_super_offers_notifications ai = false)).
    { destruct Hoff as [?|Hoff]; [by left|right; by apply Hoff]. }
    unfold reconcile.
    repeat case_match;
      first [ apply grows_created_gone | apply grows_edited_gone
            | apply grows_deleted | by apply silent_created_active
            | by apply silent_edited_active | apply silent_refl ]. }
  by destruct H.
Qed.

Lemma no_message_when_switched_off_witness :
  have_creds without_project = false
  ∧ notifications
      (world_of (manageOffer without_project favorited_world
                   (event "POST_EDITED" headphones)))
    = notifications favorited_world.
Proof.
  split; [reflexivity|].
  refine (proj1 (no_message_when_switched_off without_project
                   favorited_world (event "POST_EDITED" headphones) _)).
  left. reflexivity.
Defined.

(** ** What an active event leaves in the table *)

Lemma put_string_ne (c k : string) (x : field string)
    (m : gmap string sqlval) :
  c ≠ k → put_string c x m !! k = m !! k.
Proof.
  intros. unfold put_string. case_match; try done.
  by rewrite lookup_insert_ne.
Qed.

Lemma put_number_ne (c k : string) (x : field Z) (m : gmap string sqlval) :
  c ≠ k → put_number c x m !! k = m !! k.
Proof.
  intros. unfold put_number. case_match; try done.
  by rewrite lookup_insert_ne.
Qed.

Lemma put_bool_ne (c k : string) (x : field bool) (m : gmap string sqlval) :
  c ≠ k → put_bool c x m !! k = m !! k.
Proof.
  intros. unfold put_bool. case_match; try done.
  by rewrite lookup_insert_ne.
Qed.

Ltac through_puts :=
  repeat first [ rewrite put_string_ne by done
               | rewrite put_number_ne by done
               | rewrite put_bool_ne by done ].

Lemma insertOrUpdateOffer_columns (t : list offer_row) (row r : offer_row)
    (c : string) (v : sqlval) :
  r ∈ insertOrUpdateOffer t row → offer_id r = offer_id row →
  col row c = Some v → col r c = Some v.
Proof.
  unfold insertOrUpdateOffer. intros Hr Hid Hc.
  destruct (existsb (has_id (offer_id row)) t) eqn:Hex.
  - apply elem_of_lmap in Hr as (r0 & -> & _).
    rewrite update_row_id in Hid. unfold update_row.
    unfold has_id. rewrite bool_decide_true by done.
    unfold col. simpl. by apply lookup_union_Some_l.
  - apply elem_of_app in Hr as [Hr|Hr].
    + exfalso. apply list_elem_of_In in Hr.
      assert (existsb (has_id (offer_id row)) t = true); [|congruence].
      apply existsb_exists. exists r. split; [done|].
      unfold has_id. by apply bool_decide_eq_true.
    + apply list_elem_of_singleton in Hr. by subst.
Qed.

Lemma edited_post_flags (e : env) (pl : payload) (p : post) (c : context) :
  wasPreviouslyFlagged c = true → reports_gone p = false →
  post_is_deleted (edited_post e pl p c) = Val false
  ∧ post_is_expired (edited_post e pl p c) = Val false
  ∧ post_timestamp_expired (edited_post e pl p c) = Val (-1).
Proof.
  intros Hf Hg. unfold edited_post, restore. rewrite Hf.
  set (p' := stamp _ _).
  assert (Ha : isNowAvailable p' = true).
  { unfold reports_gone in Hg. apply orb_false_iff in Hg as [H1 H2].
    unfold isNowAvailable, p', stamp, keep_category, assignCategoryWithGroq,
      resolve_timestamp.
    repeat case_match; simpl; by rewrite ?H1, ?H2. }
  rewrite Ha. done.
Qed.

(** X6.  An edit restores a flagged offer: when the stored offer of the
    code is flagged expired or deleted and an EDITED event reports it
    available, the event is never outranked, the answer is 'edited' with
    the stored [offer_id], and afterwards the row of the offer has
    [is_deleted = false], [is_expired = false] and
    [timestamp_expired = -1]. *)
Theorem edit_restores_flagged_offer (e : env) (w : world) (pl : payload)
    (ai : appInit) (p : post) (code : string) (ex : offer_row) :
  precheck e pl = inr (ai, p, code) →
  kind pl = "POST_EDITED" →
  reports_gone p = false →
  getOfferByCode (offers w) code = Some ex →
  row_flag ex "is_expired" || row_flag ex "is_deleted" = true →
  response_of (manageOffer e w pl) = Ok200 "edited" None (Some (offer_id ex))
  ∧ (∃ r, r ∈ offers_after e w pl ∧ offer_id r = offer_id ex)
  ∧ ∀ r, r ∈ offers_after e w pl → offer_id r = offer_id ex →
         col r "is_deleted" = Some (SBool false)
         ∧ col r "is_expired" = Some (SBool false)
         ∧ col r "timestamp_expired" = Some (SInt (-1)).
Proof.
  intros Hp Hk Hg Hex Hfl.
  destruct (resolve_existing w p code ex Hex) as (Hid & _ & _ & Hexi).
  cbv zeta in Hid, Hexi.
  assert (Hact : active_event pl p = true).
  { unfold active_event. by rewrite Hk, Hg. }
  assert (Hed : is_edit pl = true) by (unfold is_edit; by rewrite Hk).
  assert (Hout : outranked (resolve w p code) = false).
  { unfold outranked. rewrite (resolve_active w p code ex Hex).
    apply orb_prop in Hfl as [->| ->]; by rewrite ?andb_false_r. }
  pose proof (manageOffer_active e w pl ai p code Hp Hact) as H.
  cbv zeta in H. rewrite Hout, Hed, Hid in H.
  destruct H as (Hoff & Hresp & _).
  split; [done|].
  set (row := persisted_row e pl p (resolve w p code)) in *.
  assert (Hrid : offer_id row = offer_id ex) by (by rewrite <- Hid).
  split.
  { destruct (insertOrUpdateOffer_has_row (offers w) row) as (r & Hr & Hr').
    exists r. rewrite Hoff. split; [done|congruence]. }
  intros r Hr Hrx. rewrite Hoff in Hr.
  assert (Hw : wasPreviouslyFlagged (resolve w p code) = true).
  { unfold wasPreviouslyFlagged. by rewrite Hexi. }
  destruct (edited_post_flags e pl p (resolve w p code) Hw Hg)
    as (H1 & H2 & H3).
  assert (Hcols : col row "is_deleted" = Some (SBool false)
                  ∧ col row "is_expired" = Some (SBool false)
                  ∧ col row "timestamp_expired" = Some (SInt (-1))).
  { unfold row, persisted_row. rewrite Hed.
    unfold build_row, buildRowFromPost, col. cbn [cols].
    rewrite H1, H2, H3.
    split; [|split]; through_puts; simpl; by rewrite lookup_insert_eq. }
  destruct Hcols as (C1 & C2 & C3).
  assert (Hrr : offer_id r = offer_id row) by congruence.
  split; [|split];
    by apply (insertOrUpdateOffer_columns (offers w) row r).
Qed.

Lemma edit_restores_flagged_offer_witness :
  precheck open_env (event "POST_EDITED" headphones)
  = inr (all_on, headphones, "C1")
  ∧ kind (event "POST_EDITED" headphones) = "POST_EDITED"
  ∧ reports_gone headphones = false
  ∧ getOfferByCode (offers flagged_world) "C1" = Some flagged_row
  ∧ row_flag flagged_row "is_expired" || row_flag flagged_row "is_deleted"
    = true
  ∧ response_of (manageOffer open_env flagged_world
                   (event "POST_EDITED" headphones))
    = Ok200 "edited" None (Some "o1").
Proof.
  assert (H1 : precheck open_env (event "POST_EDITED" headphones)
               = inr (all_on, headphones, "C1")) by reflexivity.
  assert (H2 : kind (event "POST_EDITED" headphones) = "POST_EDITED")
    by reflexivity.
  assert (H3 : reports_gone headphones = false) by reflexivity.
  assert (H4 : getOfferByCode (offers flagged_world) "C1"
               = Some flagged_row) by (by vm_compute).
  assert (H5 : row_flag flagged_row "is_expired"
               || row_flag flagged_row "is_deleted" = true)
    by (by vm_compute).
  split; [exact H1|]. split; [exact H2|]. split; [exact H3|].
  split; [exact H4|]. split; [exact H5|].
  exact (proj1 (edit_restores_flagged_offer open_env flagged_world
                  (event "POST_EDITED" headphones) all_on headphones "C1"
                  flagged_row H1 H2 H3 H4 H5)).
Defined.

Lemma determineMainCategory_main (x : field string) :
  determineMainCategory x ∈ fst <$> subCategoriesMap.
Proof.
  assert (Ha : "Altro" ∈ fst <$> subCategoriesMap).
  { refine (bool_decide_unpack _ _). by vm_compute. }
  unfold determineMainCategory.
  destruct x as [| |c]; try done.
  destruct (truthy_str c); [|done].
  destruct (List.find _ subCategoriesMap) as [en|] eqn:Hf; [|done].
  apply find_some in Hf as [Hin _].
  apply list_elem_of_fmap. exists en. split; [done|].
  by apply list_elem_of_In.
Qed.

Lemma is_daily_channel_rank (channel : string) :
  is_daily_channel channel = bool_decide (getChannelPriority channel < 3).
Proof.
  unfold is_daily_channel, getChannelPriority.
  destruct (String.eqb channel "-1001305107383");
    destruct (String.eqb channel "-1001207516682"); done.
Qed.

Lemma persisted_post_stamps (e : env) (pl : payload) (p : post)
    (c : context) :
  let p' := if is_edit pl then edited_post e pl p c
            else created_post e pl p c in
  post_daily_offer p' = Val (is_daily_channel (channelId c))
  ∧ ∃ x, post_main_category p' = Val (determineMainCategory x).
Proof.
  cbv zeta.
  unfold edited_post, created_post, restore, stamp.
  repeat case_match; simpl; eauto.
Qed.

(** X7.  What an active event writes: when a CREATED or EDITED event that
    reports the offer available is not outranked, every row of the
    resolved offer afterwards carries the code of the event, a
    [timestamp], [daily_offer] set exactly when the reporting channel
    has rank 1 or 2, and a [main_category] that is one of the ten main
    categories of [determineMainCategory]. *)
Theorem stored_row_is_stamped (e : env) (w : world) (pl : payload)
    (ai : appInit) (p : post) (code : string) :
  precheck e pl = inr (ai, p, code) →
  active_event pl p = true →
  outranked (resolve w p code) = false →
  let c := resolve w p code in
  (∃ r, r ∈ offers_after e w pl ∧ offer_id r = docIdToUse c)
  ∧ ∀ r, r ∈ offers_after e w pl → offer_id r = docIdToUse c →
         col r "code" = Some (SText code)
         ∧ (∃ ts, col r "timestamp" = Some (SInt ts))
         ∧ col r "daily_offer"
           = Some (SBool (bool_decide (newPriority c < 3)))
         ∧ ∃ m, col r "main_category" = Some (SText m)
                ∧ m ∈ fst <$> subCategoriesMap.
Proof.
  intros Hp Hact Hout. cbv zeta.
  pose proof (manageOffer_active e w pl ai p code Hp Hact) as H.
  cbv zeta in H. rewrite Hout in H. destruct H as (Hoff & _).
  set (c := resolve w p code) in *.
  set (row := persisted_row e pl p c) in *.
  destruct (precheck_passed _ _ _ _ _ Hp) as (Hcode & _).
  destruct (persisted_row_code e pl p c code Hcode) as [Hrc Hrid].
  fold row in Hrc, Hrid.
  split.
  { destruct (insertOrUpdateOffer_has_row (offers w) row) as (r & Hr & Hr').
    exists r. rewrite Hoff. split; [done|congruence]. }
  intros r Hr Hid. rewrite Hoff in Hr.
  assert (Hrr : offer_id r = offer_id row) by congruence.
  destruct (persisted_post_stamps e pl p c) as (Hd & x & Hm).
  assert (Hts : ∃ ts, col row "timestamp" = Some (SInt ts)).
  { unfold row, persisted_row, build_row, buildRowFromPost, col. cbn [cols].
    through_puts. rewrite lookup_insert_eq. eauto. }
  assert (Hdo : col row "daily_offer"
                = Some (SBool (is_daily_channel (channelId c)))).
  { unfold row, persisted_row, build_row, buildRowFromPost, col. cbn [cols].
    rewrite Hd. through_puts. simpl. rewrite lookup_insert_eq.
    by destruct (is_daily_channel _). }
  assert (Hmc : col row "main_category"
                = Some (SText (determineMainCategory x))).
  { unfold row, persisted_row, build_row, buildRowFromPost, col. cbn [cols].
    rewrite Hm. through_puts. simpl. by rewrite lookup_insert_eq. }
  destruct Hts as [ts Hts].
  split; [by apply (insertOrUpdateOffer_columns (offers w) row r)|].
  split; [exists ts; by apply (insertOrUpdateOffer_columns (offers w) row r)|].
  split.
  - change (newPriority c) with (getChannelPriority (channelId c)).
    rewrite <- is_daily_channel_rank.
    by apply (insertOrUpdateOffer_columns (offers w) row r).
  - exists (determineMainCategory x).
    split; [by apply (insertOrUpdateOffer_columns (offers w) row r)|].
    apply determineMainCategory_main.
Qed.

Lemma stored_row_is_stamped_witness :
  precheck open_env (event "POST_CREATED" headphones)
  = inr (all_on, headphones, "C1")
  ∧ active_event (event "POST_CREATED" headphones) headphones = true
  ∧ outranked (resolve quiet_world headphones "C1") = false
  ∧ ∃ r, r ∈ offers_after open_env quiet_world
               (event "POST_CREATED" headphones)
         ∧ offer_id r = docIdToUse (resolve quiet_world headphones "C1").
Proof.
  assert (H1 : precheck open_env (event "POST_CREATED" headphones)
               = inr (all_on, headphones, "C1")) by reflexivity.
  assert (H2 : active_event (event "POST_CREATED" headphones) headphones
               = true) by reflexivity.
  assert (H3 : outranked (resolve quiet_world headphones "C1") = false)
    by (by vm_compute).
  split; [exact H1|]. split; [exact H2|]. split; [exact H3|].
  exact (proj1 (stored_row_is_stamped open_env quiet_world
                  (event "POST_CREATED" headphones) all_on headphones "C1"
                  H1 H2 H3)).
Defined.

(** X8.  The handler keeps the table well formed: [offer_id] stays a key
    of [offers], rows of one code keep carrying one [offer_id], and no
    row gets an empty [offer_id], whatever the event and whatever the
    collaborators answer. *)
Theorem handler_keeps_table_invariants (e : env) (w : world)
    (pl : payload) :
  keyed (offers w) → one_offer_per_code (offers w) →
  (∀ r, r ∈ offers w → offer_id r ≠ "") →
  keyed (offers_after e w pl)
  ∧ one_offer_per_code (offers_after e w pl)
  ∧ ∀ r, r ∈ offers_after e w pl → offer_id r ≠ "".
Proof.
  intros Hk Ho Hn.
  destruct (manageOffer_invariant e w pl Hk Ho) as [H1 H2].
  split; [done|]. split; [done|].
  by apply manageOffer_ids_nonempty.
Qed.

Lemma handler_keeps_table_invariants_witness :
  keyed (offers quiet_world)
  ∧ one_offer_per_code (offers quiet_world)
  ∧ (∀ r, r ∈ offers quiet_world → offer_id r ≠ "")
  ∧ keyed (offers_after open_env quiet_world
             (event "POST_CREATED" headphones)).
Proof.
  assert (H1 : keyed (offers quiet_world)).
  { apply NoDup_singleton. }
  assert (H2 : one_offer_per_code (offers quiet_world)).
  { intros c r1 r2 Hr1 Hr2 _ _.
    apply list_elem_of_singleton in Hr1, Hr2. by subst. }
  assert (H3 : ∀ r, r ∈ offers quiet_world → offer_id r ≠ "").
  { intros r Hr. apply list_elem_of_singleton in Hr. by subst. }
  split; [exact H1|]. split; [exact H2|]. split; [exact H3|].
  exact (proj1 (handler_keeps_table_invariants open_env quiet_world
                  (event "POST_CREATED" headphones) H1 H2 H3)).
Defined.

(** ** Retraction *)

Lemma select_receipts_elem (w : world) (sel : notification_row -> bool)
    (r : withdraw_row) :
  r ∈ select_receipts w sel →
  ∃ n un, n ∈ notifications w ∧ sel n = true
          ∧ un ∈ users_notifications w
          ∧ un_notification_id un = Some (n_id n)
          ∧ not_withdrawn un = true
          ∧ wr_notification_id r = n_id n ∧ wr_uid r = un_uid un.
Proof.
  unfold select_receipts. intros H.
  apply list_elem_of_bind in H as (n & H & Hn).
  apply elem_of_lfilter in Hn as [Hn Hsel].
  apply list_elem_of_bind in H as (un & H & Hun).
  apply elem_of_lfilter in Hun as [Hun Hc].
  apply andb_prop in Hc as [Hid Hnw]. apply bool_decide_eq_true in Hid.
  exists n, un. repeat (split; [done|]).
  unfold join_user in H.
  destruct (List.filter _ (users w)) as [|u us] eqn:Hf.
  - apply list_elem_of_singleton in H. by subst.
  - apply elem_of_lmap in H as (u' & -> & _). done.
Qed.

(** X9.  Withdrawing twice withdraws once: after a successful
    [withdrawNotificationsForOffer(offerId)] no receipt of the offer is
    left to select, so a second call finds no row, updates nothing and
    leaves the tables as they are. *)
Theorem withdrawal_is_idempotent (w : world) (offerId : string) :
  let w1 := (withdrawNotificationsForOffer true w offerId).2 in
  withdrawNotificationsForOffer true w1 offerId
  = (Some {| updated := 0; rows := []; notificationIds := [] |}, w1).
Proof.
  cbv zeta. unfold withdrawNotificationsForOffer.
  set (sel := fun n => bool_decide (n_offer_id n = Some offerId)).
  set (w1 := (withdraw_where true w sel).2).
  assert (Hn : notifications w1 = notifications w).
  { by destruct (withdraw_where_frame true w sel) as [_ ?]. }
  assert (He : select_receipts w1 sel = []).
  { apply elem_of_nil_inv. intros r Hr.
    apply select_receipts_elem in Hr
      as (n & un & Hnin & Hsel & Hun & Hid & Hnw & _).
    rewrite Hn in Hnin.
    pose proof (withdraw_where_effect w sel n un Hnin Hsel Hun Hid) as Hw.
    unfold not_withdrawn in Hnw. by rewrite Hw in Hnw. }
  unfold withdraw_where at 1. by rewrite He.
Qed.





(** ** The retraction of an offer: when it throws, and what that costs *)







(** ** Favoriters, preferences and the journal *)

Lemma lfilter_sublist {A} (f : A -> bool) (l : list A) :
  List.filter f l `sublist_of` l.
Proof.
  induction l as [|x l IH]; simpl; [constructor|].
  destruct (f x); by constructor.
Qed.

Lemma findFavoritersByOffer_NoDup (favs : list favorite_row)
    (offerId : string) (altOfferId : option string) :
  NoDup (findFavoritersByOffer favs offerId altOfferId).
Proof.
  unfold findFavoritersByOffer.
  eapply sublist_NoDup; [apply set_to_array_NoDup|apply lfilter_sublist].
Qed.

Lemma findFavoritersByOffer_elem (favs : list favorite_row)
    (offerId : string) (altOfferId : option string) (uid : string) :
  uid ∈ findFavoritersByOffer favs offerId altOfferId ↔
  uid ≠ ""
  ∧ ∃ f, f ∈ favs ∧ fav_uid f = uid ∧ fav_type f = "offer"
         ∧ (fav_key f = offerId
            ∨ (altOfferId = Some (fav_key f) ∧ fav_key f ≠ "")).
Proof.
  unfold findFavoritersByOffer.
  rewrite elem_of_lfilter, set_to_array_elem, elem_of_lmap.
  assert (Ht : truthy_str uid = true ↔ uid ≠ "") by (by destruct uid).
  rewrite Ht. split.
  - intros ((f & -> & Hf) & Hne). split; [done|].
    apply elem_of_lfilter in Hf as [Hf Hc].
    apply andb_prop in Hc as [Hty Hk].
    apply String.eqb_eq in Hty. apply bool_decide_eq_true in Hk.
    exists f. repeat (split; [done|]).
    destruct altOfferId as [alt|].
    + destruct (truthy_str alt && negb (String.eqb alt offerId)) eqn:Ha.
      * apply andb_prop in Ha as [Ha _].
        apply elem_of_cons in Hk as [Hk|Hk]; [by left|].
        apply list_elem_of_singleton in Hk. right. subst alt.
        split; [done|by destruct (fav_key f)].
      * apply list_elem_of_singleton in Hk. by left.
    + apply list_elem_of_singleton in Hk. by left.
  - intros (Hne & f & Hf & Hu & Hty & Hk). split; [|done].
    exists f. split; [done|]. apply elem_of_lfilter. split; [done|].
    apply andb_true_intro. split; [by apply String.eqb_eq|].
    apply bool_decide_eq_true.
    destruct Hk as [Hk|[-> Hk]].
    + rewrite Hk. destruct altOfferId as [alt|]; [|apply list_elem_of_here].
      destruct (_ && _); apply list_elem_of_here.
    + assert (truthy_str (fav_key f) = true) as ->
        by (by destruct (fav_key f)).
      simpl. destruct (String.eqb (fav_key f) offerId) eqn:He; simpl.
      * apply String.eqb_eq in He. rewrite He. apply list_elem_of_here.
      * apply list_elem_of_further, list_elem_of_here.
Qed.

(** X12.  Who holds an offer: [findFavoritersByOffer] answers each user
    once, never the empty user id, and exactly the users with a favorite
    of type 'offer' whose key is the offer id, or the alternative id
    when one is given that is not empty. *)
Theorem favoriters_are_the_holders (favs : list favorite_row)
    (offerId : string) (altOfferId : option string) :
  NoDup (findFavoritersByOffer favs offerId altOfferId)
  ∧ ∀ uid, uid ∈ findFavoritersByOffer favs offerId altOfferId ↔
           uid ≠ ""
           ∧ ∃ f, f ∈ favs ∧ fav_uid f = uid ∧ fav_type f = "offer"
                  ∧ (fav_key f = offerId
                     ∨ (altOfferId = Some (fav_key f) ∧ fav_key f ≠ "")).
Proof.
  split; [apply findFavoritersByOffer_NoDup|].
  intros uid. apply findFavoritersByOffer_elem.
Qed.

Lemma notifyUsersAboutOffer_journal (now : Z) (fcm : provider) (w : world)
    (userIds : list string) (p : post) (offerId : string)
    (opts : notify_options) :
  ∃ n, n ∈ notifications
             (notifyUsersAboutOffer now fcm w userIds p offerId opts).2
       ∧ n_offer_id n = Some offerId ∧ n_created_at n = now.
Proof.
  unfold notifyUsersAboutOffer.
  destruct (insert_notification w _) as [nid w1] eqn:Hi.
  assert (Hin : ∃ n, n ∈ notifications w1 ∧ n_offer_id n = Some offerId
                     ∧ n_created_at n = now).
  { unfold insert_notification in Hi. injection Hi as <- <-. simpl.
    eexists. split; [apply elem_of_app; right; apply list_elem_of_here|].
    done. }
  destruct Hin as (n & Hn & Ho & Hc).
  exists n. split; [|done].
  destruct (fulfilled_values _) as [|u l]; [done|].
  cbn [snd].
  destruct (grows_createFirestoreNotificationDoc now w1 offerId (u :: l)
              "favorites") as [_ _ [k Hk] _].
  destruct (truthy_num nid); unfold with_receipts; cbn [notifications];
    rewrite Hk; apply elem_of_app; by left.
Qed.

(** X13.  A fan-out marks the offer as notified, delivered or not:
    [notifyUsersAboutOffer] journals the notification before it sends,
    so for seven days from the fan-out [hasOfferBeenNotified] answers
    true for the offer, also when no user could be reached. *)
Theorem fanout_marks_offer_notified (now later : Z) (fcm : provider)
    (w : world) (userIds : list string) (p : post) (offerId : string)
    (opts : notify_options) :
  later - seven_days < now →
  hasOfferBeenNotified later
    (notifications
       (notifyUsersAboutOffer now fcm w userIds p offerId opts).2)
    offerId = true.
Proof.
  intros Hl.
  destruct (notifyUsersAboutOffer_journal now fcm w userIds p offerId opts)
    as (n & Hn & Ho & Hc).
  unfold hasOfferBeenNotified. apply existsb_exists.
  exists n. split; [by apply list_elem_of_In|].
  rewrite Ho, Hc. rewrite bool_decide_true by done. simpl.
  by apply Z.ltb_lt.
Qed.

Lemma fanout_marks_offer_notified_witness :
  5000 - seven_days < 5000
  ∧ hasOfferBeenNotified 5000
      (notifications
         (notifyUsersAboutOffer 5000 all_rejected quiet_world ["u1"]
            headphones "o1" (heart false)).2)
      "o1" = true.
Proof.
  assert (H : 5000 - seven_days < 5000) by (by vm_compute).
  split; [exact H|].
  exact (fanout_marks_offer_notified 5000 5000 all_rejected quiet_world
           ["u1"] headphones "o1" (heart false) H).
Defined.

(** X14.  The preference check reads two stored flags only: for a user
    of the table, [shouldSendNotification(getUserPreferences(uid), t)]
    is true exactly when the user row has [favorites_products = true]
    (for a product match) or [favorites_searches = true] (for a keyword
    match); the switches [push], [new_offers] and [favorites.enabled]
    are derived from the same flags and never veto on their own.  A user
    who is not in the table is never notified. *)
Theorem preference_gate_reads_stored_flag (us : list user_row)
    (uid : string) (t : match_type) :
  shouldSendNotification (getUserPreferences us uid) t = true ↔
  ∃ row, user_by_uid us uid = Some row
         ∧ match t with
           | MProduct => u_favorites_products row = Some true
           | MKeyword => u_favorites_searches row = Some true
           end.
Proof.
  unfold shouldSendNotification, getUserPreferences.
  destruct (user_by_uid us uid) as [row|];
    [|split; [done|by intros (? & ? & _)]].
  cbn [notifications_push notifications_new_offers favorites_enabled
       favorites_products favorites_searches].
  split.
  - intros H. exists row. split; [done|].
    destruct t, (u_superoffers row) as [[|]|],
      (u_favorites_products row) as [[|]|],
      (u_favorites_searches row) as [[|]|]; done.
  - intros (row' & [= <-] & H).
    destruct t; rewrite H; simpl;
      destruct (u_superoffers row) as [[|]|];
      try destruct (u_favorites_products row) as [[|]|];
      try destruct (u_favorites_searches row) as [[|]|]; done.
Qed.

(** ** The offers table *)

Lemma sorts_before_trans (a b c : offer_row) :
  sorts_before a b = true → sorts_before b c = true →
  sorts_before a c = true.
Proof.
  unfold sorts_before.
  destruct (col a "timestamp") as [[]|], (col b "timestamp") as [[]|],
    (col c "timestamp") as [[]|]; try done.
  rewrite !Z.ltb_lt. lia.
Qed.

Lemma sorts_before_cotrans (a b c : offer_row) :
  sorts_before a c = true →
  sorts_before a b = true ∨ sorts_before b c = true.
Proof.
  unfold sorts_before.
  destruct (col a "timestamp") as [[]|], (col b "timestamp") as [[]|],
    (col c "timestamp") as [[]|]; try done; eauto.
  rewrite !Z.ltb_lt. lia.
Qed.

Lemma pick_first_newest (l : list offer_row) (b x : offer_row) :
  foldl pick_first (Some b) l = Some x →
  sorts_before b x = false
  ∧ ∀ r, r ∈ l → sorts_before r x = false.
Proof.
  revert b. induction l as [|y l IH]; intros b; simpl.
  - intros [= ->]. split.
    + unfold sorts_before. repeat case_match; try done. apply Z.ltb_irrefl.
    + by intros r Hr%elem_of_nil.
  - destruct (sorts_before y b) eqn:Hyb; intros H.
    + destruct (IH _ H) as [Hy Hl]. split.
      * destruct (sorts_before b x) eqn:Hbx; [|done].
        by rewrite (sorts_before_trans y b x Hyb Hbx) in Hy.
      * intros r [->|Hr]%elem_of_cons; eauto.
    + destruct (IH _ H) as [Hb Hl]. split; [done|].
      intros r [->|Hr]%elem_of_cons; [|eauto].
      destruct (sorts_before y x) eqn:Hyx; [|done].
      destruct (sorts_before_cotrans y b x Hyx); congruence.
Qed.

(** X15.  The lookup by code answers the newest row: the row
    [getOfferByCode] returns is a row of the table with that code, and
    no row of the code sorts before it in the order of the query
    (descending [timestamp], a missing one first); it answers nothing
    exactly when the table has no row of the code. *)
Theorem lookup_by_code_is_newest (t : list offer_row) (c : string) :
  match getOfferByCode t c with
  | Some ex =>
      ex ∈ t ∧ has_code c ex = true
      ∧ ∀ r, r ∈ t → has_code c r = true → sorts_before r ex = false
  | None => ∀ r, r ∈ t → has_code c r = false
  end.
Proof.
  destruct (getOfferByCode t c) as [ex|] eqn:H.
  - destruct (getOfferByCode_Some t c ex H) as [Hin Hc].
    split; [done|]. split; [done|].
    intros r Hr Hrc. unfold getOfferByCode in H.
    assert (Hf : r ∈ List.filter (has_code c) t)
      by (by apply elem_of_lfilter).
    destruct (List.filter (has_code c) t) as [|b l]; [done|].
    simpl in H. destruct (pick_first_newest l b ex H) as [Hb Hl].
    apply elem_of_cons in Hf as [->|Hf]; eauto.
  - apply getOfferByCode_None in H. intros r Hr.
    destruct (has_code c r) eqn:Hc; [|done].
    assert (Hf : r ∈ List.filter (has_code c) t)
      by (by apply elem_of_lfilter).
    rewrite H in Hf. by apply elem_of_nil in Hf.
Qed.

Lemma find_has_id_Some (t : list offer_row) (id : string) (r : offer_row) :
  getOfferById t id = Some r → r ∈ t ∧ offer_id r = id.
Proof.
  unfold getOfferById. intros H. apply find_some in H as [Hin Hid].
  split; [by apply list_elem_of_In|].
  unfold has_id in Hid. by apply bool_decide_eq_true in Hid.
Qed.

Lemma find_has_id_None (t : list offer_row) (id : string) :
  getOfferById t id = None ↔ ∀ r, r ∈ t → offer_id r ≠ id.
Proof.
  unfold getOfferById. split.
  - intros H r Hr Hid. apply list_elem_of_In in Hr.
    pose proof (find_none _ _ H r Hr) as Hn.
    unfold has_id in Hn. by rewrite bool_decide_true in Hn.
  - intros H. destruct (List.find (has_id id) t) as [r|] eqn:Hf; [|done].
    apply find_some in Hf as [Hin Hid]. exfalso.
    apply (H r); [by apply list_elem_of_In|].
    unfold has_id in Hid. by apply bool_decide_eq_true in Hid.
Qed.

(** X16.  What is written reads back: after [insertOrUpdateOffer(row)]
    the lookup by the id of the row finds a row, and that row carries
    every column of [row] with the value written; the columns [row] does
    not mention keep the value they had, and no other offer changes. *)
Theorem written_row_reads_back (t : list offer_row) (row : offer_row) :
  (∃ r, getOfferById (insertOrUpdateOffer t row) (offer_id row) = Some r
        ∧ (∀ c v, col row c = Some v → col r c = Some v)
        ∧ (∀ c old, col row c = None →
                    getOfferById t (offer_id row) = Some old →
                    col r c = col old c))
  ∧ ∀ id, id ≠ offer_id row →
          getOfferById (insertOrUpdateOffer t row) id = getOfferById t id.
Proof.
  split.
  - destruct (getOfferById (insertOrUpdateOffer t row) (offer_id row))
      as [r|] eqn:Hf.
    + exists r. split; [done|].
      destruct (find_has_id_Some _ _ _ Hf) as [Hin Hid]. split.
      * intros c v. by apply (insertOrUpdateOffer_columns t row r).
      * intros c old Hc Hold.
        destruct (find_has_id_Some _ _ _ Hold) as [Ho Hoid].
        rewrite (insertOrUpdateOffer_existing t row old Ho Hoid) in Hf.
        unfold getOfferById in Hf, Hold. clear Hin Ho Hoid.
        induction t as [|x t IH]; simpl in *; [done|].
        unfold update_row at 1 in Hf.
        destruct (has_id (offer_id row) x) eqn:Hx.
        -- unfold has_id in Hf, Hx. simpl in Hf. rewrite Hx in Hf.
           injection Hf as <-. injection Hold as <-.
           unfold col in *. unfold update_row, has_id. rewrite Hx.
           simpl. by rewrite lookup_union_r.
        -- rewrite ?Hx in Hf. by apply IH.
    + exfalso. destruct (insertOrUpdateOffer_has_row t row) as (r & Hr & Hid).
      rewrite find_has_id_None in Hf. by apply (Hf r).
  - intros id Hne. unfold insertOrUpdateOffer, getOfferById.
    destruct (existsb (has_id (offer_id row)) t).
    + induction t as [|x t IH]; simpl; [done|].
      rewrite <- IH. unfold has_id at 1 3. rewrite update_row_id.
      destruct (bool_decide (offer_id x = id)) eqn:Hx; [|done].
      apply bool_decide_eq_true in Hx.
      unfold update_row, has_id. rewrite bool_decide_false by congruence.
      done.
    + induction t as [|x t IH]; simpl.
      * unfold has_id. by rewrite bool_decide_false.
      * by rewrite IH.
Qed.

(** X17.  A hard delete removes the offer and nothing else: afterwards
    the lookup by the deleted id finds nothing, the lookup by any other
    id answers what it answered before, and deleting again changes
    nothing. *)
Theorem hard_delete_removes_only_the_offer (t : list offer_row)
    (id : string) :
  getOfferById (hardDeleteOffer t id) id = None
  ∧ (∀ id', id' ≠ id →
            getOfferById (hardDeleteOffer t id) id' = getOfferById t id')
  ∧ hardDeleteOffer (hardDeleteOffer t id) id = hardDeleteOffer t id.
Proof.
  split; [|split].
  - apply find_has_id_None. intros r Hr.
    by apply hardDeleteOffer_elem in Hr as [_ ?].
  - intros id' Hne. unfold hardDeleteOffer, getOfferById.
    induction t as [|x t IH]; simpl; [done|].
    destruct (has_id id x) eqn:Hx; simpl; rewrite IH; [|done].
    unfold has_id in Hx |- *. apply bool_decide_eq_true in Hx.
    by rewrite bool_decide_false by congruence.
  - apply hardDeleteOffer_absent. intros r Hr.
    by apply hardDeleteOffer_elem in Hr as [_ ?].
Qed.

Lemma has_id_mark_row (k id : string) (ts : Z) (r : offer_row) :
  has_id k (mark_row id ts r) = has_id k r.
Proof. unfold has_id. by rewrite mark_row_id. Qed.

Lemma mark_row_twice (id : string) (ts : Z) (r : offer_row) :
  mark_row id ts (mark_row id ts r) = mark_row id ts r.
Proof.
  unfold mark_row at 1. rewrite has_id_mark_row. unfold mark_row.
  destruct (has_id id r); [|done]. simpl. f_equal.
  apply map_eq. intros k.
  destruct (decide (k = "is_deleted")) as [->|];
    [|destruct (decide (k = "is_expired")) as [->|];
      [|destruct (decide (k = "timestamp_expired")) as [->|]]];
    repeat first [ rewrite lookup_insert_eq
                 | rewrite lookup_insert_ne by done ];
    done.
Qed.

(** X18.  A soft delete loses no data: after [markOfferDeleted(id, ts)]
    the lookup by [id] still finds the offer, with every column other
    than [is_deleted], [is_expired] and [timestamp_expired] as it was;
    the lookup by another id answers what it answered before; marking
    again with the same expiry changes nothing. *)
Theorem soft_delete_keeps_the_row (now : Z) (t : list offer_row)
    (id : string) (ts : option Z) :
  (∀ old, getOfferById t id = Some old →
     ∃ r, getOfferById (markOfferDeleted now t id ts) id = Some r
          ∧ ∀ c, c ≠ "is_deleted" → c ≠ "is_expired" →
                 c ≠ "timestamp_expired" → col r c = col old c)
  ∧ (∀ id', id' ≠ id →
            getOfferById (markOfferDeleted now t id ts) id'
            = getOfferById t id')
  ∧ markOfferDeleted now (markOfferDeleted now t id ts) id ts
    = markOfferDeleted now t id ts.
Proof.
  unfold markOfferDeleted, getOfferById. split; [|split].
  - intros old Hold. exists (mark_row id (default (nowMs now) ts) old).
    split.
    + induction t as [|x t IH]; simpl in *; [done|].
      rewrite has_id_mark_row.
      destruct (has_id id x); [congruence|by apply IH].
    + intros c H1 H2 H3. unfold mark_row.
      destruct (has_id id old); [|done].
      unfold col. simpl. by rewrite !lookup_insert_ne.
  - intros id' Hne. induction t as [|x t IH]; simpl; [done|].
    rewrite has_id_mark_row, IH.
    destruct (has_id id' x) eqn:Hx; [|done].
    unfold has_id in Hx. apply bool_decide_eq_true in Hx.
    unfold mark_row, has_id. by rewrite bool_decide_false by congruence.
  - induction t as [|x t IH]; simpl; [done|].
    by rewrite IH, mark_row_twice.
Qed.

Lemma soft_delete_keeps_the_row_witness :
  getOfferById (offers quiet_world) "o1" = Some stored_row
  ∧ ∃ r, getOfferById (markOfferDeleted 5000 (offers quiet_world) "o1" None)
           "o1" = Some r
         ∧ ∀ c, c ≠ "is_deleted" → c ≠ "is_expired" →
                c ≠ "timestamp_expired" → col r c = col stored_row c.
Proof.
  assert (H : getOfferById (offers quiet_world) "o1" = Some stored_row)
    by reflexivity.
  split; [exact H|].
  exact (proj1 (soft_delete_keeps_the_row 5000 (offers quiet_world) "o1"
                  None) stored_row H).
Defined.

(** ** The match engine *)








(** ** The super-offer broadcast *)

Lemma journal_rows_added (now : Z) (offerId type : string)
    (l : list (option string)) (w : world) :
  let w' :=
    foldl (fun w uid =>
             snd (insert_notification w (fun id =>
               {| n_id := id; n_offer_id := Some offerId; n_title := None;
                  n_target := None; n_created_at := now; n_uid := uid;
                  n_type := Some type |})))
          w l in
  users_notifications w' = users_notifications w
  ∧ ∃ added, notifications w' = notifications w ++ added
             ∧ length added = length l
             ∧ ∀ n, n ∈ added →
                    n_offer_id n = Some offerId ∧ n_type n = Some type
                    ∧ n_created_at n = now ∧ n_uid n ∈ l.
Proof.
  cbv zeta. revert w. induction l as [|u l IH]; intros w; cbn [foldl].
  - split; [done|]. exists []. rewrite app_nil_r.
    split; [done|]. split; [done|]. by intros n ?%elem_of_nil.
  - destruct (IH (insert_notification w (fun id =>
               {| n_id := id; n_offer_id := Some offerId; n_title := None;
                  n_target := None; n_created_at := now; n_uid := u;
                  n_type := Some type |})).2)
      as (Hr & added & Hn & Hlen & Hall).
    split; [by rewrite Hr|].
    eexists (_ :: added). split; [|split].
    + rewrite Hn. simpl. by rewrite <- app_assoc.
    + simpl. by rewrite Hlen.
    + intros n [->|Hin]%elem_of_cons.
      * simpl. repeat (split; [done|]). apply list_elem_of_here.
      * destruct (Hall n Hin) as (? & ? & ? & ?).
        repeat (split; [done|]). by apply list_elem_of_further.
Qed.

(** X20.  The super-offer broadcast reaches subscribers only and leaves
    no receipt: [sendSuperOfferNotification] writes no row of
    [users_notifications]; every row it adds to the journal is of type
    'superoffer', for the offer, and names a user whose row has
    [superoffers = true] and a device token; with no such user nothing
    is journalled at all. *)
Theorem super_offer_reaches_subscribers_only (now : Z) (fcm : provider)
    (w : world) (offerId : string) :
  let w' := sendSuperOfferNotification now fcm w offerId in
  users_notifications w' = users_notifications w
  ∧ ∃ added,
      notifications w' = notifications w ++ added
      ∧ (∀ n, n ∈ added →
           n_offer_id n = Some offerId ∧ n_type n = Some "superoffer"
           ∧ ∃ u, u ∈ users w ∧ n_uid n = Some (u_uid u)
                  ∧ u_superoffers u = Some true
                  ∧ is_Some (u_token_fcm u))
      ∧ ((∀ u, u ∈ users w → u_superoffers u = Some true →
               u_token_fcm u = None) →
         added = []).
Proof.
  cbv zeta. unfold sendSuperOfferNotification.
  set (sub := fun u => is_true (u_superoffers u)
                       && bool_decide (is_Some (u_token_fcm u))).
  destruct (List.filter sub (users w)) as [|r rs] eqn:Hrec.
  { split; [done|]. exists []. rewrite app_nil_r.
    split; [done|]. split; [by intros n ?%elem_of_nil|done]. }
  rewrite <- Hrec.
  set (results := imap _ (List.filter sub (users w))).
  assert (Hres : ∀ uid, Some uid ∈ results →
            ∃ u, u ∈ users w ∧ uid = u_uid u
                 ∧ u_superoffers u = Some true ∧ is_Some (u_token_fcm u)).
  { intros uid Hin. unfold results in Hin.
    apply elem_of_lookup_imap in Hin as (i & u & Heq & Hu).
    apply list_elem_of_lookup_2 in Hu.
    apply elem_of_lfilter in Hu as [Hu Hs]. unfold sub in Hs.
    apply andb_prop in Hs as [Hs Ht]. apply bool_decide_eq_true in Ht.
    exists u. split; [done|].
    destruct (fcm i _); simplify_eq. split; [done|].
    split; [|done]. unfold is_true in Hs.
    by destruct (u_superoffers u) as [[|]|]. }
  destruct (fulfilled_values results) as [|v vs] eqn:Hv.
  { split; [done|]. exists []. rewrite app_nil_r.
    split; [done|]. split; [by intros n ?%elem_of_nil|done]. }
  rewrite <- Hv. unfold createFirestoreNotificationDoc.
  destruct (journal_rows_added now offerId "superoffer"
              (match fulfilled_values results with
               | [] => [None]
               | _ :: _ => List.map Some (fulfilled_values results)
               end) w) as (Hr & added & Hn & _ & Hall).
  split; [exact Hr|]. exists added. split; [exact Hn|]. split.
  - intros n Hin. destruct (Hall n Hin) as (Ho & Hty & _ & Hu).
    split; [done|]. split; [done|].
    rewrite Hv in Hu. rewrite <- Hv in Hu.
    apply elem_of_lmap in Hu as (uid & Hnu & Huid).
    apply fulfilled_values_elem in Huid as [Huid _].
    destruct (Hres uid Huid) as (u & ? & -> & ? & ?). eauto.
  - intros Hno. exfalso.
    assert (Hr0 : r ∈ List.filter sub (users w))
      by (rewrite Hrec; apply list_elem_of_here).
    apply elem_of_lfilter in Hr0 as [Hr0 Hs]. unfold sub in Hs.
    apply andb_prop in Hs as [Hs Ht]. apply bool_decide_eq_true in Ht.
    rewrite (Hno r Hr0) in Ht; [by destruct Ht|].
    unfold is_true in Hs. by destruct (u_superoffers r) as [[|]|].
Qed.

(** ** The inbox *)

Lemma lfilter_length_ext {A B} (P : B -> bool) (P' : A -> bool)
    (f : A -> B) (l : list A) :
  (∀ x, x ∈ l → P (f x) = P' x) →
  length (List.filter P (List.map f l)) = length (List.filter P' l).
Proof.
  induction l as [|x l IH]; intros H; simpl; [done|].
  rewrite (H x) by apply list_elem_of_here.
  specialize (IH (fun y Hy => H y (list_elem_of_further _ _ _ Hy))).
  destruct (P' x); simpl; by rewrite IH.
Qed.

Lemma lfilter_length_split {A} (P Q : A -> bool) (l : list A) :
  length (List.filter P l)
  = (length (List.filter (fun x => P x && Q x) l)
     + length (List.filter (fun x => P x && negb (Q x)) l))%nat.
Proof.
  induction l as [|x l IH]; simpl; [done|].
  destruct (P x), (Q x); simpl; lia.
Qed.

Lemma lfilter_none {A} (P : A -> bool) (l : list A) :
  (∀ x, x ∈ l → P x = false) → List.filter P l = [].
Proof.
  induction l as [|x l IH]; intros H; simpl; [done|].
  rewrite (H x) by apply list_elem_of_here.
  apply IH. intros y Hy. apply H. by apply list_elem_of_further.
Qed.

Lemma lmap_id_on {A} (f : A -> A) (l : list A) :
  (∀ x, x ∈ l → f x = x) → List.map f l = l.
Proof.
  induction l as [|x l IH]; intros H; simpl; [done|].
  rewrite (H x) by apply list_elem_of_here. f_equal.
  apply IH. intros y Hy. apply H. by apply list_elem_of_further.
Qed.

Lemma lmap_id_on_filter {A} (P : A -> bool) (l : list A) :
  (∀ x, x ∈ l → negb (P x) = true) →
  List.filter (fun x => negb (P x)) l = l.
Proof.
  induction l as [|x l IH]; intros H; simpl; [done|].
  rewrite (H x) by apply list_elem_of_here. f_equal.
  apply IH. intros y Hy. apply H. by apply list_elem_of_further.
Qed.

Lemma unread_of_set_read (uid : string) (un : receipt_row) :
  unread_of uid (set_read un) = false.
Proof. unfold unread_of. simpl. by rewrite andb_false_r. Qed.

(** X21.  Reading everything empties the counter of that user only:
    [markAllNotificationsRead] reports as [updated] the number of unread
    notifications the user had, afterwards [countUnreadNotifications]
    answers 0 for the user and what it answered before for every other
    user, and no receipt is added, removed or given to another user. *)
Theorem read_all_clears_the_counter (w : world) (uid : string) :
  let o := markAllNotificationsRead true w uid in
  o.1 = countUnreadNotifications true w uid
  ∧ countUnreadNotifications true o.2 uid = Some 0%nat
  ∧ (∀ other, other ≠ uid →
       countUnreadNotifications true o.2 other
       = countUnreadNotifications true w other)
  ∧ receipt_key <$> users_notifications o.2
    = receipt_key <$> users_notifications w.
Proof.
  cbv zeta. unfold markAllNotificationsRead, mark_where,
    countUnreadNotifications. simpl.
  split; [done|]. split; [|split].
  - f_equal. rewrite lfilter_none; [done|].
    intros x Hx. apply elem_of_lmap in Hx as (un & -> & _).
    destruct (unread_of uid un) eqn:Hu; [apply unread_of_set_read|done].
  - intros other Hne. f_equal. apply lfilter_length_ext.
    intros un _. destruct (unread_of uid un) eqn:Hu; [|done].
    unfold unread_of in Hu |- *. simpl.
    apply andb_prop in Hu as [Hu _]. apply andb_prop in Hu as [Hu _].
    apply bool_decide_eq_true in Hu.
    by rewrite !bool_decide_false by congruence.
  - rewrite <- list_fmap_compose. apply list_fmap_ext.
    intros i un _. simpl. by destruct (unread_of uid un).
Qed.

(** X22.  Reading one notification lowers the counter by what was
    updated, once: [markNotificationRead] reports as [updated] the number
    of unread, not withdrawn receipts of the user for the notification,
    the unread count of the user drops by exactly that number, and a
    second call for the same notification updates nothing and leaves the
    tables as they are. *)
Theorem read_one_lowers_the_counter (w : world) (uid : string)
    (notificationId : Z) :
  let o := markNotificationRead true w uid notificationId in
  (∃ k before after,
     o.1 = Some k
     ∧ countUnreadNotifications true w uid = Some before
     ∧ countUnreadNotifications true o.2 uid = Some after
     ∧ before = (after + k)%nat)
  ∧ markNotificationRead true o.2 uid notificationId = (Some 0%nat, o.2).
Proof.
  cbv zeta. unfold markNotificationRead, mark_where,
    countUnreadNotifications. simpl.
  set (hit := fun un => unread_of uid un
                        && bool_decide (un_notification_id un
                                        = Some notificationId)).
  set (f := fun un => if hit un then set_read un else un).
  assert (Hf : ∀ un, unread_of uid (f un)
                     = unread_of uid un
                       && negb (bool_decide (un_notification_id un
                                             = Some notificationId))).
  { intros un. unfold f, hit.
    destruct (unread_of uid un) eqn:Hu; simpl; [|done].
    destruct (bool_decide _); simpl; [apply unread_of_set_read|done]. }
  assert (Hhit : ∀ un, hit (f un) = false).
  { intros un. unfold f. unfold hit. cbv beta.
    destruct (unread_of uid un) eqn:Hu; cbn [andb].
    - destruct (bool_decide (un_notification_id un = Some notificationId))
        eqn:Hb.
      + by rewrite unread_of_set_read.
      + by rewrite Hu, Hb.
    - by rewrite Hu. }
  split.
  - eexists _, _, _. repeat (split; [reflexivity|]).
    rewrite (lfilter_length_ext (unread_of uid)
               (fun un => unread_of uid un
                          && negb (bool_decide (un_notification_id un
                                                = Some notificationId)))
               f) by (intros; apply Hf).
    rewrite (lfilter_length_split (unread_of uid)
               (fun un => bool_decide (un_notification_id un
                                       = Some notificationId))).
    unfold hit. lia.
  - f_equal.
    + f_equal. rewrite lfilter_none; [done|].
      intros x Hx. apply elem_of_lmap in Hx as (un & -> & _). apply Hhit.
    + unfold with_receipts. simpl. f_equal.
      apply lmap_id_on. intros x Hx.
      apply elem_of_lmap in Hx as (un & -> & _).
      change ((if hit (f un) then set_read (f un) else f un) = f un).
      by rewrite Hhit.
Qed.

Lemma insert_desc_elem (x y : inbox_row) (l : list inbox_row) :
  y ∈ insert_desc x l ↔ y = x ∨ y ∈ l.
Proof.
  induction l as [|z l IH]; simpl.
  - rewrite list_elem_of_singleton, elem_of_nil. tauto.
  - destruct (in_sent_at z <? in_sent_at x).
    + by rewrite elem_of_cons.
    + rewrite !elem_of_cons, IH. tauto.
Qed.

Lemma order_desc_elem (y : inbox_row) (l : list inbox_row) :
  y ∈ order_desc l ↔ y ∈ l.
Proof.
  unfold order_desc. induction l as [|x l IH]; simpl; [done|].
  by rewrite insert_desc_elem, elem_of_cons, IH.
Qed.

Lemma insert_desc_length (x : inbox_row) (l : list inbox_row) :
  length (insert_desc x l) = S (length l).
Proof.
  induction l as [|z l IH]; simpl; [done|].
  destruct (_ <? _); simpl; by rewrite ?IH.
Qed.

Lemma insert_desc_sorted (x : inbox_row) (l : list inbox_row) :
  StronglySorted (fun a b => in_sent_at b ≤ in_sent_at a) l →
  StronglySorted (fun a b => in_sent_at b ≤ in_sent_at a) (insert_desc x l).
Proof.
  induction 1 as [|z l Hs IH Hz]; simpl.
  - by repeat constructor.
  - destruct (in_sent_at z <? in_sent_at x) eqn:Hlt.
    + apply Z.ltb_lt in Hlt. constructor; [by constructor|].
      constructor; [lia|].
      eapply Forall_impl; [exact Hz|]. simpl. intros; lia.
    + apply Z.ltb_ge in Hlt. constructor; [done|].
      apply Forall_forall. intros y Hy.
      apply insert_desc_elem in Hy as [->|Hy]; [done|].
      by apply (proj1 (Forall_forall _ _) Hz).
Qed.

Lemma order_desc_sorted (l : list inbox_row) :
  StronglySorted (fun a b => in_sent_at b ≤ in_sent_at a) (order_desc l).
Proof.
  unfold order_desc. induction l as [|x l IH]; simpl; [constructor|].
  by apply insert_desc_sorted.
Qed.

Lemma take_sorted {A} (R : A -> A -> Prop) (n : nat) (l : list A) :
  StronglySorted R l → StronglySorted R (take n l).
Proof.
  intros H. revert n. induction H as [|x l Hs IH Hx]; intros [|n]; simpl;
    try constructor; [apply IH|].
  apply Forall_forall. intros y Hy%take_elem.
  by apply (proj1 (Forall_forall _ _) Hx).
Qed.

Lemma clamp_limit_range (limit : jsval) : 1 ≤ clamp_limit limit ≤ 500.
Proof. unfold clamp_limit. lia. Qed.

Lemma listNotifications_elem (w : world) (uid : string) (limit : jsval)
    (parsedSince : option Z) (r : inbox_row) :
  r ∈ listNotifications w uid limit parsedSince →
  ∃ un n, un ∈ users_notifications w ∧ n ∈ notifications w
          ∧ un_uid un = uid ∧ not_withdrawn un = true
          ∧ un_notification_id un = Some (n_id n)
          ∧ (∀ t, parsedSince = Some t → t ≤ un_sent_at un)
          ∧ in_id r = n_id n ∧ in_offer_id r = n_offer_id n
          ∧ in_sent_at r = un_sent_at un ∧ in_withdrawn r = false.
Proof.
  unfold listNotifications. intros Hr%take_elem.
  rewrite order_desc_elem in Hr.
  apply list_elem_of_bind in Hr as (un & Hr & Hun).
  apply elem_of_lfilter in Hun as [Hun Hc].
  apply andb_prop in Hc as [Hc Hs]. apply andb_prop in Hc as [Hu Hw].
  apply bool_decide_eq_true in Hu.
  unfold inbox_rows_of in Hr.
  apply elem_of_lmap in Hr as (n & -> & Hn).
  apply elem_of_lfilter in Hn as [Hn Hid].
  apply bool_decide_eq_true in Hid.
  exists un, n. simpl. repeat (split; [done|]). split.
  - intros t ->. by apply Z.leb_le.
  - repeat (split; [done|]). unfold not_withdrawn in Hw.
    by apply negb_true_iff in Hw.
Qed.

(** X23.  The inbox is bounded, owned and ordered: [listNotifications]
    answers at most [limit] rows after clamping to 1..500 (200 when the
    limit is missing, zero or not a number), every row joins a receipt of
    the user that is not withdrawn and not older than [since] with its
    notification, and the rows come newest first. *)
Theorem inbox_is_bounded_owned_ordered (w : world) (uid : string)
    (limit : jsval) (parsedSince : option Z) :
  let rows := listNotifications w uid limit parsedSince in
  (Z.of_nat (length rows) ≤ clamp_limit limit ≤ 500)
  ∧ (1 ≤ clamp_limit limit)
  ∧ (parseInt_limit limit = None ∨ parseInt_limit limit = Some 0 →
     clamp_limit limit = 200)
  ∧ (∀ r, r ∈ rows →
       in_withdrawn r = false
       ∧ ∃ un n, un ∈ users_notifications w ∧ n ∈ notifications w
                 ∧ un_uid un = uid
                 ∧ un_notification_id un = Some (n_id n)
                 ∧ in_id r = n_id n ∧ in_offer_id r = n_offer_id n
                 ∧ in_sent_at r = un_sent_at un
                 ∧ ∀ t, parsedSince = Some t → t ≤ in_sent_at r)
  ∧ StronglySorted (fun a b => in_sent_at b ≤ in_sent_at a) rows.
Proof.
  cbv zeta. pose proof (clamp_limit_range limit) as Hc.
  split; [|split; [lia|split; [|split]]].
  - split; [|lia]. unfold listNotifications. rewrite length_take. lia.
  - unfold clamp_limit. intros [->| ->]; done.
  - intros r Hr.
    destruct (listNotifications_elem _ _ _ _ _ Hr)
      as (un & n & ? & ? & ? & ? & ? & Hs & ? & ? & Hsent & ?).
    split; [done|]. exists un, n. repeat (split; [done|]).
    intros t Ht. rewrite Hsent. by apply Hs.
  - unfold listNotifications. apply take_sorted, order_desc_sorted.
Qed.

(** X24.  A retracted notification leaves every inbox: after a
    successful [withdrawNotificationsForOffer(offerId)] no user is listed
    a notification of the offer, and after a successful
    [withdrawNotificationById(id)] no user is listed the notification
    with that id, whatever the limit and the date asked for. *)
Theorem retracted_notification_leaves_inbox (w : world) (uid : string)
    (limit : jsval) (parsedSince : option Z) :
  (∀ offerId r,
     r ∈ listNotifications (withdrawNotificationsForOffer true w offerId).2
           uid limit parsedSince →
     in_offer_id r ≠ Some offerId)
  ∧ (∀ notificationId r,
       r ∈ listNotifications
             (withdrawNotificationById true w notificationId).2
             uid limit parsedSince →
       in_id r ≠ notificationId).
Proof.
  split.
  - intros offerId r Hr Ho.
    apply listNotifications_elem in Hr
      as (un & n & Hun & Hn & _ & Hw & Hid & _ & _ & Hoff & _).
    unfold withdrawNotificationsForOffer in Hun, Hn.
    destruct (withdraw_where_frame true w
                (fun n => bool_decide (n_offer_id n = Some offerId)))
      as [_ Hnn].
    rewrite Hnn in Hn.
    assert (Hsel : bool_decide (n_offer_id n = Some offerId) = true)
      by (apply bool_decide_eq_true; congruence).
    pose proof (withdraw_where_effect w _ n un Hn Hsel Hun Hid) as Hwd.
    unfold not_withdrawn in Hw. by rewrite Hwd in Hw.
  - intros notificationId r Hr Ho.
    apply listNotifications_elem in Hr
      as (un & n & Hun & Hn & _ & Hw & Hid & _ & Hrid & _).
    unfold withdrawNotificationById in Hun, Hn.
    destruct (withdraw_where_frame true w
                (fun n => bool_decide (n_id n = notificationId)))
      as [_ Hnn].
    rewrite Hnn in Hn.
    assert (Hsel : bool_decide (n_id n = notificationId) = true)
      by (apply bool_decide_eq_true; congruence).
    pose proof (withdraw_where_effect w _ n un Hn Hsel Hun Hid) as Hwd.
    unfold not_withdrawn in Hw. by rewrite Hwd in Hw.
Qed.

(** ** Removing a favorite *)

(** X25.  A removed product favorite no longer holds the offer: after
    [removeFavorite({uid, key: offerId, type})] with the type 'offer' or
    no type, the user is not among the favoriters of the offer while
    every other user is among them exactly when they were before;
    [success] is false exactly when no row matched, and then the table
    is unchanged; the other tables are never touched. *)
Theorem removed_favorite_is_no_favoriter (w : world) (uid offerId : string)
    (type : option string) :
  type = None ∨ type = Some "" ∨ type = Some "offer" →
  let o := removeFavorite w uid offerId type in
  (uid ∉ findFavoritersByOffer (favorites o.2) offerId None)
  ∧ (∀ other, other ≠ uid →
       (other ∈ findFavoritersByOffer (favorites o.2) offerId None
        ↔ other ∈ findFavoritersByOffer (favorites w) offerId None))
  ∧ (o.1 = false → favorites o.2 = favorites w)
  ∧ offers o.2 = offers w ∧ users o.2 = users w
  ∧ notifications o.2 = notifications w
  ∧ users_notifications o.2 = users_notifications w.
Proof.
  intros Hty. cbv zeta. unfold removeFavorite. simpl.
  assert (Hrem : ∀ f, fav_type f = "offer" →
            removed uid offerId type f
            = String.eqb (fav_uid f) uid && String.eqb (fav_key f) offerId).
  { intros f Hf. unfold removed.
    destruct Hty as [->|[->| ->]]; simpl; rewrite ?andb_true_r; try done.
    rewrite Hf. simpl. by rewrite andb_true_r. }
  split; [|split; [|split; [|done]]].
  - rewrite findFavoritersByOffer_elem.
    intros (_ & f & Hf & Hu & Ht & [Hk|[? _]]); [|done].
    apply elem_of_lfilter in Hf as [_ Hf].
    rewrite (Hrem f Ht) in Hf. subst.
    by rewrite !String.eqb_refl in Hf.
  - intros other Hne. rewrite !findFavoritersByOffer_elem.
    split; intros (Ho & f & Hf & Hu & Ht & Hk); (split; [done|]);
      exists f; repeat (split; [|done]).
    + by apply elem_of_lfilter in Hf as [? _].
    + apply elem_of_lfilter. split; [done|].
      rewrite (Hrem f Ht).
      assert (String.eqb (fav_uid f) uid = false) as ->; [|done].
      apply String.eqb_neq. congruence.
  - intros Hs. apply Nat.ltb_ge in Hs.
    assert (Hnil : List.filter (removed uid offerId type) (favorites w) = [])
      by (destruct (List.filter _ _); [done|simpl in Hs; lia]).
    apply lmap_id_on_filter. intros f Hf.
    destruct (removed uid offerId type f) eqn:Hr; [|done].
    assert (Hin : f ∈ List.filter (removed uid offerId type) (favorites w))
      by (by apply elem_of_lfilter).
    rewrite Hnil in Hin. by apply elem_of_nil in Hin.
Qed.

Lemma removed_favorite_is_no_favoriter_witness :
  (Some "offer" = None ∨ Some "offer" = Some "" ∨ Some "offer" = Some "offer")
  ∧ ("u2" ∉ findFavoritersByOffer
              (favorites (removeFavorite favorited_world "u2" "o1"
                            (Some "offer")).2) "o1" None).
Proof.
  assert (H : Some "offer" = @None string ∨ Some "offer" = Some ""
              ∨ Some "offer" = Some "offer") by (right; right; reflexivity).
  split; [exact H|].
  exact (proj1 (removed_favorite_is_no_favoriter favorited_world "u2" "o1"
                  (Some "offer") H)).
Defined.

(** ** Updating a user *)

Lemma preference_gate (us : list user_row) (uid : string) (t : match_type) :
  shouldSendNotification (getUserPreferences us uid) t
  = match user_by_uid us uid with
    | Some row =>
        is_true match t with
                | MProduct => u_favorites_products row
                | MKeyword => u_favorites_searches row
                end
    | None => false
    end.
Proof.
  unfold shouldSendNotification, getUserPreferences.
  destruct (user_by_uid us uid) as [row|]; [|done].
  cbn [notifications_push notifications_new_offers favorites_enabled
       favorites_products favorites_searches].
  destruct t, (u_superoffers row) as [[|]|],
    (u_favorites_products row) as [[|]|],
    (u_favorites_searches row) as [[|]|]; done.
Qed.

Lemma user_by_uid_map (f : user_row -> user_row) (us : list user_row)
    (uid : string) :
  (∀ r, u_uid (f r) = u_uid r) →
  user_by_uid (List.map f us) uid = f <$> user_by_uid us uid.
Proof.
  intros Hf. unfold user_by_uid.
  induction us as [|x us IH]; simpl; [done|].
  rewrite Hf. by destruct (bool_decide (u_uid x = uid)).
Qed.

Lemma head_filter_find {A} (P : A -> bool) (l : list A) :
  head (List.filter P l) = List.find P l.
Proof.
  induction l as [|x l IH]; simpl; [done|]. by destruct (P x).
Qed.

(** X26.  A preference that is set is the preference that is read:
    when [updateUser(uid, updates)] carries a value for
    [favorites_products] (any value but [undefined] and [null]) and the
    user has a row, the call answers [{success: true}] with the updated
    row, [getUserPreferences] then reports [toBool] of the value and the
    product notifications of the user are gated by it; no column of the
    row is ever cleared (a column that held a value still holds one),
    the row of every other user is untouched, and for a user without a
    row the call answers [{success: false, row: null}] and changes
    nothing. *)
Theorem updated_preference_is_read_back (columns : list string)
    (w : world) (uid : string) (u : Users.user_updates) (v : jsval) :
  uid ≠ "" → "uid" ∈ columns → "favorites_products" ∈ columns →
  Users.up_favorites_products u = Val v → v ≠ JNull → v ≠ JUndefined →
  let o := Users.updateUser columns w uid u in
  (∀ row, user_by_uid (users w) uid = Some row →
     ∃ row',
       o.1 = Users.Updated true (Some row')
       ∧ user_by_uid (users o.2) uid = Some row'
       ∧ u_favorites_products row' = Some (toBool v)
       ∧ shouldSendNotification (getUserPreferences (users o.2) uid)
           MProduct = toBool v
       ∧ (is_Some (u_token_fcm row) → is_Some (u_token_fcm row'))
       ∧ (is_Some (u_superoffers row) → is_Some (u_superoffers row'))
       ∧ (is_Some (u_favorites_searches row) →
          is_Some (u_favorites_searches row')))
  ∧ (user_by_uid (users w) uid = None →
     o.1 = Users.Updated false None ∧ users o.2 = users w)
  ∧ (∀ other, other ≠ uid →
       user_by_uid (users o.2) other = user_by_uid (users w) other)
  ∧ offers o.2 = offers w ∧ favorites o.2 = favorites w
  ∧ notifications o.2 = notifications w
  ∧ users_notifications o.2 = users_notifications w.
Proof.
  intros Huid Hc Hfp Hv Hn1 Hn2.
  assert (Hflag : Users.flag_value columns "favorites_products"
                    (Users.up_favorites_products u) = Some (toBool v)).
  { unfold Users.flag_value. rewrite Hv. unfold mem_str.
    rewrite (bool_decide_true _ Hfp). by destruct v. }
  set (f := fun r => if bool_decide (u_uid r = uid)
                     then Users.assign_columns columns u r else r).
  assert (Hupd : Users.updateUser columns w uid u
                 = (Users.Updated
                      (0 <? length (List.filter
                                      (fun r => bool_decide (u_uid r = uid))
                                      (List.map f (users w))))%nat
                      (head (List.filter
                               (fun r => bool_decide (u_uid r = uid))
                               (List.map f (users w)))),
                    Users.with_users w (List.map f (users w)))).
  { unfold Users.updateUser.
    assert (truthy_str uid = true) as -> by (by destruct uid).
    unfold mem_str. rewrite (bool_decide_true _ Hc). cbn [negb].
    assert ((Users.assignments columns u =? 0)%nat = false) as ->; [|done].
    apply Nat.eqb_neq. unfold Users.assignments. rewrite Hflag.
    simpl. lia. }
  cbv zeta. rewrite Hupd. cbn [fst snd]. clear Hupd.
  assert (Hf : ∀ r, u_uid (f r) = u_uid r).
  { intros r. unfold f. by destruct (bool_decide _). }
  assert (Hfind : ∀ k, user_by_uid (List.map f (users w)) k
                       = f <$> user_by_uid (users w) k).
  { intros k. by apply user_by_uid_map. }
  split; [|split; [|split; [|by repeat split]]].
  - intros row Hrow.
    assert (Hru : u_uid row = uid).
    { unfold user_by_uid in Hrow. apply find_some in Hrow as [_ H].
      by apply bool_decide_eq_true in H. }
    exists (Users.assign_columns columns u row).
    assert (Hfr : f row = Users.assign_columns columns u row).
    { unfold f. by rewrite bool_decide_true. }
    assert (Hh : head (List.filter (fun r => bool_decide (u_uid r = uid))
                         (List.map f (users w)))
                 = Some (Users.assign_columns columns u row)).
    { rewrite head_filter_find.
      change (user_by_uid (List.map f (users w)) uid
              = Some (Users.assign_columns columns u row)).
      by rewrite Hfind, Hrow, <- Hfr. }
    split.
    { rewrite Hh. destruct (List.filter _ _); [done|]. done. }
    unfold Users.with_users. cbn [users].
    split; [by rewrite Hfind, Hrow, <- Hfr|].
    split; [simpl; by rewrite Hflag|].
    split.
    { rewrite preference_gate, Hfind, Hrow.
      change (f <$> Some row) with (Some (f row)). rewrite Hfr.
      unfold Users.assign_columns. cbn [u_favorites_products].
      rewrite Hflag. by destruct (toBool v). }
    simpl. repeat split; intros [x Hx]; rewrite Hx; by case_match.
  - intros Hnone. unfold Users.with_users. cbn [users].
    assert (Hid : List.map f (users w) = users w).
    { apply lmap_id_on. intros r Hr. unfold f.
      destruct (bool_decide (u_uid r = uid)) eqn:Hb; [|done].
      exfalso. unfold user_by_uid in Hnone.
      apply list_elem_of_In in Hr.
      pose proof (find_none _ _ Hnone r Hr) as Hx. simpl in Hx. congruence. }
    rewrite Hid. split; [|done].
    rewrite lfilter_none; [done|].
    intros r Hr. unfold user_by_uid in Hnone. apply list_elem_of_In in Hr.
    apply (find_none _ _ Hnone r Hr).
  - intros other Hne. unfold Users.with_users. cbn [users].
    rewrite Hfind. destruct (user_by_uid (users w) other) as [r|] eqn:Hr;
      [|done].
    simpl. f_equal. unfold f.
    assert (u_uid r = other).
    { unfold user_by_uid in Hr. apply find_some in Hr as [_ H].
      by apply bool_decide_eq_true in H. }
    by rewrite bool_decide_false by congruence.
Qed.

Lemma updated_preference_is_read_back_witness :
  "u1" ≠ "" ∧ "uid" ∈ ["uid"; "favorites_products"]
  ∧ "favorites_products" ∈ ["uid"; "favorites_products"]
  ∧ Users.up_favorites_products opt_out = Val (JStr "no")
  ∧ JStr "no" ≠ JNull ∧ JStr "no" ≠ JUndefined
  ∧ shouldSendNotification
      (getUserPreferences
         (users (Users.updateUser ["uid"; "favorites_products"] quiet_world
                   "u1" opt_out).2) "u1") MProduct
    = false.
Proof.
  assert (H1 : "u1" ≠ "") by done.
  assert (H2 : "uid" ∈ ["uid"; "favorites_products"])
    by apply list_elem_of_here.
  assert (H3 : "favorites_products" ∈ ["uid"; "favorites_products"])
    by apply list_elem_of_further, list_elem_of_here.
  assert (H4 : Users.up_favorites_products opt_out = Val (JStr "no"))
    by reflexivity.
  assert (H5 : JStr "no" ≠ JNull) by done.
  assert (H6 : JStr "no" ≠ JUndefined) by done.
  repeat (split; [assumption|]).
  destruct (proj1 (updated_preference_is_read_back
                     ["uid"; "favorites_products"] quiet_world "u1" opt_out
                     (JStr "no") H1 H2 H3 H4 H5 H6) alice eq_refl)
    as (row' & _ & _ & _ & Hgate & _).
  exact Hgate.
Defined.

(** ** Categorization *)

Lemma mapResponseToCategory_configured (resp c : string) :
  Groq.mapResponseToCategory resp = Some c → c ∈ CATEGORIES.
Proof.
  unfold Groq.mapResponseToCategory.
  destruct (List.find (Groq.same_name resp) CATEGORIES) as [cat|] eqn:H1.
  - intros [= <-]. apply find_some in H1 as [H1 _].
    by apply list_elem_of_In.
  - intros H2. apply find_some in H2 as [H2 _]. by apply list_elem_of_In.
Qed.

Lemma find_by_key {A} (key : A -> string) (P : A -> bool) (l : list A)
    (c : A) :
  NoDup (key <$> l) → c ∈ l →
  (∀ x, x ∈ l → P x = true ↔ key x = key c) →
  List.find P l = Some c.
Proof.
  induction l as [|x l IH]; intros Hnd Hc HP; [by apply elem_of_nil in Hc|].
  simpl. rewrite fmap_cons in Hnd. apply NoDup_cons in Hnd as [Hx Hnd].
  destruct (P x) eqn:Hpx.
  - apply HP in Hpx; [|apply list_elem_of_here].
    apply elem_of_cons in Hc as [->|Hc]; [done|].
    exfalso. apply Hx. rewrite Hpx. apply list_elem_of_fmap. eauto.
  - apply elem_of_cons in Hc as [->|Hc].
    + assert (P x = true) by (apply HP; [apply list_elem_of_here|done]).
      congruence.
    + apply IH; [done..|]. intros y Hy. apply HP.
      by apply list_elem_of_further.
Qed.

Lemma CATEGORIES_distinct : NoDup (toLowerCase <$> CATEGORIES).
Proof. refine (bool_decide_unpack _ _). by vm_compute. Qed.

(** X27.  A configured category is recognised in any letter case, and
    nothing else is ever answered: [mapResponseToCategory] maps a
    response that equals a category of [CATEGORIES] up to the case of its
    letters to exactly that category, and whatever it answers is a
    member of [CATEGORIES]. *)
Theorem configured_category_is_recognised (resp c : string) :
  c ∈ CATEGORIES → toLowerCase resp = toLowerCase c →
  Groq.mapResponseToCategory resp = Some c
  ∧ ∀ r c', Groq.mapResponseToCategory r = Some c' → c' ∈ CATEGORIES.
Proof.
  intros Hc Hl. split; [|apply mapResponseToCategory_configured].
  unfold Groq.mapResponseToCategory.
  rewrite (find_by_key toLowerCase (Groq.same_name resp) CATEGORIES c);
    [done|apply CATEGORIES_distinct|done|].
  intros x _. unfold Groq.same_name. rewrite String.eqb_eq, Hl.
  split; congruence.
Qed.

Lemma configured_category_is_recognised_witness :
  "Kindle Store" ∈ CATEGORIES
  ∧ toLowerCase "KINDLE store" = toLowerCase "Kindle Store"
  ∧ Groq.mapResponseToCategory "KINDLE store" = Some "Kindle Store".
Proof.
  assert (H1 : "Kindle Store" ∈ CATEGORIES)
    by (refine (bool_decide_unpack _ _); by vm_compute).
  assert (H2 : toLowerCase "KINDLE store" = toLowerCase "Kindle Store")
    by reflexivity.
  split; [exact H1|]. split; [exact H2|].
  exact (proj1 (configured_category_is_recognised "KINDLE store"
                  "Kindle Store" H1 H2)).
Defined.





(** ** Paging of the catalogue *)

Example parseInt_values :
  Offers.parseInt "42" = Some 42
  ∧ Offers.parseInt "  -7px" = Some (-7)
  ∧ Offers.parseInt "0x1F" = Some 31
  ∧ Offers.parseInt "abc" = None
  ∧ Offers.parseInt "" = None
  ∧ parseInt10 "0x1F" = Some 0.
Proof. by vm_compute. Qed.


(** ** Receipts of a fan-out *)

(** X30.  One unread receipt per delivered message: when the id the
    journal gives the notification is not 0, [notifyUsersAboutOffer]
    appends to [users_notifications] exactly one receipt for each entry
    of the list it returns, in that order, each for the new
    notification, sent now, unread and not withdrawn; the receipts that
    were there are untouched. *)
Theorem fanout_leaves_one_unread_receipt_each (now : Z) (fcm : provider)
    (w : world) (userIds : list string) (p : post) (offerId : string)
    (opts : notify_options) :
  notifications_seq w + 1 ≠ 0 →
  let o := notifyUsersAboutOffer now fcm w userIds p offerId opts in
  ∃ added,
    users_notifications o.2 = users_notifications w ++ added
    ∧ un_uid <$> added = o.1
    ∧ ∀ un, un ∈ added →
        un_notification_id un = Some (notifications_seq w + 1)
        ∧ un_sent_at un = now
        ∧ un_read un = Some false ∧ un_withdrawn un = Some false.
Proof.
  intros Hid. cbv zeta. unfold notifyUsersAboutOffer.
  unfold insert_notification. cbv zeta.
  cbn [users favorites notifications_seq].
  set (w1 := {| offers := offers w; favorites := favorites w;
                users := users w;
                notifications := notifications w ++ _;
                users_notifications := users_notifications w;
                notifications_seq := notifications_seq w + 1 |}).
  set (notified := fulfilled_values (imap (notify_task (users w) fcm) userIds)).
  destruct notified as [|u l] eqn:Hn.
  { exists []. rewrite app_nil_r. simpl.
    split; [done|]. split; [done|]. by intros un ?%elem_of_nil. }
  rewrite <- Hn. clear Hn. cbn [fst snd].
  assert (truthy_num (notifications_seq w + 1) = true) as ->.
  { unfold truthy_num. apply negb_true_iff. by apply Z.eqb_neq. }
  unfold with_receipts. cbn [users_notifications].
  rewrite createFirestoreNotificationDoc_receipts.
  eexists. split; [reflexivity|]. split.
  - rewrite <- list_fmap_compose. simpl.
    by rewrite list_fmap_id.
  - intros un Hun. apply elem_of_lmap in Hun as (uid & -> & _). done.
Qed.

Lemma fanout_leaves_one_unread_receipt_each_witness :
  notifications_seq quiet_world + 1 ≠ 0
  ∧ ∃ added,
      users_notifications
        (notifyUsersAboutOffer 5000 all_delivered quiet_world ["u1"]
           headphones "o1" (heart false)).2
      = users_notifications quiet_world ++ added
      ∧ un_uid <$> added
        = (notifyUsersAboutOffer 5000 all_delivered quiet_world ["u1"]
             headphones "o1" (heart false)).1
      ∧ ∀ un, un ∈ added →
          un_notification_id un = Some (notifications_seq quiet_world + 1)
          ∧ un_sent_at un = 5000
          ∧ un_read un = Some false ∧ un_withdrawn un = Some false.
Proof.
  assert (H : notifications_seq quiet_world + 1 ≠ 0) by (by vm_compute).
  split; [exact H|].
  exact (fanout_leaves_one_unread_receipt_each 5000 all_delivered
           quiet_world ["u1"] headphones "o1" (heart false) H).
Defined.
